(** * Working-days calculator (Colombian business calendar)

    A shallow embedding of the business-calendar engine of the
    repository: [holidayService.ts] (class [HolidayService]),
    [dateUtils.ts] (working-day and business-hours predicates, backward
    adjustment), [workingDaysService.ts] (forward advancement), the
    constants of [types/index.ts] and the error middleware
    [errorHandler.ts].

    Conventions of the embedding.
    - A JavaScript [Date] is its time value: an integer number of
      milliseconds since 1970-01-01T00:00:00Z.  All dates handled stay
      far inside the range where ECMAScript dates are valid.
    - A "YYYY-MM-DD" string is a record of its three numeric fields;
      the payload of the holiday provider is a list of such strings.
      The order of the records is the order of the strings for the
      years 0000 to 9999, where [toISOString] writes four digits.
    - A Luxon [DateTime] is its time stamp together with the offset of
      its zone, in minutes; America/Bogota is the fixed offset -05:00
      (no daylight saving, as in force since 1993).
    - The time zone of the process (used by [new Date(y, m, d)],
      [getDay] and [getFullYear]) is a fixed offset [tz], in minutes
      east of UTC; it is a parameter of the development.  A zone with
      daylight saving, whose offset changes in the year, is not
      covered.
    - Durations in hours ([remainingHours], [hoursToAdd], ...) are kept
      as exact counts of milliseconds; the source holds the quotient
      by 3 600 000 in a double.
    - [while] loops and the recursion of [adjustToPreviousWorkingTime]
      take a fuel argument; [None] means the fuel ran out.
    - The functions of [dateUtils.ts] and [workingDaysService.ts] take
      the list [H] that [fetchAllHolidays] yields; it is the same at
      every call of one calculation ([fetchAllHolidays_stable]) as long
      as the provider keeps its answer. *)

From Stdlib Require Import ZArith List Bool Lia String Permutation ZifyBool Sorted.
Import ListNotations.
Local Open Scope Z_scope.

(** ** Civil calendar *)

Module Civil.

Record DateStr := mkDate { dyear : Z; dmonth : Z; dday : Z }.

Definition DateStr_eqb (a b : DateStr) : bool :=
  (dyear a =? dyear b) && (dmonth a =? dmonth b) && (dday a =? dday b).

(** [a.localeCompare(b)] on two "YYYY-MM-DD" strings, as [a <= b]: the
    order of the dates, for years 0000 to 9999. *)
Definition DateStr_leb (a b : DateStr) : bool :=
  (dyear a <? dyear b)
  || ((dyear a =? dyear b)
      && ((dmonth a <? dmonth b)
          || ((dmonth a =? dmonth b) && (dday a <=? dday b)))).

Definition isLeap (y : Z) : bool :=
  ((y mod 4 =? 0) && negb (y mod 100 =? 0)) || (y mod 400 =? 0).

Definition daysInMonth (y m : Z) : Z :=
  if m =? 2 then (if isLeap y then 29 else 28)
  else if (m =? 4) || (m =? 6) || (m =? 9) || (m =? 11) then 30
  else 31.

Definition validDate (y m d : Z) : bool :=
  (1 <=? m) && (m <=? 12) && (1 <=? d) && (d <=? daysInMonth y m).

(** Day number (days since 1970-01-01) of the proleptic Gregorian date
    [y]-[m]-[d]; years are counted from March inside 400-year eras. *)
Definition days_from_civil (y m d : Z) : Z :=
  let y' := if m <=? 2 then y - 1 else y in
  let era := y' / 400 in
  let yoe := y' - era * 400 in
  let mp := if 2 <? m then m - 3 else m + 9 in
  let doy := (153 * mp + 2) / 5 + d - 1 in
  let doe := yoe * 365 + yoe / 4 - yoe / 100 + doy in
  era * 146097 + doe - 719468.

(** The civil date of a day number. *)
Definition civil_from_days (z : Z) : DateStr :=
  let z' := z + 719468 in
  let era := z' / 146097 in
  let doe := z' - era * 146097 in
  let yoe := (doe - doe / 1460 + doe / 36524 - doe / 146096) / 365 in
  let y := yoe + era * 400 in
  let doy := doe - (365 * yoe + yoe / 4 - yoe / 100) in
  let mp := (5 * doy + 2) / 153 in
  let d := doy - (153 * mp + 2) / 5 + 1 in
  let m := if mp <? 10 then mp + 3 else mp - 9 in
  mkDate (if m <=? 2 then y + 1 else y) m d.

Definition days_of (s : DateStr) : Z :=
  days_from_civil (dyear s) (dmonth s) (dday s).

End Civil.

Import Civil.

(** ** JavaScript [Date] *)

Module JS.

Definition msPerMinute : Z := 60000.
Definition msPerHour : Z := 3600000.
Definition msPerDay : Z := 86400000.

(** The time value of a [Date]. *)
Definition JSDate := Z.

(** Day number of a time value: [Day(t) = floor(t / msPerDay)]. *)
Definition Day (t : Z) : Z := t / msPerDay.

(** [new Date(year, monthIndex, day)]: local midnight of that date in
    the zone of the process, the fixed offset [tz].  Years 0..99 denote
    1900..1999; a month index outside 0..11 carries into the year. *)
Definition Date_local (tz : Z) (year monthIndex day : Z) : JSDate :=
  let yr := if (0 <=? year) && (year <=? 99) then 1900 + year else year in
  let ym := yr + monthIndex / 12 in
  let mn := monthIndex mod 12 in
  (days_from_civil ym (mn + 1) 1 + (day - 1)) * msPerDay - tz * msPerMinute.

Definition getTime (d : JSDate) : Z := d.

(** [new Date(ms)]. *)
Definition Date_of_time (ms : Z) : JSDate := ms.

(** [date.getDay()]: local day of the week, 0 = Sunday. *)
Definition getDay (tz : Z) (d : JSDate) : Z :=
  (Day (d + tz * msPerMinute) + 4) mod 7.

(** [date.getFullYear()]: local year. *)
Definition getFullYear (tz : Z) (d : JSDate) : Z :=
  dyear (civil_from_days (Day (d + tz * msPerMinute))).

(** [date.toISOString().split('T')[0]]: the UTC civil date, for a
    time value in the range of [Date] ([toISOString] throws outside). *)
Definition toISODate (d : JSDate) : DateStr := civil_from_days (Day d).

(** [new Date(dateStr)] for a date-only string, as ECMAScript
    specifies it: UTC midnight of that date, or an invalid date
    ([None]) when the fields name no date.  (For a day past the end of
    its month, up to 31, Node returns the date that many days on
    instead; the provider lists dates.) *)
Definition Date_parse (s : DateStr) : option JSDate :=
  if validDate (dyear s) (dmonth s) (dday s)
  then Some (days_of s * msPerDay) else None.

(** JavaScript [%]: the remainder takes the sign of the dividend. *)
Definition jsrem (a b : Z) : Z := Z.rem a b.

(** [Math.floor(a / b)] on integers. *)
Definition floordiv (a b : Z) : Z := a / b.

End JS.

Import JS.

(** ** Luxon [DateTime] *)

Module Luxon.

Record DateTime := mkDateTime { ts : Z; offset : Z }.

Definition bogotaOffset : Z := -300.

Definition setZone (o : Z) (dt : DateTime) : DateTime :=
  {| ts := ts dt; offset := o |}.
Definition toUTC (dt : DateTime) : DateTime := setZone 0 dt.
Definition toJSDate (dt : DateTime) : JSDate := ts dt.

Definition localMillis (dt : DateTime) : Z := ts dt + offset dt * msPerMinute.
Definition localDay (dt : DateTime) : Z := Day (localMillis dt).
Definition millisOfDay (dt : DateTime) : Z := localMillis dt mod msPerDay.

Definition hour (dt : DateTime) : Z := millisOfDay dt / msPerHour.
Definition minute (dt : DateTime) : Z := (millisOfDay dt mod msPerHour) / msPerMinute.

(** Day of the week of a day number, 1 = Monday ... 7 = Sunday. *)
Definition weekdayOfDay (d : Z) : Z := (d + 3) mod 7 + 1.
Definition weekday (dt : DateTime) : Z := weekdayOfDay (localDay dt).

(** [dt.plus({ days: n })] and [dt.minus({ days: n })]. *)
Definition plusDays (dt : DateTime) (n : Z) : DateTime :=
  {| ts := ts dt + n * msPerDay; offset := offset dt |}.
Definition minusDays (dt : DateTime) (n : Z) : DateTime := plusDays dt (- n).

(** [dt.plus({ hours: h })], with [h] given in milliseconds. *)
Definition plusMillis (dt : DateTime) (ms : Z) : DateTime :=
  {| ts := ts dt + ms; offset := offset dt |}.

(** [dt.set({ hour: h, minute: m, second: 0, millisecond: 0 })]. *)
Definition setTime (dt : DateTime) (h m : Z) : DateTime :=
  {| ts := localDay dt * msPerDay + h * msPerHour + m * msPerMinute
           - offset dt * msPerMinute;
     offset := offset dt |}.

(** [a.diff(b).milliseconds]. *)
Definition diff (a b : DateTime) : Z := ts a - ts b.

(** [dt.toFormat('yyyy-MM-dd')]: the local civil date. *)
Definition localDate (dt : DateTime) : DateStr := civil_from_days (localDay dt).

End Luxon.

Import Luxon.

(** ** [types/index.ts] *)

Record BusinessHours := {
  startHour : Z; startMinute : Z;
  endHour : Z; endMinute : Z;
  lunchStartHour : Z; lunchStartMinute : Z;
  lunchEndHour : Z; lunchEndMinute : Z
}.

Definition BusinessHoursConfig : BusinessHours := {|
  startHour := 8; startMinute := 0;
  endHour := 17; endMinute := 0;
  lunchStartHour := 12; lunchStartMinute := 0;
  lunchEndHour := 13; lunchEndMinute := 0
|}.

Inductive HolidayType := national | regional.

Record ColombianHoliday := {
  date : DateStr;
  name : string;
  type : HolidayType
}.

(** ** [services/holidayService.ts] *)

Module HolidayService.

Record HolidayRule := { month : Z; day : Z; ruleName : string }.

(** Festivos fijos de Colombia. *)
Definition FIXED_HOLIDAYS : list HolidayRule := [
  {| month := 1; day := 1; ruleName := "Año Nuevo" |};
  {| month := 5; day := 1; ruleName := "Día del Trabajo" |};
  {| month := 7; day := 20; ruleName := "Día de la Independencia" |};
  {| month := 8; day := 7; ruleName := "Batalla de Boyacá" |};
  {| month := 12; day := 8; ruleName := "Inmaculada Concepción" |};
  {| month := 12; day := 25; ruleName := "Navidad" |}
].

(** Festivos que se trasladan al lunes siguiente. *)
Definition MOVABLE_HOLIDAYS : list HolidayRule := [
  {| month := 1; day := 6; ruleName := "Día de los Reyes Magos" |};
  {| month := 3; day := 19; ruleName := "Día de San José" |};
  {| month := 6; day := 29; ruleName := "San Pedro y San Pablo" |};
  {| month := 8; day := 15; ruleName := "Asunción de la Virgen" |};
  {| month := 10; day := 12; ruleName := "Día de la Raza" |};
  {| month := 11; day := 1; ruleName := "Día de Todos los Santos" |};
  {| month := 11; day := 11; ruleName := "Independencia de Cartagena" |}
].

(** The two caches of the service object. *)
Record State := {
  holidaysCache : list (Z * list DateStr);
  allHolidaysCache : option (list DateStr)
}.

Definition initial : State :=
  {| holidaysCache := []; allHolidaysCache := None |}.

Definition cacheGet (year : Z) (s : State) : option (list DateStr) :=
  match find (fun e => fst e =? year) (holidaysCache s) with
  | Some e => Some (snd e)
  | None => None
  end.

Definition cacheSet (year : Z) (v : list DateStr) (s : State) : State :=
  {| holidaysCache := (year, v) :: holidaysCache s;
     allHolidaysCache := allHolidaysCache s |}.

(** What [axios.get(HOLIDAYS_URL)] settles to: the payload, or [None]
    when the request is rejected. *)
Definition Response := option (list DateStr).

Definition fetchAllHolidays (net : Response) (s : State)
  : list DateStr * State :=
  match allHolidaysCache s with
  | Some cached => (cached, s)
  | None =>
      match net with
      | Some holidays =>
          (holidays, {| holidaysCache := holidaysCache s;
                        allHolidaysCache := Some holidays |})
      | None => ([], s)
      end
  end.

(** Month and day of Easter Sunday, as [calculateEaster] computes them. *)
Definition easterMonthDay (year : Z) : Z * Z :=
  let a := jsrem year 19 in
  let b := floordiv year 100 in
  let c := jsrem year 100 in
  let d := floordiv b 4 in
  let e := jsrem b 4 in
  let f := floordiv (b + 8) 25 in
  let g := floordiv (b - f + 1) 3 in
  let h := jsrem (19 * a + b - d - g + 15) 30 in
  let i := floordiv c 4 in
  let k := jsrem c 4 in
  let l := jsrem (32 + 2 * e + 2 * i - h - k) 7 in
  let m := floordiv (a + 11 * h + 22 * l) 451 in
  let month := floordiv (h + l - 7 * m + 114) 31 in
  let day := jsrem (h + l - 7 * m + 114) 31 + 1 in
  (month, day).

Definition calculateEaster (tz : Z) (year : Z) : JSDate :=
  let (month, day) := easterMonthDay year in
  Date_local tz year (month - 1) day.

Definition moveToNextMonday (tz : Z) (date : JSDate) : JSDate :=
  if getDay tz date =? 1 then date
  else
    let daysToAdd := jsrem (8 - getDay tz date) 7 in
    Date_of_time (getTime date + daysToAdd * 24 * 60 * 60 * 1000).

(** The record pushed for a date; the guards [if (dateStr)] of the
    source always pass, the date part of an ISO string is not empty. *)
Definition holidayOn (d : JSDate) (n : string) : ColombianHoliday :=
  {| date := toISODate d; name := n; type := national |}.

(** Stable sort by [date], for [holidays.sort(...)]. *)
Fixpoint insertByDate (h : ColombianHoliday) (l : list ColombianHoliday)
  : list ColombianHoliday :=
  match l with
  | [] => [h]
  | x :: r =>
      if DateStr_leb (date x) (date h) then x :: insertByDate h r
      else h :: l
  end.

Definition sortByDate (l : list ColombianHoliday) : list ColombianHoliday :=
  fold_left (fun acc h => insertByDate h acc) l [].

Definition calculateColombianHolidays (tz : Z) (year : Z)
  : list ColombianHoliday :=
  let fixed :=
    map (fun holiday =>
           holidayOn (Date_local tz year (month holiday - 1) (day holiday))
                     (ruleName holiday))
        FIXED_HOLIDAYS in
  let movable :=
    map (fun holiday =>
           let originalDate :=
             Date_local tz year (month holiday - 1) (day holiday) in
           let finalDate :=
             if negb (getDay tz originalDate =? 1) then
               let daysToAdd := jsrem (8 - getDay tz originalDate) 7 in
               Date_of_time
                 (getTime originalDate + daysToAdd * 24 * 60 * 60 * 1000)
             else originalDate in
           holidayOn finalDate (ruleName holiday))
        MOVABLE_HOLIDAYS in
  let easterDate := calculateEaster tz year in
  let holyThursday :=
    Date_of_time (getTime easterDate - 3 * 24 * 60 * 60 * 1000) in
  let goodFriday :=
    Date_of_time (getTime easterDate - 2 * 24 * 60 * 60 * 1000) in
  let ascension :=
    Date_of_time (getTime easterDate + 39 * 24 * 60 * 60 * 1000) in
  let ascensionMonday := moveToNextMonday tz ascension in
  let corpusChristi :=
    Date_of_time (getTime easterDate + 60 * 24 * 60 * 60 * 1000) in
  let corpusChristiMonday := moveToNextMonday tz corpusChristi in
  let sacredHeart :=
    Date_of_time (getTime easterDate + 68 * 24 * 60 * 60 * 1000) in
  let sacredHeartMonday := moveToNextMonday tz sacredHeart in
  sortByDate
    (fixed ++ movable
     ++ [ holidayOn holyThursday "Jueves Santo";
          holidayOn goodFriday "Viernes Santo";
          holidayOn ascensionMonday "Ascensión del Señor";
          holidayOn corpusChristiMonday "Corpus Christi";
          holidayOn sacredHeartMonday "Sagrado Corazón de Jesús" ]).

Definition festivo (d : DateStr) : ColombianHoliday :=
  {| date := d; name := "Día Festivo"; type := national |}.

(** [new Date(dateStr).getFullYear() === year]; an invalid date has
    year [NaN]. *)
Definition yearIs (tz : Z) (year : Z) (dateStr : DateStr) : bool :=
  match Date_parse dateStr with
  | Some d => getFullYear tz d =? year
  | None => false
  end.

Definition fetchHolidays (tz : Z) (net : Response) (s : State) (year : Z)
  : list ColombianHoliday * State :=
  match cacheGet year s with
  | Some cached => (map festivo cached, s)
  | None =>
      let (allHolidays, s1) := fetchAllHolidays net s in
      let yearHolidays := filter (yearIs tz year) allHolidays in
      if (Z.of_nat (List.length yearHolidays) =? 0) then
        let localHolidays := calculateColombianHolidays tz year in
        (localHolidays, cacheSet year (map date localHolidays) s1)
      else
        (map festivo yearHolidays, cacheSet year yearHolidays s1)
  end.

Definition getHolidaysForYear := fetchHolidays.

(** [allHolidays.includes(dateStr)]. *)
Definition includes (l : list DateStr) (dateStr : DateStr) : bool :=
  existsb (DateStr_eqb dateStr) l.

Definition isHoliday (net : Response) (s : State) (d : JSDate)
  : bool * State :=
  let dateStr := toISODate d in
  let (allHolidays, s1) := fetchAllHolidays net s in
  (includes allHolidays dateStr, s1).

(** The list every [fetchAllHolidays] of one calculation yields, for a
    given state of the service and a given answer of the provider. *)
Definition externalHolidays (net : Response) (s : State) : list DateStr :=
  fst (fetchAllHolidays net s).

End HolidayService.

Import HolidayService.

(** ** [utils/dateUtils.ts] *)

Notation "x <- e ;; k" :=
  (match e with Some x => k | None => None end)
  (at level 61, e at next level, right associativity).

(** [DateTime.fromJSDate(date).setZone('America/Bogota')]: the time
    stamp is kept, the zone of the process is replaced at once. *)
Definition utcToColombiaTime (d : JSDate) : DateTime :=
  setZone bogotaOffset {| ts := d; offset := 0 |}.

Definition colombiaTimeToUtc (d : DateTime) : JSDate :=
  toJSDate (toUTC (setZone bogotaOffset d)).

(** [isWorkingDay], for the list [H] that [fetchAllHolidays] yields. *)
Definition isWorkingDay (H : list DateStr) (d : JSDate) : bool :=
  let colombiaTime := utcToColombiaTime d in
  let dayOfWeek := weekday colombiaTime in
  if (dayOfWeek =? 6) || (dayOfWeek =? 7) then false
  else negb (includes H (toISODate d)).

Definition isWithinBusinessHours (d : DateTime) : bool :=
  let hour := hour d in
  let minute := minute d in
  if (hour <? startHour BusinessHoursConfig)
     || ((hour =? startHour BusinessHoursConfig)
         && (minute <? startMinute BusinessHoursConfig))
  then false
  else if (endHour BusinessHoursConfig <? hour)
          || ((hour =? endHour BusinessHoursConfig)
              && (endMinute BusinessHoursConfig <? minute))
  then false
  else if ((hour =? lunchStartHour BusinessHoursConfig)
           && (lunchStartMinute BusinessHoursConfig <=? minute))
          || ((lunchStartHour BusinessHoursConfig <? hour)
              && (hour <? lunchEndHour BusinessHoursConfig))
          || ((hour =? lunchEndHour BusinessHoursConfig)
              && (minute <=? lunchEndMinute BusinessHoursConfig))
  then false
  else true.

(** [while (!await isWorkingDay(cur.toJSDate())) cur = step(cur);] *)
Fixpoint untilWorkingDay (fuel : nat) (H : list DateStr)
  (step : DateTime -> DateTime) (cur : DateTime) : option DateTime :=
  if isWorkingDay H (toJSDate cur) then Some cur
  else match fuel with
       | O => None
       | S f => untilWorkingDay f H step (step cur)
       end.

Definition endOfBusinessDay (d : DateTime) : DateTime :=
  setTime d (endHour BusinessHoursConfig) (endMinute BusinessHoursConfig).

Definition previousDayEnd (d : DateTime) : DateTime :=
  endOfBusinessDay (minusDays d 1).

Definition beforeBusinessHours (d : DateTime) : bool :=
  (hour d <? startHour BusinessHoursConfig)
  || ((hour d =? startHour BusinessHoursConfig)
      && (minute d <? startMinute BusinessHoursConfig)).

Definition afterBusinessHours (d : DateTime) : bool :=
  (endHour BusinessHoursConfig <? hour d)
  || ((hour d =? endHour BusinessHoursConfig)
      && (endMinute BusinessHoursConfig <? minute d)).

Definition duringLunchBreak (d : DateTime) : bool :=
  ((lunchStartHour BusinessHoursConfig <? hour d)
   || ((hour d =? lunchStartHour BusinessHoursConfig)
       && (lunchStartMinute BusinessHoursConfig <=? minute d)))
  && ((hour d <? lunchEndHour BusinessHoursConfig)
      || ((hour d =? lunchEndHour BusinessHoursConfig)
          && (minute d <? lunchEndMinute BusinessHoursConfig))).

Fixpoint adjustToPreviousWorkingTime (fuel : nat) (H : list DateStr)
  (d : JSDate) : option JSDate :=
  match fuel with
  | O => None
  | S f =>
      currentDate <- untilWorkingDay f H previousDayEnd (utcToColombiaTime d) ;;
      if negb (isWithinBusinessHours currentDate) then
        if beforeBusinessHours currentDate then
          adjustToPreviousWorkingTime f H
            (colombiaTimeToUtc (previousDayEnd currentDate))
        else
          let currentDate1 :=
            if afterBusinessHours currentDate
            then endOfBusinessDay currentDate else currentDate in
          let currentDate2 :=
            if duringLunchBreak currentDate1
            then setTime currentDate1 (lunchStartHour BusinessHoursConfig)
                                      (lunchStartMinute BusinessHoursConfig)
            else currentDate1 in
          Some (colombiaTimeToUtc currentDate2)
      else Some (colombiaTimeToUtc currentDate)
  end.

Definition getBusinessDayStart (d : DateTime) : DateTime :=
  setTime d (startHour BusinessHoursConfig) (startMinute BusinessHoursConfig).

(** ** [services/workingDaysService.ts] *)

Module WorkingDaysService.

Definition nextDay (d : DateTime) : DateTime := plusDays d 1.

Definition nextDayStart (d : DateTime) : DateTime :=
  setTime (plusDays d 1) (startHour BusinessHoursConfig)
                         (startMinute BusinessHoursConfig).

Definition getNextWorkingDayStart (fuel : nat) (H : list DateStr)
  (d : DateTime) : option DateTime :=
  untilWorkingDay fuel H nextDayStart (nextDayStart d).

Fixpoint addWorkingDaysFrom (fuel : nat) (H : list DateStr)
  (currentDate : DateTime) (daysAdded daysToAdd : Z) : option DateTime :=
  if daysAdded <? daysToAdd then
    match fuel with
    | O => None
    | S f =>
        currentDate' <- untilWorkingDay f H nextDay (nextDay currentDate) ;;
        addWorkingDaysFrom f H currentDate' (daysAdded + 1) daysToAdd
    end
  else Some currentDate.

Definition addWorkingDays (fuel : nat) (H : list DateStr)
  (startDate : DateTime) (daysToAdd : Z) : option DateTime :=
  addWorkingDaysFrom fuel H startDate 0 daysToAdd.

(** Remaining business time of the day, in milliseconds. *)
Definition calculateRemainingBusinessHours (d : DateTime) : Z :=
  if negb (isWithinBusinessHours d) then 0
  else
    let endOfDay := endOfBusinessDay d in
    let remainingMillis := diff endOfDay d in
    let remainingMillis :=
      if hour d <? lunchEndHour BusinessHoursConfig then
        let lunchStart :=
          setTime d (lunchStartHour BusinessHoursConfig)
                    (lunchStartMinute BusinessHoursConfig) in
        let lunchEnd :=
          setTime d (lunchEndHour BusinessHoursConfig)
                    (lunchEndMinute BusinessHoursConfig) in
        if ts d <? ts lunchStart then
          remainingMillis - diff lunchEnd lunchStart
        else if (ts lunchStart <=? ts d) && (ts d <? ts lunchEnd) then
          remainingMillis - diff lunchEnd d
        else remainingMillis
      else remainingMillis in
    Z.max 0 remainingMillis.

(** [hoursToAdd] and [hoursAdded] in milliseconds. *)
Fixpoint addHoursSkippingLunchFrom (fuel : nat) (result : DateTime)
  (hoursAdded hoursToAdd : Z) : option DateTime :=
  if hoursAdded <? hoursToAdd then
    match fuel with
    | O => None
    | S f =>
        let hour := hour result in
        let minute := minute result in
        let isBeforeLunch :=
          (hour <? lunchStartHour BusinessHoursConfig)
          || ((hour =? lunchStartHour BusinessHoursConfig)
              && (minute <? lunchStartMinute BusinessHoursConfig)) in
        let isAfterLunch :=
          (lunchEndHour BusinessHoursConfig <=? hour)
          || ((hour =? lunchEndHour BusinessHoursConfig)
              && (lunchEndMinute BusinessHoursConfig <=? minute)) in
        if isBeforeLunch then
          let lunchStart :=
            setTime result (lunchStartHour BusinessHoursConfig)
                           (lunchStartMinute BusinessHoursConfig) in
          let hoursUntilLunch := diff lunchStart result in
          let hoursToAddBeforeLunch :=
            Z.min (hoursToAdd - hoursAdded) hoursUntilLunch in
          let '(result1, hoursAdded1) :=
            if 0 <? hoursToAddBeforeLunch
            then (plusMillis result hoursToAddBeforeLunch,
                  hoursAdded + hoursToAddBeforeLunch)
            else (result, hoursAdded) in
          let result2 :=
            if hoursAdded1 <? hoursToAdd
            then setTime result1 (lunchEndHour BusinessHoursConfig)
                                 (lunchEndMinute BusinessHoursConfig)
            else result1 in
          addHoursSkippingLunchFrom f result2 hoursAdded1 hoursToAdd
        else if negb isAfterLunch then
          addHoursSkippingLunchFrom f
            (setTime result (lunchEndHour BusinessHoursConfig)
                            (lunchEndMinute BusinessHoursConfig))
            hoursAdded hoursToAdd
        else
          let remainingHours := hoursToAdd - hoursAdded in
          addHoursSkippingLunchFrom f (plusMillis result remainingHours)
            hoursToAdd hoursToAdd
    end
  else Some result.

Definition addHoursSkippingLunch (fuel : nat) (d : DateTime)
  (hoursToAdd : Z) : option DateTime :=
  addHoursSkippingLunchFrom fuel d 0 hoursToAdd.

(** The main loop of [addWorkingHours]; hour counts in milliseconds. *)
Fixpoint addWorkingHoursFrom (fuel : nat) (H : list DateStr)
  (currentDate : DateTime) (hoursAdded hoursToAdd : Z) : option DateTime :=
  if hoursAdded <? hoursToAdd then
    match fuel with
    | O => None
    | S f =>
        let remainingHours := calculateRemainingBusinessHours currentDate in
        added <-
          (if 0 <? remainingHours then
             let hoursToAddNow := Z.min (hoursToAdd - hoursAdded) remainingHours in
             r <- addHoursSkippingLunch f currentDate hoursToAddNow ;;
             Some (r, hoursAdded + hoursToAddNow)
           else Some (currentDate, hoursAdded)) ;;
        let '(currentDate1, hoursAdded1) := added in
        currentDate2 <-
          (if hoursAdded1 <? hoursToAdd
           then getNextWorkingDayStart f H currentDate1
           else Some currentDate1) ;;
        addWorkingHoursFrom f H currentDate2 hoursAdded1 hoursToAdd
    end
  else Some currentDate.

(** [hoursToAdd] is the requested number of hours. *)
Definition addWorkingHours (fuel : nat) (H : list DateStr)
  (startDate : DateTime) (hoursToAdd : Z) : option DateTime :=
  let remainingHours := calculateRemainingBusinessHours startDate in
  if (remainingHours =? 0) && (hoursToAdd =? 1) then
    getNextWorkingDayStart fuel H startDate
  else
    addWorkingHoursFrom fuel H startDate 0 (hoursToAdd * msPerHour).

Definition orZero (x : option Z) : Z :=
  match x with Some v => v | None => 0 end.

(** [now] is the value of [new Date()]; an absent [days] or [hours]
    takes its default 0. *)
Definition calculateWorkingDateTime (fuel : nat) (H : list DateStr)
  (now : JSDate) (days hours : option Z) (startDate : option JSDate)
  : option JSDate :=
  let days := orZero days in
  let hours := orZero hours in
  let currentDate := match startDate with Some d => d | None => now end in
  let currentColombiaTime := utcToColombiaTime currentDate in
  currentColombiaTime <-
    (if negb (isWorkingDay H currentDate)
        || negb (isWithinBusinessHours currentColombiaTime)
     then
       currentDate' <- adjustToPreviousWorkingTime fuel H currentDate ;;
       Some (utcToColombiaTime currentDate')
     else Some currentColombiaTime) ;;
  currentColombiaTime <-
    (if 0 <? days
     then addWorkingDays fuel H currentColombiaTime days
     else Some currentColombiaTime) ;;
  currentColombiaTime <-
    (if 0 <? hours
     then addWorkingHours fuel H currentColombiaTime hours
     else Some currentColombiaTime) ;;
  Some (colombiaTimeToUtc currentColombiaTime).

End WorkingDaysService.

Import WorkingDaysService.

(** ** Vocabulary of the statements *)

(** Year of the era of a day of the era, and the days of the era before
    a year: the two sub-expressions of [civil_from_days]. *)
Definition yearOfEra (doe : Z) : Z :=
  (doe - doe / 1460 + doe / 36524 - doe / 146096) / 365.
Definition daysBeforeYear (yoe : Z) : Z := 365 * yoe + yoe / 4 - yoe / 100.

(** [k] rounds of a loop body. *)
Fixpoint steps (k : nat) (step : DateTime -> DateTime) (x : DateTime)
  : DateTime :=
  match k with
  | O => x
  | S k' => steps k' step (step x)
  end.

(** The Bogotá reading with local day number [D] and [t] milliseconds
    into that day. *)
Definition atLocal (D t : Z) : DateTime :=
  {| ts := D * msPerDay + t - bogotaOffset * msPerMinute;
     offset := bogotaOffset |}.

(** The instant of the UTC wall-clock reading [y]-[m]-[d]T[hh]:[mm]Z. *)
Definition utcInstant (y m d hh mm : Z) : JSDate :=
  days_from_civil y m d * msPerDay + hh * msPerHour + mm * msPerMinute.

(** What [isWorkingDay] tests: the weekday of the local day [L] and the
    membership of the UTC day [U] in the holiday list. *)
Definition workingPair (H : list DateStr) (L U : Z) : bool :=
  negb ((weekdayOfDay L =? 6) || (weekdayOfDay L =? 7))
  && negb (includes H (civil_from_days U)).

(** Minutes since local midnight. *)
Definition minuteOfDay (d : DateTime) : Z := 60 * hour d + minute d.

(** Loop bound that suffices for every search over the day sequence:
    among any [7 * (length H + 1)] consecutive days one is a working
    day. *)
Definition searchBound (H : list DateStr) : nat := 7 * (List.length H + 1).

(** Milliseconds into the day of business end, business start and lunch
    start. *)
Definition endOfDayMs : Z := 17 * msPerHour + 0 * msPerMinute.
Definition startOfDayMs : Z := 8 * msPerHour + 0 * msPerMinute.
Definition lunchStartMs : Z := 12 * msPerHour + 0 * msPerMinute.

(** The outcomes of [adjustToPreviousWorkingTime] on anchor [a], one
    constructor for each path through the function. *)
Inductive Adjusted (H : list DateStr) (a : JSDate) : JSDate -> Prop :=
| AdjKept :
    isWorkingDay H a = true ->
    isWithinBusinessHours (utcToColombiaTime a) = true ->
    Adjusted H a a
| AdjDayBack j :
    isWorkingDay H a = false ->
    1 <= j ->
    workingPair H (localDay (utcToColombiaTime a) - j)
                  (localDay (utcToColombiaTime a) - j) = true ->
    Adjusted H a (ts (atLocal (localDay (utcToColombiaTime a) - j) endOfDayMs))
| AdjBeforeStart j :
    isWorkingDay H a = true ->
    minuteOfDay (utcToColombiaTime a) < 480 ->
    1 <= j ->
    workingPair H (localDay (utcToColombiaTime a) - j)
                  (localDay (utcToColombiaTime a) - j) = true ->
    Adjusted H a (ts (atLocal (localDay (utcToColombiaTime a) - j) endOfDayMs))
| AdjAfterEnd :
    isWorkingDay H a = true ->
    1020 < minuteOfDay (utcToColombiaTime a) ->
    Adjusted H a (ts (atLocal (localDay (utcToColombiaTime a)) endOfDayMs))
| AdjLunch :
    isWorkingDay H a = true ->
    720 <= minuteOfDay (utcToColombiaTime a) < 780 ->
    Adjusted H a (ts (atLocal (localDay (utcToColombiaTime a)) lunchStartMs))
| AdjLunchEnd :
    isWorkingDay H a = true ->
    minuteOfDay (utcToColombiaTime a) = 780 ->
    Adjusted H a a.

Inductive AnchorResult := Anchored (d : JSDate) | CalendarExhausted.

(** Follows the spec's words (section 4.3): the backward search as a
    bounded loop over one candidate, which raises [CalendarExhausted]
    once [cap] backward steps are used up. *)
Fixpoint boundedBackwardAnchor (cap : nat) (H : list DateStr)
  (candidate : DateTime) : AnchorResult :=
  if negb (isWorkingDay H (toJSDate candidate))
     || beforeBusinessHours candidate
  then match cap with
       | O => CalendarExhausted
       | S c => boundedBackwardAnchor c H (previousDayEnd candidate)
       end
  else if afterBusinessHours candidate
  then Anchored (colombiaTimeToUtc (endOfBusinessDay candidate))
  else if duringLunchBreak candidate
  then Anchored (colombiaTimeToUtc
                   (setTime candidate (lunchStartHour BusinessHoursConfig)
                                      (lunchStartMinute BusinessHoursConfig)))
  else Anchored (colombiaTimeToUtc candidate).

(** [n] consecutive civil dates ending on day number [last]. *)
Definition holidayRun (n : nat) (last : Z) : list DateStr :=
  map (fun i => civil_from_days (last - Z.of_nat i)) (seq 0 n).

(** The anchor needs no adjustment. *)
Definition anchorIsValid (H : list DateStr) (a : JSDate) : bool :=
  isWorkingDay H a && isWithinBusinessHours (utcToColombiaTime a).

(** The largest time value of a [Date]: 100 000 000 days from the
    epoch, on either side. *)
Definition maxTime : Z := 8640000000000000.

(** Fuel that suffices for a whole calculation. *)
Definition workFuel (H : list DateStr) (days hours : Z) : nat :=
  searchBound H + 3 + Z.to_nat days + Z.to_nat hours.

(** Follows the spec's words: the standard Western (Gregorian) Easter
    algorithm, the closed-form integer formula of Meeus, Jones and
    Butcher, with mathematical [mod] and [div]. *)
Definition gregorianEaster (year : Z) : Z * Z :=
  let a := year mod 19 in
  let b := year / 100 in
  let c := year mod 100 in
  let d := b / 4 in
  let e := b mod 4 in
  let f := (b + 8) / 25 in
  let g := (b - f + 1) / 3 in
  let h := (19 * a + b - d - g + 15) mod 30 in
  let i := c / 4 in
  let k := c mod 4 in
  let l := (32 + 2 * e + 2 * i - h - k) mod 7 in
  let m := (a + 11 * h + 22 * l) / 451 in
  ((h + l - 7 * m + 114) / 31, (h + l - 7 * m + 114) mod 31 + 1).

(** Day number of Easter Sunday of [year]. *)
Definition easterDay (year : Z) : Z :=
  days_from_civil year (fst (easterMonthDay year)) (snd (easterMonthDay year)).

(** ** [services/holidayService.ts], the other methods *)

(** [clearCache()]: both caches are emptied. *)
Definition clearCache (s : State) : State :=
  {| holidaysCache := []; allHolidaysCache := None |}.

(** [getLocalColombianHolidays()]; [now] is the value of [new Date()]. *)
Definition getLocalColombianHolidays (tz : Z) (now : JSDate)
  : list ColombianHoliday :=
  let currentYear := getFullYear tz now in
  calculateColombianHolidays tz currentYear
  ++ calculateColombianHolidays tz (currentYear + 1)
  ++ calculateColombianHolidays tz (currentYear + 2).

(** [getColombianHolidays()]: [fetchAllHolidays] settles its own
    failures, so the [catch] branch is never taken. *)
Definition getColombianHolidays (tz : Z) (net : Response) (s : State)
  (now : JSDate) : list ColombianHoliday * State :=
  let (allHolidays, s1) := fetchAllHolidays net s in
  let currentYear := getFullYear tz now in
  let hasCurrentYear := existsb (yearIs tz currentYear) allHolidays in
  let hasNextYear := existsb (yearIs tz (currentYear + 1)) allHolidays in
  if negb hasCurrentYear && negb hasNextYear
  then (getLocalColombianHolidays tz now, s1)
  else (map festivo allHolidays, s1).

(** The loop [for (year = startYear; year <= endYear; year++)] of
    [getHolidaysForDateRange], [n] rounds from [year] on. *)
Fixpoint holidaysOfYears (tz : Z) (net : Response) (n : nat) (year : Z)
  (s : State) (allHolidays : list ColombianHoliday)
  : list ColombianHoliday * State :=
  match n with
  | O => (allHolidays, s)
  | S n' =>
      let (yearHolidays, s1) := getHolidaysForYear tz net s year in
      holidaysOfYears tz net n' (year + 1) s1 (allHolidays ++ yearHolidays)
  end.


(** Order of the records of a calendar. *)
Definition byDate (a b : ColombianHoliday) : Prop :=
  DateStr_leb (date a) (date b) = true.

(** ** [utils/dateUtils.ts], the other functions *)

(** [getNextBusinessDayStart], with the loop of [untilWorkingDay]. *)
Definition getNextBusinessDayStart (fuel : nat) (H : list DateStr)
  (d : DateTime) : option DateTime :=
  let nextDay :=
    setTime (plusDays d 1) (startHour BusinessHoursConfig)
                           (startMinute BusinessHoursConfig) in
  untilWorkingDay fuel H
    (fun nextDay =>
       setTime (plusDays nextDay 1) (startHour BusinessHoursConfig)
                                    (startMinute BusinessHoursConfig))
    nextDay.

(** A civil day that is Monday to Friday and no holiday. *)
Definition workingDate (H : list DateStr) (D : Z) : bool :=
  workingPair H D D.

(** The part of the lunch break that [addHoursSkippingLunch] jumps over
    when it adds [h] milliseconds to a reading [t] milliseconds into its
    day. *)
Definition lunchSkipped (t h : Z) : Z :=
  if t <? 12 * msPerHour then
    if 12 * msPerHour - t <? h then 1 * msPerHour else 0
  else if t <? 13 * msPerHour then 13 * msPerHour - t
  else 0.

(** The number of [i] in [1..k] that [f] accepts. *)
Fixpoint countAccepted (f : Z -> bool) (k : nat) : Z :=
  match k with
  | O => 0
  | S k' => countAccepted f k' + (if f (Z.of_nat (S k')) then 1 else 0)
  end.

(** The times of day, in milliseconds, at which an addition of hours
    can stop: from 08:00 to 12:00, and after 13:00 up to 17:00. *)
Definition stoppingTime (t : Z) : bool :=
  ((startOfDayMs <=? t) && (t <=? lunchStartMs))
  || ((13 * msPerHour <? t) && (t <=? endOfDayMs)).

(** The time of day, in milliseconds, that is [rem] milliseconds of
    business time after 08:00, for [0 < rem <= 8 h]. *)
Definition timeAfterStart (rem : Z) : Z :=
  startOfDayMs + rem + lunchSkipped startOfDayMs rem.

(** ** [middleware/errorHandler.ts] *)

Module ErrorHandler.

(** What reaches the middleware: an [Error] that is no [ApiError], or
    an [ApiError]; [stack] is the trace the runtime attached, if any. *)
Inductive Err :=
| PlainError (message : string) (stack : option string)
| ApiError (statusCode : Z) (message : string) (isOperational : bool)
           (stack : option string).

(** [res.status(status).json({ error, message, stack? })]. *)
Record Reply := {
  status : Z;
  error : string;
  message : string;
  stack : option string
}.

Definition getErrorType (statusCode : Z) : string :=
  if statusCode =? 400 then "BadRequest"
  else if statusCode =? 401 then "Unauthorized"
  else if statusCode =? 403 then "Forbidden"
  else if statusCode =? 404 then "NotFound"
  else if statusCode =? 422 then "InvalidParameters"
  else if statusCode =? 429 then "TooManyRequests"
  else if statusCode =? 500 then "InternalServerError"
  else if statusCode =? 503 then "ServiceUnavailable"
  else "InternalServerError".

(** [development] is [process.env['NODE_ENV'] === 'development']; the
    logging is left out. *)
Definition errorHandler (development : bool) (err : Err) : Reply :=
  let statusCode := 500 in
  let message := "An unexpected error occurred"%string in
  let error := "InternalServerError"%string in
  let '(statusCode, message, error) :=
    match err with
    | ApiError code msg _ _ => (code, msg, getErrorType code)
    | PlainError _ _ => (statusCode, message, error)
    end in
  {| status := statusCode;
     error := error;
     message := message;
     stack := if development
              then match err with
                   | ApiError _ _ _ st => st
                   | PlainError _ st => st
                   end
              else None |}.

Definition notFoundHandler : Reply :=
  {| status := 404;
     error := "NotFound";
     message := "Endpoint not found";
     stack := None |}.

(** [createError]: each creator by its key; the first argument is the
    trace captured by the constructor. *)
Definition createError : list (string * (option string -> string -> Err)) := [
  ("badRequest"%string, fun st message => ApiError 400 message true st);
  ("unauthorized"%string, fun st message => ApiError 401 message true st);
  ("forbidden"%string, fun st message => ApiError 403 message true st);
  ("notFound"%string, fun st message => ApiError 404 message true st);
  ("invalidParameters"%string, fun st message => ApiError 422 message true st);
  ("tooManyRequests"%string, fun st message => ApiError 429 message true st);
  ("internal"%string, fun st message => ApiError 500 message true st);
  ("serviceUnavailable"%string, fun st message => ApiError 503 message true st)
].

End ErrorHandler.

(** * Proofs *)

Ltac divmod := Z.div_mod_to_equations; lia.

(** ** Calendar arithmetic *)

Lemma DateStr_eqb_eq a b : DateStr_eqb a b = true <-> a = b.
Proof.
  destruct a as [y m d], b as [y' m' d']; unfold DateStr_eqb; simpl.
  rewrite !andb_true_iff, !Z.eqb_eq. split.
  - intros [[-> ->] ->]; reflexivity.
  - intros E; inversion E; auto.
Qed.

Lemma includes_In l s : includes l s = true <-> In s l.
Proof.
  unfold includes. rewrite existsb_exists. split.
  - intros [x [Hin E]]. apply DateStr_eqb_eq in E. subst. exact Hin.
  - intros Hin. exists s. split; [exact Hin|]. apply DateStr_eqb_eq. reflexivity.
Qed.

Lemma yearOfEra_range doe :
  0 <= doe <= 146096 -> 0 <= yearOfEra doe <= 399.
Proof. unfold yearOfEra. intros. divmod. Qed.

Lemma dayOfYear_range doe :
  0 <= doe <= 146096 ->
  0 <= doe - daysBeforeYear (yearOfEra doe) <= 365.
Proof. unfold yearOfEra, daysBeforeYear. intros. split; divmod. Qed.

Lemma days_of_civil_from_days z : days_of (civil_from_days z) = z.
Proof.
  unfold days_of, civil_from_days, days_from_civil. cbn [dyear dmonth dday].
  set (z' := z + 719468).
  set (era := z' / 146097).
  set (doe := z' - era * 146097).
  assert (Hdoe : 0 <= doe <= 146096) by (subst doe era; divmod).
  fold (yearOfEra doe).
  pose proof (yearOfEra_range doe Hdoe) as Hy.
  pose proof (dayOfYear_range doe Hdoe) as Hd.
  unfold daysBeforeYear in Hd.
  set (yoe := yearOfEra doe) in *.
  set (doy := doe - (365 * yoe + yoe / 4 - yoe / 100)) in *.
  set (mp := (5 * doy + 2) / 153).
  assert (Hmp : 0 <= mp <= 11) by (subst mp; divmod).
  destruct (Z.ltb_spec mp 10) as [Hlt|Hge].
  - replace (mp + 3 <=? 2) with false by (symmetry; apply Z.leb_gt; lia).
    replace (2 <? mp + 3) with true by (symmetry; apply Z.ltb_lt; lia).
    replace (mp + 3 - 3) with mp by lia.
    replace ((yoe + era * 400) / 400) with era by divmod.
    replace (yoe + era * 400 - era * 400) with yoe by lia.
    subst doy doe z'. lia.
  - replace (mp - 9 <=? 2) with true by (symmetry; apply Z.leb_le; lia).
    replace (2 <? mp - 9) with false by (symmetry; apply Z.ltb_ge; lia).
    replace (mp - 9 + 9) with mp by lia.
    replace (yoe + era * 400 + 1 - 1) with (yoe + era * 400) by lia.
    replace ((yoe + era * 400) / 400) with era by divmod.
    replace (yoe + era * 400 - era * 400) with yoe by lia.
    subst doy doe z'. lia.
Qed.

Lemma yearOfEra_unique yoe doy :
  0 <= yoe <= 399 -> 0 <= doy ->
  daysBeforeYear yoe + doy < daysBeforeYear (yoe + 1) + (yoe + 1) / 400 ->
  yearOfEra (daysBeforeYear yoe + doy) = yoe.
Proof.
  unfold yearOfEra, daysBeforeYear. intros. divmod.
Qed.

Lemma monthOfDoy mp d :
  0 <= mp <= 11 -> 1 <= d ->
  d <= (153 * (mp + 1) + 2) / 5 - (153 * mp + 2) / 5 ->
  (5 * ((153 * mp + 2) / 5 + d - 1) + 2) / 153 = mp.
Proof. intros. divmod. Qed.

Lemma civil_from_days_from_civil y m d :
  validDate y m d = true ->
  civil_from_days (days_from_civil y m d) = mkDate y m d.
Proof.
  unfold validDate. rewrite !andb_true_iff, !Z.leb_le.
  intros [[[Hm1 Hm12] Hd1] Hdim].
  unfold civil_from_days, days_from_civil.
  set (y' := if m <=? 2 then y - 1 else y).
  set (era := y' / 400).
  set (yoe := y' - era * 400).
  set (mp := if 2 <? m then m - 3 else m + 9).
  set (doy := (153 * mp + 2) / 5 + d - 1).
  assert (Hyoe : 0 <= yoe <= 399) by (subst yoe era; divmod).
  assert (Hmp : 0 <= mp <= 11)
    by (subst mp; destruct (Z.ltb_spec 2 m); lia).
  assert (Hm : (if mp <? 10 then mp + 3 else mp - 9) = m).
  { subst mp. destruct (Z.ltb_spec 2 m);
      [destruct (Z.ltb_spec (m - 3) 10)|destruct (Z.ltb_spec (m + 9) 10)]; lia. }
  assert (Hy : (if m <=? 2 then yoe + era * 400 + 1 else yoe + era * 400) = y).
  { subst yoe y'. destruct (m <=? 2); lia. }
  assert (Hdim' : d <= 31
                  /\ (m = 4 \/ m = 6 \/ m = 9 \/ m = 11 -> d <= 30)
                  /\ (m = 2 -> d <= 29
                               /\ (d = 29 -> y mod 4 = 0
                                             /\ (y mod 100 <> 0 \/ y mod 400 = 0)))).
  { unfold daysInMonth, isLeap in Hdim.
    destruct (Z.eqb_spec m 2), (Z.eqb_spec m 4), (Z.eqb_spec m 6),
      (Z.eqb_spec m 9), (Z.eqb_spec m 11);
      cbn [orb andb negb] in Hdim; try lia.
    destruct (Z.eqb_spec (y mod 4) 0), (Z.eqb_spec (y mod 100) 0),
      (Z.eqb_spec (y mod 400) 0); cbn [orb andb negb] in Hdim;
      repeat split; intros; try lia; divmod. }
  assert (Ey' : (m <= 2 /\ y' = y - 1) \/ (2 < m /\ y' = y))
    by (subst y'; destruct (Z.leb_spec m 2); lia).
  assert (Emp' : (2 < m /\ mp = m - 3) \/ (m <= 2 /\ mp = m + 9))
    by (subst mp; destruct (Z.ltb_spec 2 m); lia).
  assert (Hdoy : 0 <= doy
                 /\ daysBeforeYear yoe + doy
                    < daysBeforeYear (yoe + 1) + (yoe + 1) / 400
                 /\ d <= (153 * (mp + 1) + 2) / 5 - (153 * mp + 2) / 5).
  { unfold daysBeforeYear. clear Hm Hy Hdim.
    subst doy yoe era. clearbody y' mp.
    assert (Hcases : m = 1 \/ m = 2 \/ m = 3 \/ m = 4 \/ m = 5 \/ m = 6 \/ m = 7
                     \/ m = 8 \/ m = 9 \/ m = 10 \/ m = 11 \/ m = 12) by lia.
    assert (Emp : mp = m - 3 \/ mp = m + 9) by lia.
    repeat (destruct Hcases as [Hc|Hcases]);
      (destruct Emp as [Emp|Emp]; [|]; try lia; subst m mp;
       repeat split; divmod). }
  destruct Hdoy as (Hdoy0 & Hdoy1 & Hdoy2).
  set (doe := yoe * 365 + yoe / 4 - yoe / 100 + doy).
  assert (Edoe : doe = daysBeforeYear yoe + doy)
    by (unfold daysBeforeYear; subst doe; lia).
  assert (Hdoe : 0 <= doe <= 146096).
  { rewrite Edoe. unfold daysBeforeYear in *. divmod. }
  replace (era * 146097 + doe - 719468 + 719468) with (doe + era * 146097) by lia.
  rewrite Z.div_add by lia. rewrite (Z.div_small doe) by lia.
  replace (doe + era * 146097 - (0 + era) * 146097) with doe by lia.
  fold (yearOfEra doe).
  assert (Eyoe : yearOfEra doe = yoe)
    by (rewrite Edoe; apply yearOfEra_unique; assumption).
  rewrite Eyoe.
  replace (doe - (365 * yoe + yoe / 4 - yoe / 100)) with doy by (subst doe; lia).
  assert (Emp : (5 * doy + 2) / 153 = mp)
    by (subst doy; apply monthOfDoy; assumption).
  rewrite Emp, Hm.
  replace (0 + era) with era by lia.
  rewrite Hy. f_equal. subst doy. lia.
Qed.

Lemma civil_from_days_inj a b : civil_from_days a = civil_from_days b -> a = b.
Proof.
  intros E. rewrite <- (days_of_civil_from_days a), <- (days_of_civil_from_days b).
  rewrite E. reflexivity.
Qed.

Lemma weekdayOfDay_range d : 1 <= weekdayOfDay d <= 7.
Proof. unfold weekdayOfDay. divmod. Qed.

Lemma weekdayOfDay_week d k : weekdayOfDay (d + 7 * k) = weekdayOfDay d.
Proof.
  unfold weekdayOfDay. f_equal.
  replace (d + 7 * k + 3) with (d + 3 + k * 7) by lia.
  apply Z.mod_add. lia.
Qed.

(** Some day of any week is a Monday. *)
Lemma monday_within_week d :
  exists c, 0 <= c < 7 /\ weekdayOfDay (d + c) = 1.
Proof.
  exists ((4 - d) mod 7). split; [divmod|].
  unfold weekdayOfDay. divmod.
Qed.

(** ** A working day within any [searchBound] consecutive days *)

Lemma pigeonhole_dates (H : list DateStr) (f : nat -> DateStr) :
  (forall i j, (i <= List.length H)%nat -> (j <= List.length H)%nat ->
               f i = f j -> i = j) ->
  exists j, (j <= List.length H)%nat /\ includes H (f j) = false.
Proof.
  intros Hinj.
  set (idx := seq 0 (S (List.length H))).
  destruct (existsb (fun j => negb (includes H (f j))) idx) eqn:E.
  - apply existsb_exists in E as [j [Hj Hn]].
    apply in_seq in Hj. exists j. split; [lia|].
    now apply negb_true_iff in Hn.
  - exfalso.
    assert (Hall : forall j, In j idx -> In (f j) H).
    { intros j Hj. apply includes_In.
      destruct (includes H (f j)) eqn:Ej; [reflexivity|].
      assert (existsb (fun j => negb (includes H (f j))) idx = true).
      { apply existsb_exists. exists j. split; [exact Hj|]. now rewrite Ej. }
      congruence. }
    assert (Hnd : NoDup (map f idx)).
    { apply NoDup_map_NoDup_ForallPairs; [|apply seq_NoDup].
      intros i j Hi Hj. apply in_seq in Hi, Hj. apply Hinj; lia. }
    assert (Hincl : incl (map f idx) H).
    { intros s Hs. apply in_map_iff in Hs as [j [<- Hj]]. now apply Hall. }
    pose proof (NoDup_incl_length Hnd Hincl) as Hlen.
    rewrite length_map in Hlen. unfold idx in Hlen. rewrite length_seq in Hlen. lia.
Qed.

Lemma workingPair_exists H L U :
  exists k, 0 <= k < Z.of_nat (searchBound H)
            /\ workingPair H (L + k) (U + k) = true.
Proof.
  destruct (monday_within_week L) as [c [Hc Hmon]].
  destruct (pigeonhole_dates H
              (fun j => civil_from_days (U + c + 7 * Z.of_nat j)))
    as [j [Hj Hfree]].
  { intros i j _ _ E. apply civil_from_days_inj in E. lia. }
  exists (c + 7 * Z.of_nat j). split.
  - unfold searchBound. lia.
  - unfold workingPair.
    replace (L + (c + 7 * Z.of_nat j)) with (L + c + 7 * Z.of_nat j) by lia.
    replace (U + (c + 7 * Z.of_nat j)) with (U + c + 7 * Z.of_nat j) by lia.
    rewrite weekdayOfDay_week, Hmon, Hfree. reflexivity.
Qed.

(** ** The search loop *)

Lemma untilWorkingDay_finds H step : forall k n cur,
  (k <= n)%nat ->
  isWorkingDay H (toJSDate (steps k step cur)) = true ->
  exists j, (j <= k)%nat
    /\ untilWorkingDay n H step cur = Some (steps j step cur)
    /\ isWorkingDay H (toJSDate (steps j step cur)) = true
    /\ forall i, (i < j)%nat ->
         isWorkingDay H (toJSDate (steps i step cur)) = false.
Proof.
  induction k as [|k IH]; intros n cur Hkn Hw.
  - exists O. simpl in *. split; [lia|]. split; [|split; [exact Hw|]].
    + destruct n; simpl; rewrite Hw; reflexivity.
    + intros i Hi. lia.
  - destruct (isWorkingDay H (toJSDate cur)) eqn:E.
    + exists O. simpl. split; [lia|]. split; [|split; [exact E|]].
      * destruct n; simpl; rewrite E; reflexivity.
      * intros i Hi. lia.
    + destruct n as [|n]; [lia|].
      destruct (IH n (step cur)) as [j (Hj & Hrun & Hok & Hmin)];
        [lia|exact Hw|].
      exists (S j). simpl. rewrite E.
      split; [lia|]. split; [exact Hrun|]. split; [exact Hok|].
      intros [|i] Hi; simpl; [exact E|]. apply Hmin. lia.
Qed.

Lemma untilWorkingDay_sound H step : forall n cur r,
  untilWorkingDay n H step cur = Some r ->
  isWorkingDay H (toJSDate r) = true.
Proof.
  induction n as [|n IH]; intros cur r; simpl;
    destruct (isWorkingDay H (toJSDate cur)) eqn:E; intros Hr;
    try discriminate; try (injection Hr as <-; exact E).
  eapply IH; eassumption.
Qed.

(** ** Bogotá readings *)

Ltac unfold_time :=
  unfold minuteOfDay, hour, minute, millisOfDay, localDay, localMillis, Day,
    msPerDay, msPerHour, msPerMinute, bogotaOffset in *.

Lemma millisOfDay_range x : 0 <= millisOfDay x < msPerDay.
Proof. unfold_time. divmod. Qed.

Lemma utcToColombiaTime_offset d : offset (utcToColombiaTime d) = bogotaOffset.
Proof. reflexivity. Qed.

Lemma utcToColombiaTime_ts d : ts (utcToColombiaTime d) = d.
Proof. reflexivity. Qed.

Lemma colombiaTimeToUtc_ts x : colombiaTimeToUtc x = ts x.
Proof. reflexivity. Qed.

Lemma utcToColombiaTime_colombiaTimeToUtc x :
  offset x = bogotaOffset -> utcToColombiaTime (colombiaTimeToUtc x) = x.
Proof. destruct x as [t o]; simpl. intros ->. reflexivity. Qed.

Lemma atLocal_eq x :
  offset x = bogotaOffset -> x = atLocal (localDay x) (millisOfDay x).
Proof.
  destruct x as [t o]; simpl. intros ->. unfold atLocal. f_equal.
  unfold_time. simpl. divmod.
Qed.

Lemma localDay_atLocal D t : 0 <= t < msPerDay -> localDay (atLocal D t) = D.
Proof. unfold atLocal. unfold_time. simpl. intros. divmod. Qed.

Lemma millisOfDay_atLocal D t :
  0 <= t < msPerDay -> millisOfDay (atLocal D t) = t.
Proof. unfold atLocal. unfold_time. simpl. intros. divmod. Qed.

Lemma hour_atLocal D h m :
  0 <= h < 24 -> 0 <= m < 60 ->
  hour (atLocal D (h * msPerHour + m * msPerMinute)) = h.
Proof. unfold atLocal. unfold_time. simpl. intros. divmod. Qed.

Lemma minute_atLocal D h m :
  0 <= h < 24 -> 0 <= m < 60 ->
  minute (atLocal D (h * msPerHour + m * msPerMinute)) = m.
Proof. unfold atLocal. unfold_time. simpl. intros. divmod. Qed.

Lemma setTime_atLocal x h m :
  offset x = bogotaOffset ->
  setTime x h m = atLocal (localDay x) (h * msPerHour + m * msPerMinute).
Proof.
  intros E. unfold setTime, atLocal. rewrite E. f_equal. lia.
Qed.

Lemma plusDays_atLocal D t n : plusDays (atLocal D t) n = atLocal (D + n) t.
Proof. unfold plusDays, atLocal. simpl. f_equal. lia. Qed.

Lemma localDay_plusDays x n : localDay (plusDays x n) = localDay x + n.
Proof. destruct x as [t o]. unfold plusDays. unfold_time. simpl. divmod. Qed.

Lemma millisOfDay_plusDays x n : millisOfDay (plusDays x n) = millisOfDay x.
Proof. destruct x as [t o]. unfold plusDays. unfold_time. simpl. divmod. Qed.

Lemma isWorkingDay_atLocal H D t :
  0 <= t < msPerDay ->
  isWorkingDay H (toJSDate (atLocal D t))
  = workingPair H D (D + (t + 18000000) / msPerDay).
Proof.
  intros Ht. unfold isWorkingDay, workingPair.
  replace (utcToColombiaTime (toJSDate (atLocal D t))) with (atLocal D t)
    by reflexivity.
  unfold weekday. rewrite (localDay_atLocal D t Ht).
  replace (toISODate (toJSDate (atLocal D t)))
    with (civil_from_days (D + (t + 18000000) / msPerDay)).
  - destruct ((weekdayOfDay D =? 6) || (weekdayOfDay D =? 7)); reflexivity.
  - unfold toISODate, toJSDate, atLocal. simpl. f_equal.
    unfold_time. divmod.
Qed.

Lemma previousDayEnd_atLocal x :
  offset x = bogotaOffset ->
  previousDayEnd x = atLocal (localDay x - 1) endOfDayMs.
Proof.
  intros E. unfold previousDayEnd, endOfBusinessDay, minusDays.
  rewrite setTime_atLocal by (simpl; exact E).
  rewrite localDay_plusDays. reflexivity.
Qed.

Lemma nextDayStart_atLocal x :
  offset x = bogotaOffset ->
  nextDayStart x = atLocal (localDay x + 1) startOfDayMs.
Proof.
  intros E. unfold nextDayStart.
  rewrite setTime_atLocal by (simpl; exact E).
  rewrite localDay_plusDays. reflexivity.
Qed.

Lemma steps_S k step x : steps (S k) step x = steps k step (step x).
Proof. reflexivity. Qed.

Lemma steps_previousDayEnd x k :
  offset x = bogotaOffset ->
  steps (S k) previousDayEnd x
  = atLocal (localDay x - Z.of_nat (S k)) endOfDayMs.
Proof.
  revert x. induction k as [|k IH]; intros x E.
  - simpl steps. rewrite previousDayEnd_atLocal by exact E. f_equal.
  - rewrite (steps_S (S k)).
    rewrite IH by (rewrite previousDayEnd_atLocal by exact E; reflexivity).
    rewrite previousDayEnd_atLocal by exact E.
    rewrite localDay_atLocal by (unfold endOfDayMs; unfold_time; lia).
    f_equal. lia.
Qed.

Lemma steps_nextDayStart x k :
  offset x = bogotaOffset ->
  steps k nextDayStart (nextDayStart x)
  = atLocal (localDay x + 1 + Z.of_nat k) startOfDayMs.
Proof.
  revert x. induction k as [|k IH]; intros x E.
  - simpl steps. rewrite nextDayStart_atLocal by exact E. f_equal. lia.
  - rewrite steps_S.
    rewrite IH by (rewrite nextDayStart_atLocal by exact E; reflexivity).
    rewrite nextDayStart_atLocal by exact E.
    rewrite localDay_atLocal by (unfold startOfDayMs; unfold_time; lia).
    f_equal. lia.
Qed.

Lemma steps_nextDay x k :
  steps k nextDay x = plusDays x (Z.of_nat k).
Proof.
  revert x. induction k as [|k IH]; intros x.
  - destruct x as [t o]; unfold plusDays; cbn [steps ts offset Z.of_nat].
    f_equal. lia.
  - rewrite steps_S, IH. unfold nextDay, plusDays. cbn [ts offset]. f_equal. lia.
Qed.

(** ** Business hours *)

Lemma hour_range x : 0 <= hour x < 24.
Proof. unfold_time. divmod. Qed.

Lemma minute_range x : 0 <= minute x < 60.
Proof. unfold_time. divmod. Qed.

Lemma minuteOfDay_ms x : minuteOfDay x = millisOfDay x / msPerMinute.
Proof. unfold_time. divmod. Qed.

Lemma if_false_else (c d : bool) : (if c then false else d) = negb c && d.
Proof. destruct c; reflexivity. Qed.

Ltac config :=
  cbn [BusinessHoursConfig startHour startMinute endHour endMinute
       lunchStartHour lunchStartMinute lunchEndHour lunchEndMinute] in *.

Lemma isWithinBusinessHours_minuteOfDay x :
  isWithinBusinessHours x = true
  <-> (480 <= minuteOfDay x <= 1020 /\ ~ (720 <= minuteOfDay x <= 780)).
Proof.
  pose proof (hour_range x) as Hh. pose proof (minute_range x) as Hm.
  unfold isWithinBusinessHours, minuteOfDay. config.
  rewrite !if_false_else. lia.
Qed.

Lemma beforeBusinessHours_minuteOfDay x :
  beforeBusinessHours x = true <-> minuteOfDay x < 480.
Proof.
  pose proof (hour_range x) as Hh. pose proof (minute_range x) as Hm.
  unfold beforeBusinessHours, minuteOfDay. config. lia.
Qed.

Lemma afterBusinessHours_minuteOfDay x :
  afterBusinessHours x = true <-> 1020 < minuteOfDay x.
Proof.
  pose proof (hour_range x) as Hh. pose proof (minute_range x) as Hm.
  unfold afterBusinessHours, minuteOfDay. config. lia.
Qed.

Lemma duringLunchBreak_minuteOfDay x :
  duringLunchBreak x = true <-> 720 <= minuteOfDay x < 780.
Proof.
  pose proof (hour_range x) as Hh. pose proof (minute_range x) as Hm.
  unfold duringLunchBreak, minuteOfDay. config. lia.
Qed.

Lemma minuteOfDay_atLocal D t :
  0 <= t < msPerDay -> minuteOfDay (atLocal D t) = t / msPerMinute.
Proof. intros Ht. rewrite minuteOfDay_ms, millisOfDay_atLocal by exact Ht. reflexivity. Qed.

(** ** Backward search *)

Lemma untilWorkingDay_mono H step : forall n m cur r,
  untilWorkingDay n H step cur = Some r -> (n <= m)%nat ->
  untilWorkingDay m H step cur = Some r.
Proof.
  induction n as [|n IH]; intros m cur r; simpl;
    destruct (isWorkingDay H (toJSDate cur)) eqn:E; intros Hr Hle;
    try discriminate.
  - destruct m; simpl; rewrite E; exact Hr.
  - destruct m; simpl; rewrite E; exact Hr.
  - destruct m as [|m]; [lia|]. simpl. rewrite E. apply IH; [exact Hr|lia].
Qed.

Lemma isWorkingDay_endOfDay H D :
  isWorkingDay H (toJSDate (atLocal D endOfDayMs)) = workingPair H D D.
Proof.
  rewrite isWorkingDay_atLocal by (unfold endOfDayMs; unfold_time; lia).
  f_equal. unfold endOfDayMs. unfold_time. divmod.
Qed.

Lemma isWorkingDay_startOfDay H D :
  isWorkingDay H (toJSDate (atLocal D startOfDayMs)) = workingPair H D D.
Proof.
  rewrite isWorkingDay_atLocal by (unfold startOfDayMs; unfold_time; lia).
  f_equal. unfold startOfDayMs. unfold_time. divmod.
Qed.

Lemma backward_search H x n :
  offset x = bogotaOffset -> (searchBound H <= n)%nat ->
  (isWorkingDay H (toJSDate x) = true
   /\ untilWorkingDay n H previousDayEnd x = Some x)
  \/ (isWorkingDay H (toJSDate x) = false
      /\ exists j, 1 <= j <= Z.of_nat (searchBound H)
           /\ untilWorkingDay n H previousDayEnd x
              = Some (atLocal (localDay x - j) endOfDayMs)
           /\ workingPair H (localDay x - j) (localDay x - j) = true
           /\ forall i, 1 <= i < j ->
                workingPair H (localDay x - i) (localDay x - i) = false).
Proof.
  intros Hx Hn.
  set (N := Z.of_nat (searchBound H)).
  destruct (workingPair_exists H (localDay x - N) (localDay x - N))
    as [k [Hk Hw]].
  fold N in Hk.
  assert (Hk0 : exists k0, (k0 <= searchBound H)%nat
                           /\ Z.of_nat (S k0) = N - k).
  { exists (Z.to_nat (N - k - 1)). unfold N in *. lia. }
  destruct Hk0 as [k0 [Hk0 Ek0]].
  destruct (untilWorkingDay_finds H previousDayEnd (S k0) n x)
    as [j (Hj & Hrun & Hok & Hmin)].
  - unfold N in *. lia.
  - rewrite steps_previousDayEnd by exact Hx.
    rewrite isWorkingDay_endOfDay, Ek0.
    replace (localDay x - (N - k)) with (localDay x - N + k) by lia.
    exact Hw.
  - destruct j as [|j].
    + left. simpl in Hok, Hrun. split; assumption.
    + right. split.
      { apply (Hmin O). lia. }
      exists (Z.of_nat (S j)).
      rewrite steps_previousDayEnd in Hrun, Hok by exact Hx.
      rewrite isWorkingDay_endOfDay in Hok.
      split; [unfold N in *; lia|]. split; [exact Hrun|]. split; [exact Hok|].
      intros i Hi.
      assert (Ei : exists i0, i = Z.of_nat (S i0) /\ (S i0 < S j)%nat).
      { exists (Z.to_nat (i - 1)). lia. }
      destruct Ei as [i0 [-> Hi0]].
      specialize (Hmin (S i0) Hi0).
      rewrite steps_previousDayEnd in Hmin by exact Hx.
      rewrite isWorkingDay_endOfDay in Hmin. exact Hmin.
Qed.

Lemma adjustToPreviousWorkingTime_S f H d :
  adjustToPreviousWorkingTime (S f) H d
  = (currentDate <- untilWorkingDay f H previousDayEnd (utcToColombiaTime d) ;;
     if negb (isWithinBusinessHours currentDate) then
       if beforeBusinessHours currentDate then
         adjustToPreviousWorkingTime f H
           (colombiaTimeToUtc (previousDayEnd currentDate))
       else
         let currentDate1 :=
           if afterBusinessHours currentDate
           then endOfBusinessDay currentDate else currentDate in
         let currentDate2 :=
           if duringLunchBreak currentDate1
           then setTime currentDate1 (lunchStartHour BusinessHoursConfig)
                                     (lunchStartMinute BusinessHoursConfig)
           else currentDate1 in
         Some (colombiaTimeToUtc currentDate2)
     else Some (colombiaTimeToUtc currentDate)).
Proof. reflexivity. Qed.

Lemma isWithinBusinessHours_endOfDay D :
  isWithinBusinessHours (atLocal D endOfDayMs) = true.
Proof.
  apply isWithinBusinessHours_minuteOfDay.
  rewrite minuteOfDay_atLocal by (unfold endOfDayMs; unfold_time; lia).
  change (endOfDayMs / msPerMinute) with 1020. lia.
Qed.

Lemma duringLunchBreak_endOfDay D :
  duringLunchBreak (atLocal D endOfDayMs) = false.
Proof.
  destruct (duringLunchBreak (atLocal D endOfDayMs)) eqn:E; [|reflexivity].
  apply duringLunchBreak_minuteOfDay in E.
  rewrite minuteOfDay_atLocal in E by (unfold endOfDayMs; unfold_time; lia).
  change (endOfDayMs / msPerMinute) with 1020 in E. lia.
Qed.

Lemma adjust_at_end H D n :
  (searchBound H <= n)%nat ->
  exists j, 0 <= j
    /\ adjustToPreviousWorkingTime (S n) H (toJSDate (atLocal D endOfDayMs))
       = Some (ts (atLocal (D - j) endOfDayMs))
    /\ workingPair H (D - j) (D - j) = true.
Proof.
  intros Hn. rewrite adjustToPreviousWorkingTime_S.
  replace (utcToColombiaTime (toJSDate (atLocal D endOfDayMs)))
    with (atLocal D endOfDayMs) by reflexivity.
  pose proof (localDay_atLocal D endOfDayMs) as HD.
  destruct (backward_search H (atLocal D endOfDayMs) n eq_refl Hn)
    as [[Hw Hrun]|[Hw [j (Hj & Hrun & Hok & _)]]]; rewrite Hrun.
  - exists 0. rewrite isWithinBusinessHours_endOfDay. cbn [negb].
    replace (D - 0) with D by lia. split; [lia|]. split; [reflexivity|].
    rewrite <- isWorkingDay_endOfDay. exact Hw.
  - rewrite HD in * by (unfold endOfDayMs; unfold_time; lia).
    exists j. rewrite isWithinBusinessHours_endOfDay. cbn [negb].
    split; [lia|]. split; [reflexivity|]. exact Hok.
Qed.

Lemma anchor_reading a :
  a = localDay (utcToColombiaTime a) * msPerDay
      + millisOfDay (utcToColombiaTime a) + 18000000.
Proof. unfold utcToColombiaTime, setZone. unfold_time. simpl. divmod. Qed.

Lemma ts_atLocal D t : ts (atLocal D t) = D * msPerDay + t + 18000000.
Proof. unfold atLocal. unfold_time. simpl. lia. Qed.

Lemma adjust_outcome H a n :
  (searchBound H <= n)%nat ->
  exists r, adjustToPreviousWorkingTime (S (S n)) H a = Some r
            /\ Adjusted H a r.
Proof.
  intros Hn. rewrite adjustToPreviousWorkingTime_S.
  set (x := utcToColombiaTime a).
  assert (Hx : offset x = bogotaOffset) by reflexivity.
  assert (Hn' : (searchBound H <= S n)%nat) by lia.
  destruct (backward_search H x (S n) Hx Hn')
    as [[Hw Hrun]|[Hw [j (Hj & Hrun & Hok & _)]]]; rewrite Hrun.
  - change (toJSDate x) with a in Hw.
    destruct (isWithinBusinessHours x) eqn:Ein; cbn [negb].
    + exists a. split; [reflexivity|]. apply AdjKept; assumption.
    + destruct (beforeBusinessHours x) eqn:Ebef.
      * rewrite previousDayEnd_atLocal by exact Hx.
        destruct (adjust_at_end H (localDay x - 1) n Hn)
          as [j (Hj & Hrun' & Hok)].
        change (colombiaTimeToUtc (atLocal (localDay x - 1) endOfDayMs))
          with (toJSDate (atLocal (localDay x - 1) endOfDayMs)).
        rewrite Hrun'. eexists. split; [reflexivity|].
        replace (localDay x - 1 - j) with (localDay x - (j + 1)) in * by lia.
        apply AdjBeforeStart; try assumption; [|lia].
        now apply beforeBusinessHours_minuteOfDay.
      * destruct (afterBusinessHours x) eqn:Eaft.
        -- unfold endOfBusinessDay.
           rewrite setTime_atLocal by exact Hx.
           fold endOfDayMs.
           rewrite duringLunchBreak_endOfDay.
           eexists. split; [reflexivity|].
           apply AdjAfterEnd; [exact Hw|].
           now apply afterBusinessHours_minuteOfDay.
        -- cbv zeta.
           destruct (duringLunchBreak x) eqn:Elun.
           ++ rewrite setTime_atLocal by exact Hx.
              eexists. split; [reflexivity|].
              apply AdjLunch; [exact Hw|].
              now apply duringLunchBreak_minuteOfDay.
           ++ exists a. split; [reflexivity|].
              apply AdjLunchEnd; [exact Hw|].
              assert (~ (480 <= minuteOfDay x <= 1020
                         /\ ~ (720 <= minuteOfDay x <= 780))).
              { rewrite <- isWithinBusinessHours_minuteOfDay. congruence. }
              assert (~ minuteOfDay x < 480).
              { rewrite <- beforeBusinessHours_minuteOfDay. congruence. }
              assert (~ 1020 < minuteOfDay x).
              { rewrite <- afterBusinessHours_minuteOfDay. congruence. }
              assert (~ 720 <= minuteOfDay x < 780).
              { rewrite <- duringLunchBreak_minuteOfDay. congruence. }
              fold x. lia.
  - rewrite isWithinBusinessHours_endOfDay. cbn [negb].
    eexists. split; [reflexivity|].
    apply AdjDayBack; try assumption. lia.
Qed.

Lemma adjustToPreviousWorkingTime_mono H : forall n m a r,
  adjustToPreviousWorkingTime n H a = Some r -> (n <= m)%nat ->
  adjustToPreviousWorkingTime m H a = Some r.
Proof.
  induction n as [|n IH]; intros m a r Hr Hle; [discriminate|].
  destruct m as [|m]; [lia|].
  rewrite adjustToPreviousWorkingTime_S in *.
  destruct (untilWorkingDay n H previousDayEnd (utcToColombiaTime a))
    as [c|] eqn:Erun; [|discriminate].
  rewrite (untilWorkingDay_mono H previousDayEnd n m _ _ Erun) by lia.
  destruct (negb (isWithinBusinessHours c)); [|exact Hr].
  destruct (beforeBusinessHours c); [|exact Hr].
  apply IH; [exact Hr|lia].
Qed.

(** The anchor is never moved forward. *)
Lemma Adjusted_le H a r : Adjusted H a r -> r <= a.
Proof.
  intros Hadj. pose proof (anchor_reading a) as Ha.
  pose proof (millisOfDay_range (utcToColombiaTime a)) as Ht.
  pose proof (minuteOfDay_ms (utcToColombiaTime a)) as Hm.
  destruct Hadj; try lia; rewrite ts_atLocal;
    unfold endOfDayMs, lunchStartMs; unfold_time; divmod.
Qed.

Lemma isWorkingDay_reading H a :
  isWorkingDay H a
  = workingPair H (localDay (utcToColombiaTime a))
      (localDay (utcToColombiaTime a)
       + (millisOfDay (utcToColombiaTime a) + 18000000) / msPerDay).
Proof.
  rewrite <- isWorkingDay_atLocal by apply millisOfDay_range.
  rewrite <- atLocal_eq by reflexivity. reflexivity.
Qed.

(** Before 19:00 local the UTC date is the local date. *)
Lemma isWorkingDay_before19 H a :
  hour (utcToColombiaTime a) < 19 ->
  isWorkingDay H a
  = workingPair H (localDay (utcToColombiaTime a))
                  (localDay (utcToColombiaTime a)).
Proof.
  intros Hh. rewrite isWorkingDay_reading. f_equal.
  pose proof (millisOfDay_range (utcToColombiaTime a)).
  unfold_time. divmod.
Qed.

Lemma workingPair_weekday H L U :
  workingPair H L U = true -> 1 <= weekdayOfDay L <= 5.
Proof.
  unfold workingPair. pose proof (weekdayOfDay_range L). lia.
Qed.

Lemma workingPair_free H L U :
  workingPair H L U = true -> includes H (civil_from_days U) = false.
Proof.
  unfold workingPair. destruct (includes H (civil_from_days U)); [|reflexivity].
  rewrite andb_false_r. discriminate.
Qed.

Lemma utcToColombiaTime_atLocal D t :
  utcToColombiaTime (ts (atLocal D t)) = atLocal D t.
Proof. reflexivity. Qed.

(** The weekday of the result is Monday to Friday, for every anchor. *)
Lemma Adjusted_weekday H a r :
  Adjusted H a r -> 1 <= weekday (utcToColombiaTime r) <= 5.
Proof.
  intros Hadj. unfold weekday.
  assert (Hanchor : isWorkingDay H a = true ->
            1 <= weekdayOfDay (localDay (utcToColombiaTime a)) <= 5).
  { rewrite isWorkingDay_reading. apply workingPair_weekday. }
  destruct Hadj; auto;
    rewrite utcToColombiaTime_atLocal, localDay_atLocal
      by (unfold endOfDayMs, lunchStartMs; unfold_time; lia);
    eauto using workingPair_weekday.
Qed.

(** The time of day of the result. *)
Lemma Adjusted_time H a r :
  Adjusted H a r ->
  isWithinBusinessHours (utcToColombiaTime r) = true
  \/ millisOfDay (utcToColombiaTime r) = lunchStartMs
  \/ (r = a /\ minuteOfDay (utcToColombiaTime r) = 780).
Proof.
  intros Hadj.
  destruct Hadj; auto; rewrite utcToColombiaTime_atLocal;
    try (left; apply isWithinBusinessHours_endOfDay).
  right; left. apply millisOfDay_atLocal. unfold lunchStartMs; unfold_time; lia.
Qed.

(** The result passes [isWorkingDay] when the anchor is read before
    19:00 local. *)
Lemma Adjusted_isWorkingDay H a r :
  Adjusted H a r -> hour (utcToColombiaTime a) < 19 ->
  isWorkingDay H r = true.
Proof.
  intros Hadj Hh.
  pose proof (isWorkingDay_before19 H a Hh) as Ea.
  destruct Hadj; auto;
    change (ts (atLocal ?D ?t)) with (toJSDate (atLocal D t));
    try (rewrite isWorkingDay_endOfDay; congruence).
  rewrite isWorkingDay_atLocal by (unfold lunchStartMs; unfold_time; lia).
  replace ((lunchStartMs + 18000000) / msPerDay) with 0
    by (unfold lunchStartMs; unfold_time; divmod).
  rewrite Z.add_0_r. congruence.
Qed.

Lemma Adjusted_hour H a r :
  Adjusted H a r -> hour (utcToColombiaTime a) < 19 ->
  hour (utcToColombiaTime r) < 19.
Proof.
  intros Hadj Hh.
  destruct Hadj; auto; rewrite utcToColombiaTime_atLocal;
    unfold hour; rewrite millisOfDay_atLocal;
    unfold endOfDayMs, lunchStartMs; unfold_time; try lia; divmod.
Qed.

Lemma isWorkingDay_local H r :
  isWorkingDay H r = true -> hour (utcToColombiaTime r) < 19 ->
  includes H (localDate (utcToColombiaTime r)) = false.
Proof.
  intros Hw Hh. rewrite isWorkingDay_before19 in Hw by exact Hh.
  apply workingPair_free in Hw. exact Hw.
Qed.

(** ** Results of the backward adjustment *)

(** C1 (as amended).  For every holiday list and every anchor read in
    Bogotá before 19:00 and outside the minute 13:00,
    [adjustToPreviousWorkingTime] returns, with any fuel from
    [searchBound H + 2] on, an instant no later than the anchor whose
    local weekday is Monday to Friday and whose local civil date is not
    a holiday; its time of day is within business hours, or is exactly
    lunch start 12:00, where an anchor inside the lunch window is
    put. *)
Theorem adjustToPreviousWorkingTime_anchored H a :
  hour (utcToColombiaTime a) < 19 ->
  minuteOfDay (utcToColombiaTime a) <> 13 * 60 + 0 ->
  exists r,
    (forall fuel, (S (S (searchBound H)) <= fuel)%nat ->
       adjustToPreviousWorkingTime fuel H a = Some r)
    /\ r <= a
    /\ 1 <= weekday (utcToColombiaTime r) <= 5
    /\ includes H (localDate (utcToColombiaTime r)) = false
    /\ (isWithinBusinessHours (utcToColombiaTime r) = true
        \/ millisOfDay (utcToColombiaTime r) = lunchStartMs).
Proof.
  intros Hh Hend.
  destruct (adjust_outcome H a (searchBound H) (le_n _)) as [r [Hrun Hadj]].
  exists r. split.
  { intros fuel Hfuel.
    eapply adjustToPreviousWorkingTime_mono; eassumption. }
  split; [eapply Adjusted_le; eassumption|].
  split; [eapply Adjusted_weekday; eassumption|].
  split.
  - apply isWorkingDay_local.
    + eapply Adjusted_isWorkingDay; eassumption.
    + eapply Adjusted_hour; eassumption.
  - destruct (Adjusted_time H a r Hadj) as [Hin|[Hlunch|[-> Hmin]]];
      [left; exact Hin|right; exact Hlunch|].
    exfalso. apply Hend. exact Hmin.
Qed.

(** Monday 2025-01-06 12:30 local, a holiday: the result is Friday
    2025-01-03 17:00 local. *)
Lemma adjustToPreviousWorkingTime_anchored_witness :
  hour (utcToColombiaTime (utcInstant 2025 1 6 17 30)) < 19
  /\ minuteOfDay (utcToColombiaTime (utcInstant 2025 1 6 17 30)) <> 13 * 60 + 0
  /\ exists r,
    (forall fuel, (S (S (searchBound [mkDate 2025 1 6])) <= fuel)%nat ->
       adjustToPreviousWorkingTime fuel [mkDate 2025 1 6]
         (utcInstant 2025 1 6 17 30) = Some r)
    /\ r <= utcInstant 2025 1 6 17 30
    /\ 1 <= weekday (utcToColombiaTime r) <= 5
    /\ includes [mkDate 2025 1 6] (localDate (utcToColombiaTime r)) = false
    /\ (isWithinBusinessHours (utcToColombiaTime r) = true
        \/ millisOfDay (utcToColombiaTime r) = lunchStartMs).
Proof.
  split; [vm_compute; reflexivity|].
  split; [vm_compute; discriminate|].
  apply (adjustToPreviousWorkingTime_anchored [mkDate 2025 1 6]
           (utcInstant 2025 1 6 17 30)).
  - vm_compute. reflexivity.
  - vm_compute. discriminate.
Defined.

(** C1, as stated, fails: on Wednesday 2025-01-08, without holidays,
    the anchor 12:30 local is moved to 12:00 local, which
    [isWithinBusinessHours] rejects. *)
Lemma adjustToPreviousWorkingTime_lunch_counterexample :
  adjustToPreviousWorkingTime 9 [] (utcInstant 2025 1 8 17 30)
  = Some (utcInstant 2025 1 8 17 0)
  /\ isWorkingDay [] (utcInstant 2025 1 8 17 0) = true
  /\ isWithinBusinessHours (utcToColombiaTime (utcInstant 2025 1 8 17 0))
     = false.
Proof. vm_compute. repeat split; reflexivity. Qed.

(** Two readings the statement above leaves out: the anchor 13:00
    local of the same day is returned as it is, and
    [isWithinBusinessHours] rejects it; and on a holiday Wednesday
    followed by an ordinary Thursday the anchor 20:00 local is put at
    17:00 of the holiday. *)
Lemma adjustToPreviousWorkingTime_lunch_end_unchanged :
  adjustToPreviousWorkingTime 9 [] (utcInstant 2025 1 8 18 0)
  = Some (utcInstant 2025 1 8 18 0)
  /\ isWithinBusinessHours (utcToColombiaTime (utcInstant 2025 1 8 18 0))
     = false
  /\ adjustToPreviousWorkingTime 16 [mkDate 2025 1 8] (utcInstant 2025 1 9 1 0)
     = Some (utcInstant 2025 1 8 22 0)
  /\ includes [mkDate 2025 1 8]
       (localDate (utcToColombiaTime (utcInstant 2025 1 8 22 0))) = true.
Proof. vm_compute. repeat split; reflexivity. Qed.

Lemma previousDayEnd_decreases c : ts (previousDayEnd c) < ts c.
Proof.
  destruct c as [t o]. unfold previousDayEnd, endOfBusinessDay, minusDays,
    plusDays, setTime. config. unfold_time. simpl. divmod.
Qed.

(** C5 (as amended).  The backward search has no iteration cap and no
    [CalendarExhausted] outcome: every backward step strictly decreases
    the candidate, and for every holiday list and anchor the search
    returns an instant no later than the anchor, with any fuel from
    [searchBound H + 2] on, however long the run of non-working days
    is. *)
Theorem adjustToPreviousWorkingTime_terminates H a :
  (forall c, ts (previousDayEnd c) < ts c)
  /\ exists r,
       (forall fuel, (S (S (searchBound H)) <= fuel)%nat ->
          adjustToPreviousWorkingTime fuel H a = Some r)
       /\ r <= a.
Proof.
  split; [exact previousDayEnd_decreases|].
  destruct (adjust_outcome H a (searchBound H) (le_n _)) as [r [Hrun Hadj]].
  exists r. split.
  - intros fuel Hfuel. eapply adjustToPreviousWorkingTime_mono; eassumption.
  - eapply Adjusted_le; eassumption.
Qed.

(** C5, as stated, fails: behind a run of 450 holidays the search takes
    more than 400 backward steps (the bounded search of the spec raises
    [CalendarExhausted]) and the code returns the instant before the
    run. *)
Lemma adjustToPreviousWorkingTime_cap_counterexample :
  boundedBackwardAnchor 400 (holidayRun 450 (days_from_civil 2025 1 8))
    (utcToColombiaTime (utcInstant 2025 1 8 15 0))
  = CalendarExhausted
  /\ untilWorkingDay 400 (holidayRun 450 (days_from_civil 2025 1 8))
       previousDayEnd (utcToColombiaTime (utcInstant 2025 1 8 15 0)) = None
  /\ adjustToPreviousWorkingTime 460 (holidayRun 450 (days_from_civil 2025 1 8))
       (utcInstant 2025 1 8 15 0)
     = Some (utcInstant 2023 10 16 22 0).
Proof. vm_compute. repeat split; reflexivity. Qed.

(** ** The clock *)

(** C4.  [isWithinBusinessHours] holds exactly when the time of day,
    in minutes, lies in [08:00, 17:00] and outside the lunch window
    [12:00, 13:00], both ends of which are excluded: the readings 12:00
    and 13:00 are rejected. *)
Theorem isWithinBusinessHours_closed_lunch x :
  (isWithinBusinessHours x = true
   <-> (8 * 60 + 0 <= minuteOfDay x <= 17 * 60 + 0
        /\ ~ (12 * 60 + 0 <= minuteOfDay x <= 13 * 60 + 0)))
  /\ (hour x = 12 /\ minute x = 0 -> isWithinBusinessHours x = false)
  /\ (hour x = 13 /\ minute x = 0 -> isWithinBusinessHours x = false).
Proof.
  split; [apply isWithinBusinessHours_minuteOfDay|].
  split; intros [Hh Hm];
    (destruct (isWithinBusinessHours x) eqn:E; [|reflexivity]);
    apply isWithinBusinessHours_minuteOfDay in E;
    unfold minuteOfDay in E; lia.
Qed.

Lemma isWithinBusinessHours_closed_lunch_witness :
  isWithinBusinessHours (utcToColombiaTime (utcInstant 2025 1 8 17 0)) = false
  /\ isWithinBusinessHours (utcToColombiaTime (utcInstant 2025 1 8 18 0)) = false.
Proof.
  split.
  - destruct (isWithinBusinessHours_closed_lunch
                (utcToColombiaTime (utcInstant 2025 1 8 17 0)))
      as (_ & Hstart & _).
    apply Hstart. vm_compute. split; reflexivity.
  - destruct (isWithinBusinessHours_closed_lunch
                (utcToColombiaTime (utcInstant 2025 1 8 18 0)))
      as (_ & _ & Hend).
    apply Hend. vm_compute. split; reflexivity.
Defined.

Lemma localDate_days x : days_of (localDate x) = localDay x.
Proof. apply days_of_civil_from_days. Qed.

(** C9.  Reading an instant in Bogotá and converting the reading back
    gives the instant itself, hence the same minute; and the civil
    fields of the reading (date, hour, minute) with the offset -05:00
    name the minute of the instant. *)
Theorem colombiaTimeToUtc_utcToColombiaTime x :
  colombiaTimeToUtc (utcToColombiaTime x) = x
  /\ colombiaTimeToUtc (utcToColombiaTime x) / msPerMinute = x / msPerMinute
  /\ days_of (localDate (utcToColombiaTime x)) * msPerDay
     + hour (utcToColombiaTime x) * msPerHour
     + minute (utcToColombiaTime x) * msPerMinute
     - bogotaOffset * msPerMinute
     = x / msPerMinute * msPerMinute.
Proof.
  split; [reflexivity|]. split; [reflexivity|].
  rewrite localDate_days.
  unfold utcToColombiaTime, setZone. unfold_time. simpl. divmod.
Qed.

(** C10.  [isWorkingDay] takes the weekday from the Bogotá reading and
    the holiday test from the UTC date of the instant; from 19:00 local
    on, that UTC date is the civil date after the local one. *)
Theorem isWorkingDay_utc_date H a :
  isWorkingDay H a
  = negb ((weekday (utcToColombiaTime a) =? 6)
          || (weekday (utcToColombiaTime a) =? 7))
    && negb (includes H (toISODate a))
  /\ (19 <= hour (utcToColombiaTime a) ->
      days_of (toISODate a) = days_of (localDate (utcToColombiaTime a)) + 1
      /\ isWorkingDay H a
         = negb ((weekday (utcToColombiaTime a) =? 6)
                 || (weekday (utcToColombiaTime a) =? 7))
           && negb (includes H
                      (civil_from_days
                         (days_of (localDate (utcToColombiaTime a)) + 1)))).
Proof.
  assert (E : isWorkingDay H a
              = negb ((weekday (utcToColombiaTime a) =? 6)
                      || (weekday (utcToColombiaTime a) =? 7))
                && negb (includes H (toISODate a))).
  { unfold isWorkingDay.
    destruct ((weekday (utcToColombiaTime a) =? 6)
              || (weekday (utcToColombiaTime a) =? 7)); reflexivity. }
  split; [exact E|]. intros Hh.
  assert (Eday : Day a = localDay (utcToColombiaTime a) + 1).
  { pose proof (hour_range (utcToColombiaTime a)).
    unfold utcToColombiaTime, setZone in *. unfold_time. simpl in *. divmod. }
  split.
  - unfold toISODate. rewrite localDate_days, days_of_civil_from_days. exact Eday.
  - rewrite E, localDate_days. unfold toISODate. rewrite Eday. reflexivity.
Qed.

(** Wednesday 2025-01-08 at 20:00 local, with only Thursday 2025-01-09 a
    holiday: the instant is not a working day. *)
Lemma isWorkingDay_utc_date_witness :
  days_of (toISODate (utcInstant 2025 1 9 1 0))
  = days_of (localDate (utcToColombiaTime (utcInstant 2025 1 9 1 0))) + 1
  /\ isWorkingDay [mkDate 2025 1 9] (utcInstant 2025 1 9 1 0) = false
  /\ includes [mkDate 2025 1 9]
       (localDate (utcToColombiaTime (utcInstant 2025 1 9 1 0))) = false.
Proof.
  destruct (isWorkingDay_utc_date [mkDate 2025 1 9] (utcInstant 2025 1 9 1 0))
    as [_ Hlate].
  destruct Hlate as [Hd Hw]; [vm_compute; discriminate|].
  split; [exact Hd|]. split; [|vm_compute; reflexivity].
  rewrite Hw. vm_compute. reflexivity.
Defined.

(** ** Forward search *)

Lemma forward_search H x n :
  offset x = bogotaOffset -> (searchBound H <= n)%nat ->
  exists j, 1 <= j
    /\ getNextWorkingDayStart n H x
       = Some (atLocal (localDay x + j) startOfDayMs)
    /\ workingPair H (localDay x + j) (localDay x + j) = true
    /\ forall i, 1 <= i < j ->
         workingPair H (localDay x + i) (localDay x + i) = false.
Proof.
  intros Hx Hn.
  destruct (workingPair_exists H (localDay x + 1) (localDay x + 1))
    as [k [Hk Hw]].
  unfold getNextWorkingDayStart.
  destruct (untilWorkingDay_finds H nextDayStart (Z.to_nat k) n (nextDayStart x))
    as [j (Hj & Hrun & Hok & Hmin)].
  - lia.
  - rewrite steps_nextDayStart by exact Hx.
    rewrite isWorkingDay_startOfDay, Z2Nat.id by lia. exact Hw.
  - rewrite steps_nextDayStart in Hrun, Hok by exact Hx.
    rewrite isWorkingDay_startOfDay in Hok.
    exists (1 + Z.of_nat j).
    replace (localDay x + (1 + Z.of_nat j)) with (localDay x + 1 + Z.of_nat j)
      by lia.
    split; [lia|]. split; [exact Hrun|]. split; [exact Hok|].
    intros i Hi.
    specialize (Hmin (Z.to_nat (i - 1))).
    rewrite steps_nextDayStart in Hmin by exact Hx.
    rewrite isWorkingDay_startOfDay in Hmin.
    replace (localDay x + 1 + Z.of_nat (Z.to_nat (i - 1)))
      with (localDay x + i) in Hmin by lia.
    apply Hmin. lia.
Qed.

Lemma diff_setTime x h m :
  offset x = bogotaOffset ->
  diff (setTime x h m) x = h * msPerHour + m * msPerMinute - millisOfDay x.
Proof.
  intros Hx. unfold diff, setTime. rewrite Hx. cbn [ts].
  destruct x as [t o]. cbn [offset] in Hx. subst o.
  unfold_time. cbn [ts offset]. divmod.
Qed.

Lemma ts_setTime x h m :
  offset x = bogotaOffset ->
  ts (setTime x h m) = ts x + (h * msPerHour + m * msPerMinute - millisOfDay x).
Proof. intros Hx. pose proof (diff_setTime x h m Hx). unfold diff in *. lia. Qed.

(** The remaining business time of the day as a function of the time
    of day. *)
Lemma calculateRemainingBusinessHours_value x :
  offset x = bogotaOffset ->
  calculateRemainingBusinessHours x
  = if negb (isWithinBusinessHours x) then 0
    else if millisOfDay x <? lunchStartMs
    then 16 * msPerHour - millisOfDay x
    else Z.max 0 (endOfDayMs - millisOfDay x).
Proof.
  intros Hx. unfold calculateRemainingBusinessHours.
  destruct (isWithinBusinessHours x) eqn:Ein; cbn [negb]; [|reflexivity].
  apply isWithinBusinessHours_minuteOfDay in Ein.
  rewrite minuteOfDay_ms in Ein.
  pose proof (millisOfDay_range x) as Ht.
  unfold endOfBusinessDay. config.
  rewrite !diff_setTime by exact Hx.
  rewrite !ts_setTime by exact Hx.
  unfold diff. rewrite !ts_setTime by exact Hx.
  unfold hour, lunchStartMs, endOfDayMs.
  unfold msPerDay, msPerHour, msPerMinute in *.
  destruct (Z.ltb_spec (millisOfDay x / 3600000) 13);
    destruct (Z.ltb_spec (millisOfDay x) (12 * 3600000 + 0 * 60000));
    destruct (Z.ltb_spec (ts x)
                (ts x + (12 * 3600000 + 0 * 60000 - millisOfDay x)));
    try (exfalso; divmod); try (f_equal; divmod);
    cbn [andb];
    repeat match goal with
           | |- context [if ?c then _ else _] => destruct c eqn:?
           end; try lia; try (f_equal; divmod).
Qed.

Lemma calculateRemainingBusinessHours_zero x :
  offset x = bogotaOffset ->
  (calculateRemainingBusinessHours x = 0
   <-> (isWithinBusinessHours x = false \/ endOfDayMs <= millisOfDay x)).
Proof.
  intros Hx. rewrite calculateRemainingBusinessHours_value by exact Hx.
  pose proof (millisOfDay_range x) as Ht.
  destruct (isWithinBusinessHours x) eqn:Ein; cbn [negb]; [|tauto].
  apply isWithinBusinessHours_minuteOfDay in Ein.
  rewrite minuteOfDay_ms in Ein.
  unfold lunchStartMs, endOfDayMs, msPerDay, msPerHour, msPerMinute in *.
  destruct (Z.ltb_spec (millisOfDay x) (12 * 3600000 + 0 * 60000)).
  - split; [intros; lia|]. intros [Hf|Hge]; [discriminate|lia].
  - split; [intros; right; lia|]. intros [Hf|Hge]; [discriminate|lia].
Qed.

Lemma weekend_not_working H L U :
  weekdayOfDay L = 6 \/ weekdayOfDay L = 7 -> workingPair H L U = false.
Proof. unfold workingPair. intros [E|E]; rewrite E; reflexivity. Qed.

Lemma weekdayOfDay_shift d k :
  weekdayOfDay (d + k) = (weekdayOfDay d - 1 + k) mod 7 + 1.
Proof. unfold weekdayOfDay. divmod. Qed.

(** ** One hour after closing time *)

(** C3.  When the local reading has no business time left in its day
    (outside business hours, or at or after 17:00), [addWorkingHours]
    with one hour returns, with any fuel from [searchBound H] on, the
    reading 08:00 of the first later day that [isWorkingDay] accepts;
    from a Friday whose following Monday is no holiday that is the
    Monday, three days later.  Friday 2025-01-03 17:00 local (22:00
    UTC) plus one hour is Monday 2025-01-06 08:00 local (13:00 UTC). *)
Theorem addWorkingHours_one_hour_next_start H a :
  calculateRemainingBusinessHours (utcToColombiaTime a) = 0 ->
  exists j, 1 <= j
    /\ (forall fuel, (searchBound H <= fuel)%nat ->
          addWorkingHours fuel H (utcToColombiaTime a) 1
          = Some (atLocal (localDay (utcToColombiaTime a) + j) startOfDayMs))
    /\ hour (atLocal (localDay (utcToColombiaTime a) + j) startOfDayMs) = 8
    /\ minute (atLocal (localDay (utcToColombiaTime a) + j) startOfDayMs) = 0
    /\ isWorkingDay H
         (toJSDate (atLocal (localDay (utcToColombiaTime a) + j) startOfDayMs))
       = true
    /\ (forall i, 1 <= i < j ->
          isWorkingDay H
            (toJSDate (atLocal (localDay (utcToColombiaTime a) + i) startOfDayMs))
          = false)
    /\ (weekday (utcToColombiaTime a) = 5 ->
        includes H (civil_from_days (localDay (utcToColombiaTime a) + 3)) = false ->
        j = 3)
    /\ calculateWorkingDateTime 7 [] 0 None (Some 1)
         (Some (utcInstant 2025 1 3 22 0))
       = Some (utcInstant 2025 1 6 13 0).
Proof.
  intros Hrem. set (x := utcToColombiaTime a) in *.
  assert (Hx : offset x = bogotaOffset) by reflexivity.
  destruct (forward_search H x (searchBound H) Hx (le_n _))
    as [j (Hj & Hrun & Hok & Hmin)].
  exists j. split; [exact Hj|]. split.
  { intros fuel Hfuel. unfold addWorkingHours. rewrite Hrem. cbn [Z.eqb andb].
    unfold getNextWorkingDayStart in *.
    eapply untilWorkingDay_mono; eassumption. }
  split; [apply (hour_atLocal _ 8 0); lia|].
  split; [apply (minute_atLocal _ 8 0); lia|].
  split; [rewrite isWorkingDay_startOfDay; exact Hok|].
  split; [intros i Hi; rewrite isWorkingDay_startOfDay; apply Hmin; exact Hi|].
  split; [|vm_compute; reflexivity].
  intros Hfri Hfree. unfold weekday in Hfri.
  assert (Hsat : workingPair H (localDay x + 1) (localDay x + 1) = false).
  { apply weekend_not_working. left. rewrite weekdayOfDay_shift, Hfri. reflexivity. }
  assert (Hsun : workingPair H (localDay x + 2) (localDay x + 2) = false).
  { apply weekend_not_working. right. rewrite weekdayOfDay_shift, Hfri. reflexivity. }
  assert (Hmon : workingPair H (localDay x + 3) (localDay x + 3) = true).
  { unfold workingPair. rewrite Hfree, weekdayOfDay_shift, Hfri. reflexivity. }
  destruct (Z.lt_trichotomy j 3) as [Hlt|[Heq|Hgt]]; [|exact Heq|].
  - assert (j = 1 \/ j = 2) as [-> | ->] by lia; congruence.
  - specialize (Hmin 3 ltac:(lia)). congruence.
Qed.

Lemma addWorkingHours_one_hour_next_start_witness :
  calculateRemainingBusinessHours (utcToColombiaTime (utcInstant 2025 1 3 22 0)) = 0
  /\ exists j, 1 <= j
    /\ (forall fuel, (searchBound [mkDate 2025 1 6] <= fuel)%nat ->
          addWorkingHours fuel [mkDate 2025 1 6]
            (utcToColombiaTime (utcInstant 2025 1 3 22 0)) 1
          = Some (atLocal (localDay (utcToColombiaTime (utcInstant 2025 1 3 22 0)) + j)
                    startOfDayMs)).
Proof.
  split; [vm_compute; reflexivity|].
  destruct (addWorkingHours_one_hour_next_start [mkDate 2025 1 6]
              (utcInstant 2025 1 3 22 0)) as [j (Hj & Hrun & _)].
  - vm_compute. reflexivity.
  - exists j. split; [exact Hj|exact Hrun].
Defined.

(** ** Fuel *)

Lemma isWorkingDay_days H a :
  isWorkingDay H a = workingPair H (Day (a - 18000000)) (Day a).
Proof.
  unfold isWorkingDay, workingPair, weekday, toISODate.
  replace (localDay (utcToColombiaTime a)) with (Day (a - 18000000))
    by (unfold utcToColombiaTime, setZone; unfold_time; simpl; f_equal).
  destruct ((weekdayOfDay (Day (a - 18000000)) =? 6)
            || (weekdayOfDay (Day (a - 18000000)) =? 7)); reflexivity.
Qed.

Lemma Day_plus a n : Day (a + n * msPerDay) = Day a + n.
Proof. unfold_time. divmod. Qed.

Lemma addWorkingDaysFrom_S f H currentDate daysAdded daysToAdd :
  addWorkingDaysFrom (S f) H currentDate daysAdded daysToAdd
  = if daysAdded <? daysToAdd then
      currentDate' <- untilWorkingDay f H nextDay (nextDay currentDate) ;;
      addWorkingDaysFrom f H currentDate' (daysAdded + 1) daysToAdd
    else Some currentDate.
Proof. reflexivity. Qed.

Lemma addWorkingDaysFrom_done f H currentDate daysAdded daysToAdd :
  daysToAdd <= daysAdded ->
  addWorkingDaysFrom f H currentDate daysAdded daysToAdd = Some currentDate.
Proof.
  intros Hle. destruct f; simpl;
    destruct (Z.ltb_spec daysAdded daysToAdd); try lia; reflexivity.
Qed.

Lemma addWorkingDaysFrom_mono H : forall n m cur added toAdd r,
  addWorkingDaysFrom n H cur added toAdd = Some r -> (n <= m)%nat ->
  addWorkingDaysFrom m H cur added toAdd = Some r.
Proof.
  induction n as [|n IH]; intros m cur added toAdd r Hr Hle.
  - simpl in Hr. destruct (Z.ltb_spec added toAdd); [discriminate|].
    rewrite addWorkingDaysFrom_done by lia. exact Hr.
  - destruct m as [|m]; [lia|]. rewrite addWorkingDaysFrom_S in *.
    destruct (added <? toAdd); [|exact Hr].
    destruct (untilWorkingDay n H nextDay (nextDay cur)) as [c|] eqn:Erun;
      [|discriminate].
    rewrite (untilWorkingDay_mono H nextDay n m _ _ Erun) by lia.
    apply IH; [exact Hr|lia].
Qed.

Lemma untilWorkingDay_offset H step :
  (forall c, offset (step c) = offset c) ->
  forall n cur r, untilWorkingDay n H step cur = Some r -> offset r = offset cur.
Proof.
  intros Hstep. induction n as [|n IH]; intros cur r; simpl;
    destruct (isWorkingDay H (toJSDate cur)); intros Hr;
    try discriminate; try (injection Hr as <-; reflexivity).
  rewrite (IH _ _ Hr). apply Hstep.
Qed.

Lemma next_day_search H cur n :
  (searchBound H <= S n)%nat ->
  exists r, untilWorkingDay n H nextDay (nextDay cur) = Some r
            /\ offset r = offset cur.
Proof.
  intros Hn.
  destruct (workingPair_exists H (Day (ts cur - 18000000) + 1) (Day (ts cur) + 1))
    as [k [Hk Hw]].
  destruct (untilWorkingDay_finds H nextDay (Z.to_nat k) n (nextDay cur))
    as [j (Hj & Hrun & _)].
  - lia.
  - rewrite steps_nextDay, isWorkingDay_days.
    unfold toJSDate, nextDay, plusDays. cbn [ts].
    rewrite Z2Nat.id by lia.
    replace (ts cur + 1 * msPerDay + k * msPerDay - 18000000)
      with (ts cur - 18000000 + (1 + k) * msPerDay) by (unfold msPerDay; lia).
    replace (ts cur + 1 * msPerDay + k * msPerDay)
      with (ts cur + (1 + k) * msPerDay) by (unfold msPerDay; lia).
    rewrite !Day_plus.
    replace (Day (ts cur - 18000000) + (1 + k))
      with (Day (ts cur - 18000000) + 1 + k) by lia.
    replace (Day (ts cur) + (1 + k)) with (Day (ts cur) + 1 + k) by lia.
    exact Hw.
  - eexists. split; [exact Hrun|].
    rewrite steps_nextDay. reflexivity.
Qed.

Lemma addWorkingDaysFrom_total H : forall (k : nat) fuel cur added toAdd,
  toAdd - added <= Z.of_nat k -> (searchBound H + k <= fuel)%nat ->
  exists r, addWorkingDaysFrom fuel H cur added toAdd = Some r
            /\ offset r = offset cur.
Proof.
  induction k as [|k IH]; intros fuel cur added toAdd Hk Hfuel.
  - exists cur. split; [apply addWorkingDaysFrom_done; lia|reflexivity].
  - destruct (Z.ltb_spec added toAdd) as [Hlt|Hge].
    + destruct fuel as [|f]; [unfold searchBound in Hfuel; lia|].
      rewrite addWorkingDaysFrom_S.
      replace (added <? toAdd) with true by (symmetry; apply Z.ltb_lt; exact Hlt).
      destruct (next_day_search H cur f) as [c [Hrun Hoff]];
        [unfold searchBound in *; lia|].
      rewrite Hrun.
      destruct (IH f c (added + 1) toAdd) as [r [Hr Hoff']]; [lia|lia|].
      exists r. split; [exact Hr|congruence].
    + exists cur. split; [apply addWorkingDaysFrom_done; lia|reflexivity].
Qed.

Lemma addHoursSkippingLunchFrom_done f result hoursAdded hoursToAdd :
  hoursToAdd <= hoursAdded ->
  addHoursSkippingLunchFrom f result hoursAdded hoursToAdd = Some result.
Proof.
  intros Hle. destruct f; simpl;
    destruct (Z.ltb_spec hoursAdded hoursToAdd); try lia; reflexivity.
Qed.

Lemma addHoursSkippingLunchFrom_mono : forall n m x added toAdd r,
  addHoursSkippingLunchFrom n x added toAdd = Some r -> (n <= m)%nat ->
  addHoursSkippingLunchFrom m x added toAdd = Some r.
Proof.
  induction n as [|n IH]; intros m x added toAdd r Hr Hle.
  - simpl in Hr. destruct (Z.ltb_spec added toAdd); [discriminate|].
    rewrite addHoursSkippingLunchFrom_done by lia. exact Hr.
  - destruct m as [|m]; [lia|]. simpl in Hr |- *.
    destruct (added <? toAdd); [|exact Hr].
    repeat match type of Hr with
           | context [if ?c then _ else _] => destruct c
           end; apply IH; try exact Hr; lia.
Qed.

Lemma addHoursSkippingLunchFrom_S f result hoursAdded hoursToAdd :
  addHoursSkippingLunchFrom (S f) result hoursAdded hoursToAdd
  = if hoursAdded <? hoursToAdd then
      let isBeforeLunch :=
        (hour result <? lunchStartHour BusinessHoursConfig)
        || ((hour result =? lunchStartHour BusinessHoursConfig)
            && (minute result <? lunchStartMinute BusinessHoursConfig)) in
      let isAfterLunch :=
        (lunchEndHour BusinessHoursConfig <=? hour result)
        || ((hour result =? lunchEndHour BusinessHoursConfig)
            && (lunchEndMinute BusinessHoursConfig <=? minute result)) in
      if isBeforeLunch then
        let lunchStart :=
          setTime result (lunchStartHour BusinessHoursConfig)
                         (lunchStartMinute BusinessHoursConfig) in
        let hoursUntilLunch := diff lunchStart result in
        let hoursToAddBeforeLunch :=
          Z.min (hoursToAdd - hoursAdded) hoursUntilLunch in
        let '(result1, hoursAdded1) :=
          if 0 <? hoursToAddBeforeLunch
          then (plusMillis result hoursToAddBeforeLunch,
                hoursAdded + hoursToAddBeforeLunch)
          else (result, hoursAdded) in
        let result2 :=
          if hoursAdded1 <? hoursToAdd
          then setTime result1 (lunchEndHour BusinessHoursConfig)
                               (lunchEndMinute BusinessHoursConfig)
          else result1 in
        addHoursSkippingLunchFrom f result2 hoursAdded1 hoursToAdd
      else if negb isAfterLunch then
        addHoursSkippingLunchFrom f
          (setTime result (lunchEndHour BusinessHoursConfig)
                          (lunchEndMinute BusinessHoursConfig))
          hoursAdded hoursToAdd
      else
        addHoursSkippingLunchFrom f (plusMillis result (hoursToAdd - hoursAdded))
          hoursToAdd hoursToAdd
    else Some result.
Proof. reflexivity. Qed.

(** After lunch the loop of [addHoursSkippingLunch] ends in one round. *)
Lemma addHoursSkippingLunchFrom_after f x added toAdd :
  13 <= hour x ->
  exists r, addHoursSkippingLunchFrom (S f) x added toAdd = Some r
            /\ offset r = offset x.
Proof.
  intros Hh. simpl. config.
  destruct (Z.ltb_spec added toAdd); [|exists x; split; reflexivity].
  replace (hour x <? 12) with false by lia.
  replace (hour x =? 12) with false by lia.
  replace (13 <=? hour x) with true by lia.
  cbn [orb andb negb].
  rewrite addHoursSkippingLunchFrom_done by lia.
  eexists. split; reflexivity.
Qed.

Lemma hour_setTime x h m :
  offset x = bogotaOffset -> 0 <= h < 24 -> 0 <= m < 60 ->
  hour (setTime x h m) = h.
Proof. intros Hx Hh Hm. rewrite setTime_atLocal by exact Hx. now apply hour_atLocal. Qed.

Lemma addHoursSkippingLunch_total x toAdd f :
  offset x = bogotaOffset -> (2 <= f)%nat ->
  exists r, addHoursSkippingLunch f x toAdd = Some r
            /\ offset r = bogotaOffset.
Proof.
  intros Hx Hf. unfold addHoursSkippingLunch.
  assert (Hlunch : forall y added,
            offset y = bogotaOffset ->
            exists r, addHoursSkippingLunchFrom 1
                        (setTime y (lunchEndHour BusinessHoursConfig)
                                   (lunchEndMinute BusinessHoursConfig))
                        added toAdd = Some r
                      /\ offset r = bogotaOffset).
  { intros y added Hy.
    destruct (addHoursSkippingLunchFrom_after O
                (setTime y (lunchEndHour BusinessHoursConfig)
                           (lunchEndMinute BusinessHoursConfig)) added toAdd)
      as [r [Hr Hoff]].
    - config. rewrite hour_setTime by (try exact Hy; lia). lia.
    - exists r. split; [exact Hr|]. rewrite Hoff. exact Hy. }
  assert (H2 : exists r, addHoursSkippingLunchFrom 2 x 0 toAdd = Some r
                         /\ offset r = bogotaOffset).
  { rewrite addHoursSkippingLunchFrom_S. cbv zeta.
    destruct (Z.ltb_spec 0 toAdd) as [Hpos|Hnon];
      [|exists x; split; [reflexivity|exact Hx]].
    match goal with
    | |- context [if ?c then _ else _] => destruct c eqn:Ebefore
    end.
    - match goal with
      | |- context [if 0 <? ?v then _ else _] => destruct (0 <? v)
      end;
      match goal with
      | |- context [if ?a <? toAdd then _ else _] =>
          destruct (Z.ltb_spec a toAdd)
      end;
      try (apply Hlunch; cbn [plusMillis offset]; exact Hx);
      (rewrite addHoursSkippingLunchFrom_done by lia;
       eexists; split; [reflexivity|cbn [plusMillis offset]; exact Hx]).
    - match goal with
      | |- context [if ?c then _ else _] => destruct c eqn:Eafter
      end.
      + apply Hlunch. exact Hx.
      + rewrite addHoursSkippingLunchFrom_done by lia.
        eexists; split; [reflexivity|cbn [plusMillis offset]; exact Hx]. }
  destruct H2 as [r [Hr Hoff]]. exists r. split; [|exact Hoff].
  eapply addHoursSkippingLunchFrom_mono; eassumption.
Qed.

Lemma addWorkingHoursFrom_S f H currentDate hoursAdded hoursToAdd :
  addWorkingHoursFrom (S f) H currentDate hoursAdded hoursToAdd
  = if hoursAdded <? hoursToAdd then
      let remainingHours := calculateRemainingBusinessHours currentDate in
      added <-
        (if 0 <? remainingHours then
           let hoursToAddNow := Z.min (hoursToAdd - hoursAdded) remainingHours in
           r <- addHoursSkippingLunch f currentDate hoursToAddNow ;;
           Some (r, hoursAdded + hoursToAddNow)
         else Some (currentDate, hoursAdded)) ;;
      let '(currentDate1, hoursAdded1) := added in
      currentDate2 <-
        (if hoursAdded1 <? hoursToAdd
         then getNextWorkingDayStart f H currentDate1
         else Some currentDate1) ;;
      addWorkingHoursFrom f H currentDate2 hoursAdded1 hoursToAdd
    else Some currentDate.
Proof. reflexivity. Qed.

Lemma addWorkingHoursFrom_done f H currentDate hoursAdded hoursToAdd :
  hoursToAdd <= hoursAdded ->
  addWorkingHoursFrom f H currentDate hoursAdded hoursToAdd = Some currentDate.
Proof.
  intros Hle. destruct f; [simpl|rewrite addWorkingHoursFrom_S];
    destruct (Z.ltb_spec hoursAdded hoursToAdd); try lia; reflexivity.
Qed.

Lemma addWorkingHoursFrom_mono H : forall n m cur added toAdd r,
  addWorkingHoursFrom n H cur added toAdd = Some r -> (n <= m)%nat ->
  addWorkingHoursFrom m H cur added toAdd = Some r.
Proof.
  induction n as [|n IH]; intros m cur added toAdd r Hr Hle.
  - simpl in Hr. destruct (Z.ltb_spec added toAdd); [discriminate|].
    rewrite addWorkingHoursFrom_done by lia. exact Hr.
  - destruct m as [|m]; [lia|]. rewrite addWorkingHoursFrom_S in *.
    destruct (added <? toAdd); [|exact Hr]. cbv zeta in *.
    destruct (0 <? calculateRemainingBusinessHours cur).
    + unfold addHoursSkippingLunch in *.
      destruct (addHoursSkippingLunchFrom n cur 0
                  (Z.min (toAdd - added) (calculateRemainingBusinessHours cur)))
        as [c1|] eqn:E1; [|discriminate].
      rewrite (addHoursSkippingLunchFrom_mono n m _ _ _ _ E1) by lia.
      destruct (added + Z.min (toAdd - added) (calculateRemainingBusinessHours cur)
                <? toAdd).
      * unfold getNextWorkingDayStart in *.
        destruct (untilWorkingDay n H nextDayStart (nextDayStart c1))
          as [c2|] eqn:E2; [|discriminate].
        rewrite (untilWorkingDay_mono H nextDayStart n m _ _ E2) by lia.
        apply IH; [exact Hr|lia].
      * apply IH; [exact Hr|lia].
    + destruct (added <? toAdd).
      * unfold getNextWorkingDayStart in *.
        destruct (untilWorkingDay n H nextDayStart (nextDayStart cur))
          as [c2|] eqn:E2; [|discriminate].
        rewrite (untilWorkingDay_mono H nextDayStart n m _ _ E2) by lia.
        apply IH; [exact Hr|lia].
      * apply IH; [exact Hr|lia].
Qed.

Lemma isWithinBusinessHours_startOfDay D :
  isWithinBusinessHours (atLocal D startOfDayMs) = true.
Proof.
  apply isWithinBusinessHours_minuteOfDay.
  rewrite minuteOfDay_atLocal by (unfold startOfDayMs; unfold_time; lia).
  change (startOfDayMs / msPerMinute) with 480. lia.
Qed.

Lemma calculateRemainingBusinessHours_startOfDay D :
  calculateRemainingBusinessHours (atLocal D startOfDayMs) = 8 * msPerHour.
Proof.
  rewrite calculateRemainingBusinessHours_value by reflexivity.
  rewrite isWithinBusinessHours_startOfDay. cbn [negb].
  rewrite millisOfDay_atLocal by (unfold startOfDayMs; unfold_time; lia).
  reflexivity.
Qed.

Lemma calculateRemainingBusinessHours_nonneg x :
  0 <= calculateRemainingBusinessHours x.
Proof.
  unfold calculateRemainingBusinessHours.
  destruct (negb (isWithinBusinessHours x)); lia.
Qed.

Lemma addWorkingHoursFrom_from_start H : forall (m : nat) fuel D added toAdd,
  toAdd - added <= Z.of_nat m * msPerHour ->
  (searchBound H + 2 + m <= fuel)%nat ->
  exists r, addWorkingHoursFrom fuel H (atLocal D startOfDayMs) added toAdd
            = Some r
            /\ offset r = bogotaOffset.
Proof.
  induction m as [|m IH]; intros fuel D added toAdd Hrest Hfuel.
  - exists (atLocal D startOfDayMs).
    split; [apply addWorkingHoursFrom_done; unfold msPerHour in *; lia|reflexivity].
  - destruct fuel as [|f]; [lia|]. rewrite addWorkingHoursFrom_S.
    destruct (Z.ltb_spec added toAdd) as [Hlt|Hge];
      [|exists (atLocal D startOfDayMs); split; reflexivity].
    cbv zeta. rewrite calculateRemainingBusinessHours_startOfDay.
    change (0 <? 8 * msPerHour) with true. cbv iota.
    destruct (addHoursSkippingLunch_total (atLocal D startOfDayMs)
                (Z.min (toAdd - added) (8 * msPerHour)) f eq_refl)
      as [c1 [Hc1 Hoff1]]; [lia|].
    rewrite Hc1.
    destruct (Z.ltb_spec (added + Z.min (toAdd - added) (8 * msPerHour)) toAdd)
      as [Hmore|Hdone].
    + destruct (forward_search H c1 f Hoff1) as [j (_ & Hnext & _)]; [lia|].
      rewrite Hnext.
      apply IH; [unfold msPerHour in *; lia|lia].
    + rewrite addWorkingHoursFrom_done by lia.
      exists c1. split; [reflexivity|exact Hoff1].
Qed.

Lemma addWorkingHoursFrom_total H x added toAdd (m : nat) fuel :
  offset x = bogotaOffset ->
  toAdd - added <= Z.of_nat m * msPerHour ->
  (searchBound H + 3 + m <= fuel)%nat ->
  exists r, addWorkingHoursFrom fuel H x added toAdd = Some r
            /\ offset r = bogotaOffset.
Proof.
  intros Hx Hrest Hfuel.
  destruct fuel as [|f]; [lia|]. rewrite addWorkingHoursFrom_S.
  destruct (Z.ltb_spec added toAdd) as [Hlt|Hge];
    [|exists x; split; [reflexivity|exact Hx]].
  cbv zeta. pose proof (calculateRemainingBusinessHours_nonneg x) as Hnn.
  destruct (Z.ltb_spec 0 (calculateRemainingBusinessHours x)) as [Hpos|Hzero].
  - destruct (addHoursSkippingLunch_total x
                (Z.min (toAdd - added) (calculateRemainingBusinessHours x)) f Hx)
      as [c1 [Hc1 Hoff1]]; [lia|].
    rewrite Hc1.
    destruct (Z.ltb_spec
                (added + Z.min (toAdd - added) (calculateRemainingBusinessHours x))
                toAdd) as [Hmore|Hdone].
    + destruct (forward_search H c1 f Hoff1) as [j (_ & Hnext & _)]; [lia|].
      rewrite Hnext.
      apply (addWorkingHoursFrom_from_start H m); lia.
    + rewrite addWorkingHoursFrom_done by lia.
      exists c1. split; [reflexivity|exact Hoff1].
  - replace (added <? toAdd) with true by lia.
    destruct (forward_search H x f Hx) as [j (_ & Hnext & _)]; [lia|].
    rewrite Hnext.
    apply (addWorkingHoursFrom_from_start H m); lia.
Qed.

Lemma addWorkingDays_total H x d :
  exists r,
    (forall fuel, (searchBound H + Z.to_nat d <= fuel)%nat ->
       addWorkingDays fuel H x d = Some r)
    /\ offset r = offset x.
Proof.
  unfold addWorkingDays.
  destruct (addWorkingDaysFrom_total H (Z.to_nat d)
              (searchBound H + Z.to_nat d) x 0 d) as [r [Hr Hoff]]; [lia|lia|].
  exists r. split; [|exact Hoff].
  intros fuel Hfuel. eapply addWorkingDaysFrom_mono; eassumption.
Qed.

Lemma addWorkingHours_total H x h :
  offset x = bogotaOffset ->
  exists r,
    (forall fuel, (searchBound H + 3 + Z.to_nat h <= fuel)%nat ->
       addWorkingHours fuel H x h = Some r)
    /\ offset r = bogotaOffset.
Proof.
  intros Hx. unfold addWorkingHours.
  destruct ((calculateRemainingBusinessHours x =? 0) && (h =? 1)).
  - destruct (forward_search H x (searchBound H) Hx (le_n _))
      as [j (_ & Hnext & _)].
    exists (atLocal (localDay x + j) startOfDayMs). split; [|reflexivity].
    intros fuel Hfuel. unfold getNextWorkingDayStart in *.
    eapply untilWorkingDay_mono; [exact Hnext|lia].
  - destruct (addWorkingHoursFrom_total H x 0 (h * msPerHour) (Z.to_nat h)
                (searchBound H + 3 + Z.to_nat h) Hx) as [r [Hr Hoff]];
      [unfold msPerHour; lia|lia|].
    exists r. split; [|exact Hoff].
    intros fuel Hfuel. eapply addWorkingHoursFrom_mono; eassumption.
Qed.

(** ** Identity and order of the calculation *)

(** C8.  Let the anchor be the start date given, or the current
    instant when none is.  With zero (or absent) days and hours the
    calculation returns the anchor itself when it is a working day
    within business hours, and otherwise what
    [adjustToPreviousWorkingTime] returns for it.  With positive days
    and hours the result is [addWorkingHours] applied to the result of
    [addWorkingDays] applied to that starting point: days first, then
    hours. *)
Theorem calculateWorkingDateTime_identity_and_order H now startDate :
  let a := match startDate with Some d => d | None => now end in
  (forall days hours fuel,
     orZero days = 0 -> orZero hours = 0 ->
     calculateWorkingDateTime fuel H now days hours startDate
     = if anchorIsValid H a then Some a
       else adjustToPreviousWorkingTime fuel H a)
  /\ exists base,
       (forall fuel, (S (S (searchBound H)) <= fuel)%nat ->
          (if anchorIsValid H a then Some a
           else adjustToPreviousWorkingTime fuel H a) = Some base)
       /\ forall d h, 0 < d -> 0 < h ->
            exists afterDays afterHours,
              forall fuel, (workFuel H d h <= fuel)%nat ->
                addWorkingDays fuel H (utcToColombiaTime base) d
                = Some afterDays
                /\ addWorkingHours fuel H afterDays h = Some afterHours
                /\ calculateWorkingDateTime fuel H now (Some d) (Some h)
                     startDate
                   = Some (colombiaTimeToUtc afterHours).
Proof.
  intros a.
  assert (Hstart : forall fuel,
            (if negb (isWorkingDay H a)
                || negb (isWithinBusinessHours (utcToColombiaTime a))
             then currentDate' <- adjustToPreviousWorkingTime fuel H a ;;
                  Some (utcToColombiaTime currentDate')
             else Some (utcToColombiaTime a))
            = (r <- (if anchorIsValid H a then Some a
                     else adjustToPreviousWorkingTime fuel H a) ;;
               Some (utcToColombiaTime r))).
  { intros fuel. unfold anchorIsValid.
    destruct (isWorkingDay H a), (isWithinBusinessHours (utcToColombiaTime a));
      reflexivity. }
  split.
  - intros days hours fuel Hd Hh. unfold calculateWorkingDateTime.
    fold a. rewrite Hd, Hh, Hstart. cbn [Z.ltb Z.compare].
    destruct (anchorIsValid H a); [reflexivity|].
    destruct (adjustToPreviousWorkingTime fuel H a); reflexivity.
  - assert (Hbase : exists base,
              forall fuel, (S (S (searchBound H)) <= fuel)%nat ->
                (if anchorIsValid H a then Some a
                 else adjustToPreviousWorkingTime fuel H a) = Some base).
    { destruct (anchorIsValid H a); [exists a; reflexivity|].
      destruct (adjust_outcome H a (searchBound H) (le_n _)) as [r [Hrun _]].
      exists r. intros fuel Hfuel.
      eapply adjustToPreviousWorkingTime_mono; eassumption. }
    destruct Hbase as [base Hbase]. exists base. split; [exact Hbase|].
    intros d h Hd Hh.
    destruct (addWorkingDays_total H (utcToColombiaTime base) d)
      as [afterDays [Hdays Hoff]].
    destruct (addWorkingHours_total H afterDays h Hoff)
      as [afterHours [Hhours _]].
    exists afterDays, afterHours. intros fuel Hfuel. unfold workFuel in Hfuel.
    assert (Ed : addWorkingDays fuel H (utcToColombiaTime base) d
                 = Some afterDays) by (apply Hdays; lia).
    assert (Eh : addWorkingHours fuel H afterDays h = Some afterHours)
      by (apply Hhours; lia).
    split; [exact Ed|]. split; [exact Eh|].
    unfold calculateWorkingDateTime. cbn [orZero]. fold a.
    rewrite Hstart, Hbase by lia.
    replace (0 <? d) with true by lia. replace (0 <? h) with true by lia.
    rewrite Ed, Eh. reflexivity.
Qed.

(** Tuesday 2025-01-07 15:00 local plus one day and three hours is
    Thursday 09:00 local. *)
Lemma calculateWorkingDateTime_identity_and_order_witness :
  calculateWorkingDateTime 12 [] 0 (Some 0) (Some 0)
    (Some (utcInstant 2025 1 7 20 0))
  = Some (utcInstant 2025 1 7 20 0)
  /\ calculateWorkingDateTime 14 [] 0 (Some 1) (Some 3)
       (Some (utcInstant 2025 1 7 20 0))
     = Some (utcInstant 2025 1 9 14 0).
Proof.
  destruct (calculateWorkingDateTime_identity_and_order []
              0 (Some (utcInstant 2025 1 7 20 0)))
    as [Hzero [base [Hbase Horder]]].
  split.
  - rewrite Hzero by reflexivity. vm_compute. reflexivity.
  - destruct (Horder 1 3) as [afterDays [afterHours Hrun]];
      [reflexivity|reflexivity|].
    destruct (Hrun 14%nat) as (_ & _ & Hcalc); [vm_compute; lia|].
    vm_compute. reflexivity.
Defined.

(** ** Easter *)

Lemma easterMonthDay_gregorianEaster year :
  0 <= year -> easterMonthDay year = gregorianEaster year.
Proof.
  intros Hy. unfold easterMonthDay, gregorianEaster, jsrem, floordiv.
  cbv zeta.
  assert (Ea : Z.rem year 19 = year mod 19) by (apply Z.rem_mod_nonneg; lia).
  assert (Ec : Z.rem year 100 = year mod 100) by (apply Z.rem_mod_nonneg; lia).
  rewrite Ea, Ec.
  set (a := year mod 19). set (b := year / 100). set (c := year mod 100).
  assert (Hb : 0 <= b) by (subst b; divmod).
  assert (Ha : 0 <= a < 19) by (subst a; divmod).
  assert (Hc : 0 <= c < 100) by (subst c; divmod).
  assert (Ee : Z.rem b 4 = b mod 4) by (apply Z.rem_mod_nonneg; lia).
  assert (Ek : Z.rem c 4 = c mod 4) by (apply Z.rem_mod_nonneg; lia).
  rewrite Ee, Ek.
  set (d := b / 4). set (e := b mod 4). set (f := (b + 8) / 25).
  set (g := (b - f + 1) / 3).
  assert (Eh : Z.rem (19 * a + b - d - g + 15) 30
               = (19 * a + b - d - g + 15) mod 30).
  { apply Z.rem_mod_nonneg; [|lia]. subst d g f. divmod. }
  rewrite Eh.
  set (h := (19 * a + b - d - g + 15) mod 30).
  set (i := c / 4). set (k := c mod 4).
  assert (Hh : 0 <= h < 30) by (subst h; divmod).
  assert (He : 0 <= e < 4) by (subst e; divmod).
  assert (Hi : 0 <= i < 25) by (subst i; divmod).
  assert (Hk : 0 <= k < 4) by (subst k; divmod).
  assert (El : Z.rem (32 + 2 * e + 2 * i - h - k) 7
               = (32 + 2 * e + 2 * i - h - k) mod 7)
    by (apply Z.rem_mod_nonneg; lia).
  rewrite El.
  set (l := (32 + 2 * e + 2 * i - h - k) mod 7).
  assert (Hl : 0 <= l < 7) by (subst l; divmod).
  set (m := (a + 11 * h + 22 * l) / 451).
  assert (Hm : 0 <= m <= 1) by (subst m; divmod).
  rewrite Z.rem_mod_nonneg by lia. reflexivity.
Qed.

Lemma gregorianEaster_range year :
  let (month, day) := gregorianEaster year in
  (month = 3 /\ 22 <= day <= 31) \/ (month = 4 /\ 1 <= day <= 25).
Proof.
  unfold gregorianEaster. cbv zeta.
  set (a := year mod 19). set (b := year / 100). set (c := year mod 100).
  set (d := b / 4). set (e := b mod 4). set (f := (b + 8) / 25).
  set (g := (b - f + 1) / 3).
  set (h := (19 * a + b - d - g + 15) mod 30).
  set (i := c / 4). set (k := c mod 4).
  set (l := (32 + 2 * e + 2 * i - h - k) mod 7).
  set (m := (a + 11 * h + 22 * l) / 451).
  assert (Ha : 0 <= a < 19) by (subst a; divmod).
  assert (Hh : 0 <= h < 30) by (subst h; divmod).
  assert (Hl : 0 <= l < 7) by (subst l; divmod).
  clearbody a h l. subst m. divmod.
Qed.

Lemma days_from_civil_day y m d :
  days_from_civil y m d = days_from_civil y m 1 + (d - 1).
Proof. unfold days_from_civil. lia. Qed.

(** The date the algorithm yields is a Sunday. *)
Lemma gregorianEaster_sunday year :
  weekdayOfDay (days_from_civil year (fst (gregorianEaster year))
                                     (snd (gregorianEaster year))) = 7.
Proof.
  pose proof (gregorianEaster_range year) as Hr.
  assert (Hyear : year = 400 * (year / 100 / 4) + 100 * (year / 100 mod 4)
                         + 4 * (year mod 100 / 4) + year mod 100 mod 4)
    by divmod.
  assert (He : 0 <= year / 100 mod 4 < 4) by divmod.
  assert (Hi : 0 <= year mod 100 / 4 < 25) by divmod.
  assert (Hk : 0 <= year mod 100 mod 4 < 4) by divmod.
  unfold gregorianEaster in *. cbv zeta in *. cbn [fst snd].
  set (e := year / 100 mod 4) in *.
  set (i := year mod 100 / 4) in *. set (k := year mod 100 mod 4) in *.
  set (h := (19 * (year mod 19) + year / 100 - year / 100 / 4
             - (year / 100 - (year / 100 + 8) / 25 + 1) / 3 + 15) mod 30) in *.
  set (l := (32 + 2 * e + 2 * i - h - k) mod 7) in *.
  set (m := (year mod 19 + 11 * h + 22 * l) / 451) in *.
  assert (Hl : (32 + 2 * e + 2 * i - h - k - l) mod 7 = 0) by (subst l; divmod).
  set (q := year / 100 / 4) in *.
  clearbody l h m e i k q.
  unfold weekdayOfDay, days_from_civil.
  destruct Hr as [[Hm Hd]|[Hm Hd]]; rewrite Hm;
    cbn [Z.leb Z.ltb Z.compare Pos.compare Pos.compare_cont];
    rewrite Hyear; clear Hyear; divmod.
Qed.

(** The facts on Easter that the statements below share. *)
Lemma easterMonthDay_facts year :
  0 <= year ->
  easterMonthDay year = gregorianEaster year
  /\ ((fst (easterMonthDay year) = 3 /\ 22 <= snd (easterMonthDay year) <= 31)
      \/ (fst (easterMonthDay year) = 4 /\ 1 <= snd (easterMonthDay year) <= 25))
  /\ weekdayOfDay (easterDay year) = 7.
Proof.
  intros Hy. pose proof (easterMonthDay_gregorianEaster year Hy) as E.
  split; [exact E|]. split.
  - rewrite E. pose proof (gregorianEaster_range year) as Hr.
    destruct (gregorianEaster year); exact Hr.
  - unfold easterDay. rewrite E. apply gregorianEaster_sunday.
Qed.

(** C7.  For every year from 0 on, the month and day that
    [calculateEaster] computes are those of the standard Gregorian
    Easter algorithm, and [calculateEaster] is the local midnight of
    that date; the date lies between March 22 and April 25 and is a
    Sunday. *)
Theorem calculateEaster_gregorian tz year :
  0 <= year ->
  easterMonthDay year = gregorianEaster year
  /\ calculateEaster tz year
     = Date_local tz year (fst (gregorianEaster year) - 1)
                          (snd (gregorianEaster year))
  /\ ((fst (gregorianEaster year) = 3 /\ 22 <= snd (gregorianEaster year) <= 31)
      \/ (fst (gregorianEaster year) = 4 /\ 1 <= snd (gregorianEaster year) <= 25))
  /\ weekdayOfDay (easterDay year) = 7.
Proof.
  intros Hy. destruct (easterMonthDay_facts year Hy) as (E & Hrange & Hsun).
  split; [exact E|]. split.
  { unfold calculateEaster. rewrite E.
    destruct (gregorianEaster year); reflexivity. }
  split; [rewrite <- E; exact Hrange|exact Hsun].
Qed.

Lemma calculateEaster_gregorian_witness :
  0 <= 2025
  /\ easterMonthDay 2025 = (4, 20)
  /\ toISODate (calculateEaster (-300) 2025) = mkDate 2025 4 20
  /\ weekdayOfDay (easterDay 2025) = 7.
Proof.
  split; [lia|].
  destruct (calculateEaster_gregorian (-300) 2025) as (E & Ec & _ & Hs); [lia|].
  split; [rewrite E; reflexivity|].
  split; [rewrite Ec; vm_compute; reflexivity|exact Hs].
Defined.

(** Easter Sundays of 1961, 2000, 2024 and 2038. *)
Example easterMonthDay_known :
  map easterMonthDay [1961; 2000; 2024; 2038]
  = [(4, 2); (4, 23); (3, 31); (4, 25)].
Proof. reflexivity. Qed.

(** ** The local holiday calendar *)

Lemma In_insertByDate x h l : In x (insertByDate h l) <-> x = h \/ In x l.
Proof.
  induction l as [|y l IH]; simpl.
  - intuition.
  - destruct (DateStr_leb (date y) (date h)); simpl; rewrite ?IH; intuition.
Qed.

Lemma In_sortByDate x l : In x (sortByDate l) <-> In x l.
Proof.
  unfold sortByDate.
  assert (G : forall acc, In x (fold_left (fun acc h => insertByDate h acc) l acc)
                          <-> In x l \/ In x acc).
  { induction l as [|h l IH]; intros acc; simpl.
    - intuition.
    - rewrite IH, In_insertByDate. intuition. }
  rewrite G. simpl. intuition.
Qed.

Lemma Date_local_value tz year mi d :
  100 <= year -> 0 <= mi < 12 ->
  Date_local tz year mi d
  = days_from_civil year (mi + 1) d * msPerDay - tz * msPerMinute.
Proof.
  intros Hy Hmi. unfold Date_local.
  replace ((0 <=? year) && (year <=? 99)) with false by lia.
  rewrite Z.div_small, Z.mod_small, Z.add_0_r by lia.
  rewrite (days_from_civil_day _ _ d). reflexivity.
Qed.

(** West of Greenwich (and in UTC) a local midnight and the days
    counted from it keep their date in UTC. *)
Lemma toISODate_local_midnight tz N k :
  -1440 < tz <= 0 ->
  toISODate (N * msPerDay - tz * msPerMinute + k * 24 * 60 * 60 * 1000)
  = civil_from_days (N + k).
Proof. intros Htz. unfold toISODate. f_equal. unfold_time. divmod. Qed.

Lemma getDay_local_midnight tz N k :
  getDay tz (N * msPerDay - tz * msPerMinute + k * 24 * 60 * 60 * 1000)
  = (N + k + 4) mod 7.
Proof. unfold getDay. f_equal. unfold_time. divmod. Qed.

Lemma moveToNextMonday_local_midnight tz N :
  exists k, 0 <= k <= 6
    /\ (k = 0 <-> weekdayOfDay N = 1)
    /\ weekdayOfDay (N + k) = 1
    /\ moveToNextMonday tz (N * msPerDay - tz * msPerMinute)
       = N * msPerDay - tz * msPerMinute + k * 24 * 60 * 60 * 1000.
Proof.
  unfold moveToNextMonday, Date_of_time, getTime, jsrem.
  pose proof (getDay_local_midnight tz N 0) as Hg.
  replace (N * msPerDay - tz * msPerMinute + 0 * 24 * 60 * 60 * 1000)
    with (N * msPerDay - tz * msPerMinute) in Hg by lia.
  rewrite Hg. replace (N + 0 + 4) with (N + 4) by lia.
  assert (Hr : 0 <= (N + 4) mod 7 < 7) by divmod.
  destruct (Z.eqb_spec ((N + 4) mod 7) 1) as [E|E].
  - exists 0. unfold weekdayOfDay. repeat split; try lia; divmod.
  - exists (Z.rem (8 - (N + 4) mod 7) 7).
    rewrite Z.rem_mod_nonneg by lia.
    unfold weekdayOfDay. repeat split; try reflexivity; try divmod.
Qed.

Lemma fixed_rules_valid year r :
  In r (FIXED_HOLIDAYS ++ MOVABLE_HOLIDAYS) ->
  validDate year (month r) (day r) = true /\ 0 <= month r - 1 < 12.
Proof.
  unfold FIXED_HOLIDAYS, MOVABLE_HOLIDAYS. cbn [app In].
  intros Hr.
  repeat (destruct Hr as [<-|Hr]; [split; [reflexivity|cbn; lia]|]).
  contradiction.
Qed.

Lemma In_dates d n l :
  In (holidayOn d n) l -> In (toISODate d) (map date (sortByDate l)).
Proof.
  intros Hin. apply in_map_iff. exists (holidayOn d n).
  split; [reflexivity|]. apply In_sortByDate. exact Hin.
Qed.

(** X24.  In a process whose time zone is a fixed offset at UTC or
    west of it, as in Bogotá, for every year from 100 to 9999, the
    local calendar holds each fixed holiday on its literal date; each
    bridge-law holiday on the first Monday on or after its nominal date
    (a shift of 0 to 6 days, 0 exactly when the nominal date is a
    Monday); Holy Thursday and Good Friday three and two days before
    Easter Sunday, as they fall; and Ascension, Corpus Christi and
    Sacred Heart on the first Monday after Easter plus 39, 60 and 68
    days. *)
Theorem calculateColombianHolidays_rules tz year :
  -1440 < tz <= 0 -> 100 <= year <= 9999 ->
  let dates := map date (calculateColombianHolidays tz year) in
  (forall r, In r FIXED_HOLIDAYS ->
     In (mkDate year (month r) (day r)) dates)
  /\ (forall r, In r MOVABLE_HOLIDAYS ->
        exists k, 0 <= k <= 6
          /\ (k = 0 <-> weekdayOfDay (days_from_civil year (month r) (day r)) = 1)
          /\ weekdayOfDay (days_from_civil year (month r) (day r) + k) = 1
          /\ In (civil_from_days (days_from_civil year (month r) (day r) + k))
                dates)
  /\ (In (civil_from_days (easterDay year - 3)) dates
      /\ weekdayOfDay (easterDay year - 3) = 4)
  /\ (In (civil_from_days (easterDay year - 2)) dates
      /\ weekdayOfDay (easterDay year - 2) = 5)
  /\ (forall n, In n [39; 60; 68] ->
        exists k, 1 <= k <= 6
          /\ weekdayOfDay (easterDay year + n + k) = 1
          /\ In (civil_from_days (easterDay year + n + k)) dates).
Proof.
  intros Htz Hyear dates.
  destruct (easterMonthDay_facts year ltac:(lia)) as (_ & Hrange & Hsun).
  assert (Heaster : calculateEaster tz year
                    = easterDay year * msPerDay - tz * msPerMinute).
  { unfold calculateEaster, easterDay.
    destruct (easterMonthDay year) as [em ed] eqn:E. cbn [fst snd] in *.
    rewrite Date_local_value by lia. repeat f_equal. lia. }
  subst dates. unfold calculateColombianHolidays. cbv zeta.
  rewrite Heaster. unfold Date_of_time, getTime.
  split; [|split; [|split; [|split]]].
  - intros r Hr.
    destruct (fixed_rules_valid year r) as [Hv Hm];
      [apply in_or_app; left; exact Hr|].
    rewrite <- (civil_from_days_from_civil _ _ _ Hv).
    replace (days_from_civil year (month r) (day r))
      with (days_from_civil year (month r - 1 + 1) (day r) + 0)
      by (rewrite Z.add_0_r; repeat f_equal; lia).
    rewrite <- (toISODate_local_midnight tz _ _ Htz).
    rewrite <- Date_local_value by lia.
    replace (Date_local tz year (month r - 1) (day r) + 0 * 24 * 60 * 60 * 1000)
      with (Date_local tz year (month r - 1) (day r)) by lia.
    apply (In_dates _ (ruleName r)).
    apply in_or_app; left.
    apply in_map_iff. exists r. split; [reflexivity|exact Hr].
  - intros r Hr.
    destruct (fixed_rules_valid year r) as [Hv Hm];
      [apply in_or_app; right; exact Hr|].
    set (N := days_from_civil year (month r) (day r)).
    assert (EN : Date_local tz year (month r - 1) (day r)
                 = N * msPerDay - tz * msPerMinute).
    { rewrite Date_local_value by lia. subst N. repeat f_equal. lia. }
    destruct (moveToNextMonday_local_midnight tz N)
      as [k (Hk & Hk0 & Hmon & Hmove)].
    exists k. split; [exact Hk|]. split; [exact Hk0|]. split; [exact Hmon|].
    rewrite <- (toISODate_local_midnight tz _ _ Htz).
    rewrite <- Hmove.
    apply (In_dates _ (ruleName r)).
    apply in_or_app; right. apply in_or_app; left.
    apply in_map_iff. exists r. split; [|exact Hr].
    rewrite EN. unfold moveToNextMonday, Date_of_time, getTime.
    destruct (getDay tz (N * msPerDay - tz * msPerMinute) =? 1); reflexivity.
  - split.
    + replace (easterDay year - 3) with (easterDay year + (-3)) by lia.
      rewrite <- (toISODate_local_midnight tz _ _ Htz).
      replace (easterDay year * msPerDay - tz * msPerMinute
               + -3 * 24 * 60 * 60 * 1000)
        with (easterDay year * msPerDay - tz * msPerMinute
              - 3 * 24 * 60 * 60 * 1000) by lia.
      apply (In_dates _ "Jueves Santo"%string).
      apply in_or_app; right. apply in_or_app; right. cbn [In].
      left; reflexivity.
    + rewrite <- (Z.add_opp_r _ 3), weekdayOfDay_shift, Hsun. reflexivity.
  - split.
    + replace (easterDay year - 2) with (easterDay year + (-2)) by lia.
      rewrite <- (toISODate_local_midnight tz _ _ Htz).
      replace (easterDay year * msPerDay - tz * msPerMinute
               + -2 * 24 * 60 * 60 * 1000)
        with (easterDay year * msPerDay - tz * msPerMinute
              - 2 * 24 * 60 * 60 * 1000) by lia.
      apply (In_dates _ "Viernes Santo"%string).
      apply in_or_app; right. apply in_or_app; right. cbn [In].
      do 1 right; left; reflexivity.
    + rewrite <- (Z.add_opp_r _ 2), weekdayOfDay_shift, Hsun. reflexivity.
  - intros n Hn.
    assert (Eshift : easterDay year * msPerDay - tz * msPerMinute
                     + n * 24 * 60 * 60 * 1000
                     = (easterDay year + n) * msPerDay - tz * msPerMinute)
      by (unfold msPerDay; lia).
    destruct (moveToNextMonday_local_midnight tz (easterDay year + n))
      as [k (Hk & Hk0 & Hmon & Hmove)].
    exists k.
    assert (Hk1 : 1 <= k).
    { destruct (Z.eq_dec k 0) as [->|]; [|lia].
      assert (Hw : weekdayOfDay (easterDay year + n) = 1) by (apply Hk0; reflexivity).
      rewrite weekdayOfDay_shift, Hsun in Hw.
      cbn [In] in Hn.
      destruct Hn as [<-|[<-|[<-|[]]]]; vm_compute in Hw; discriminate. }
    split; [lia|]. split; [exact Hmon|].
    rewrite <- (toISODate_local_midnight tz _ _ Htz), <- Hmove, <- Eshift.
    cbn [In] in Hn.
    destruct Hn as [<-|[<-|[<-|[]]]].
    + apply (In_dates _ "Ascensión del Señor"%string).
      apply in_or_app; right. apply in_or_app; right. cbn [In].
      do 2 right; left; reflexivity.
    + apply (In_dates _ "Corpus Christi"%string).
      apply in_or_app; right. apply in_or_app; right. cbn [In].
      do 3 right; left; reflexivity.
    + apply (In_dates _ "Sagrado Corazón de Jesús"%string).
      apply in_or_app; right. apply in_or_app; right. cbn [In].
      do 4 right; left; reflexivity.
Qed.

(** In Bogotá, 2025: the six fixed holidays fall on their dates, Reyes
    (January 6, a Monday) stays, San José (March 19, a Wednesday) moves
    to March 24, and Ascension falls on June 2. *)
Lemma calculateColombianHolidays_rules_witness :
  -1440 < -300 <= 0 /\ 100 <= 2025 <= 9999
  /\ (forall r, In r FIXED_HOLIDAYS ->
        In (mkDate 2025 (month r) (day r))
           (map date (calculateColombianHolidays (-300) 2025)))
  /\ map date (calculateColombianHolidays (-300) 2025)
     = [ mkDate 2025 1 1; mkDate 2025 1 6; mkDate 2025 3 24;
         mkDate 2025 4 17; mkDate 2025 4 18; mkDate 2025 5 1;
         mkDate 2025 6 2; mkDate 2025 6 23; mkDate 2025 6 30;
         mkDate 2025 6 30; mkDate 2025 7 20; mkDate 2025 8 7;
         mkDate 2025 8 18; mkDate 2025 10 13; mkDate 2025 11 3;
         mkDate 2025 11 17; mkDate 2025 12 8; mkDate 2025 12 25 ].
Proof.
  split; [lia|]. split; [lia|].
  pose proof (calculateColombianHolidays_rules (-300) 2025
                ltac:(lia) ltac:(lia)) as Hrules.
  cbv zeta in Hrules. destruct Hrules as [Hfixed _].
  split; [exact Hfixed|]. vm_compute. reflexivity.
Defined.

Lemma toISODate_local_midnight_east tz N k :
  0 < tz < 1440 ->
  toISODate (N * msPerDay - tz * msPerMinute + k * 24 * 60 * 60 * 1000)
  = civil_from_days (N + k - 1).
Proof.
  intros Htz. unfold toISODate. f_equal.
  unfold Day, msPerDay, msPerMinute. divmod.
Qed.

(** East of UTC, in whatever year, each fixed holiday is filed on the
    day before its literal date. *)
Lemma calculateColombianHolidays_fixed_east tz year r :
  0 < tz < 1440 -> 100 <= year <= 9999 -> In r FIXED_HOLIDAYS ->
  In (civil_from_days (days_from_civil year (month r) (day r) - 1))
     (map date (calculateColombianHolidays tz year)).
Proof.
  intros Htz Hyear Hr.
  destruct (fixed_rules_valid year r) as [Hv Hm];
    [apply in_or_app; left; exact Hr|].
  unfold calculateColombianHolidays. cbv zeta.
  replace (days_from_civil year (month r) (day r) - 1)
    with (days_from_civil year (month r - 1 + 1) (day r) + 0 - 1)
    by (rewrite Z.add_0_r; repeat f_equal; lia).
  rewrite <- (toISODate_local_midnight_east tz _ _ Htz).
  rewrite <- Date_local_value by lia.
  replace (Date_local tz year (month r - 1) (day r) + 0 * 24 * 60 * 60 * 1000)
    with (Date_local tz year (month r - 1) (day r)) by lia.
  apply (In_dates _ (ruleName r)).
  apply in_or_app; left.
  apply in_map_iff. exists r. split; [reflexivity|exact Hr].
Qed.

(** C6.  The calendar does not keep the rules in a process east of
    UTC.  Each date is built as a local midnight and read back as a UTC
    date, which east of UTC is the day before.  One hour east of UTC,
    for 2025, every record is one day earlier than the rules say: New
    Year is filed on 2024-12-31 and no fixed holiday on its literal
    date; the days filed for the bridge-law holidays and for
    Ascension, Corpus Christi and Sacred Heart are Sundays; and Holy
    Thursday and Good Friday are filed four and three days before
    Easter Sunday, April 20. *)
Theorem calculateColombianHolidays_east_of_utc :
  let dates := map date (calculateColombianHolidays 60 2025) in
  dates
  = [ mkDate 2024 12 31; mkDate 2025 1 5; mkDate 2025 3 23;
      mkDate 2025 4 16; mkDate 2025 4 17; mkDate 2025 4 30;
      mkDate 2025 6 1; mkDate 2025 6 22; mkDate 2025 6 29;
      mkDate 2025 6 29; mkDate 2025 7 19; mkDate 2025 8 6;
      mkDate 2025 8 17; mkDate 2025 10 12; mkDate 2025 11 2;
      mkDate 2025 11 16; mkDate 2025 12 7; mkDate 2025 12 24 ]
  /\ forallb (fun r => negb (includes dates (mkDate 2025 (month r) (day r))))
        FIXED_HOLIDAYS = true
  /\ forallb (fun d => weekdayOfDay (days_of d) =? 7)
        [ mkDate 2025 1 5; mkDate 2025 3 23; mkDate 2025 6 1;
          mkDate 2025 6 22; mkDate 2025 6 29; mkDate 2025 8 17;
          mkDate 2025 10 12; mkDate 2025 11 2; mkDate 2025 11 16 ] = true
  /\ easterMonthDay 2025 = (4, 20)
  /\ includes dates (civil_from_days (easterDay 2025 - 4)) = true
  /\ includes dates (civil_from_days (easterDay 2025 - 2)) = false.
Proof. vm_compute. repeat split; reflexivity. Qed.

(** ** The holiday service *)

(** Every call of one calculation sees the same external list: the
    state after a fetch yields the list the fetch returned. *)
Lemma fetchAllHolidays_stable net s :
  externalHolidays net (snd (fetchAllHolidays net s)) = externalHolidays net s.
Proof.
  unfold externalHolidays, fetchAllHolidays.
  destruct (allHolidaysCache s) as [cached|] eqn:E.
  - cbn [snd fst]. rewrite E. reflexivity.
  - destruct net as [holidays|]; cbn [snd fst allHolidaysCache].
    + reflexivity.
    + rewrite E. reflexivity.
Qed.

Lemma isHoliday_value net s d :
  fst (isHoliday net s d) = includes (externalHolidays net s) (toISODate d)
  /\ snd (isHoliday net s d) = snd (fetchAllHolidays net s).
Proof.
  unfold isHoliday, externalHolidays.
  destruct (fetchAllHolidays net s) as [all s1]. split; reflexivity.
Qed.

(** [isWorkingDay] of the embedding is the source's, run on a service. *)
Lemma isWorkingDay_service net s d :
  isWorkingDay (externalHolidays net s) d
  = if (weekday (utcToColombiaTime d) =? 6) || (weekday (utcToColombiaTime d) =? 7)
    then false else negb (fst (isHoliday net s d)).
Proof.
  unfold isWorkingDay. destruct (isHoliday_value net s d) as [-> _]. reflexivity.
Qed.


(** Without an external entry for the year of the date, [isHoliday]
    answers [false], whatever the local calendar holds. *)
Lemma isHoliday_year_without_entries net s d :
  (forall e, In e (externalHolidays net s) -> dyear e <> dyear (toISODate d)) ->
  fst (isHoliday net s d) = false.
Proof.
  intros Hnone. destruct (isHoliday_value net s d) as [-> _].
  destruct (includes (externalHolidays net s) (toISODate d)) eqn:E;
    [|reflexivity].
  apply includes_In in E. exfalso. exact (Hnone _ E eq_refl).
Qed.

(** C2 (the code departs from it).  With the provider failing and
    nothing cached, [isHoliday] answers [false] for 2025-01-01, which
    the local calendar of 2025 holds and which [fetchHolidays], the
    sibling path, reports through its local fallback. *)
Theorem isHoliday_provider_failure_no_fallback :
  fst (isHoliday None initial (utcInstant 2025 1 1 15 0)) = false
  /\ toISODate (utcInstant 2025 1 1 15 0) = mkDate 2025 1 1
  /\ includes (map date (calculateColombianHolidays (-300) 2025))
       (mkDate 2025 1 1) = true
  /\ includes (map date (fst (fetchHolidays (-300) None initial 2025)))
       (mkDate 2025 1 1) = true.
Proof. vm_compute. repeat split; reflexivity. Qed.

(** ** The local calendar as a list *)

Lemma Permutation_insertByDate h l : Permutation (insertByDate h l) (h :: l).
Proof.
  induction l as [|x l IH]; simpl; [reflexivity|].
  destruct (DateStr_leb (date x) (date h)); [|reflexivity].
  rewrite IH. apply perm_swap.
Qed.

Lemma Permutation_sortByDate l : Permutation (sortByDate l) l.
Proof.
  unfold sortByDate.
  assert (G : forall acc,
            Permutation (fold_left (fun acc h => insertByDate h acc) l acc)
                        (acc ++ l)).
  { induction l as [|h l IH]; intros acc; simpl.
    - rewrite app_nil_r. reflexivity.
    - rewrite IH, Permutation_insertByDate.
      change (h :: acc ++ l) with ((h :: acc) ++ l).
      rewrite (Permutation_middle acc l h). reflexivity. }
  rewrite G. reflexivity.
Qed.

Lemma DateStr_leb_total a b : DateStr_leb a b = false -> DateStr_leb b a = true.
Proof. unfold DateStr_leb. lia. Qed.

Lemma DateStr_leb_trans a b c :
  DateStr_leb a b = true -> DateStr_leb b c = true -> DateStr_leb a c = true.
Proof. unfold DateStr_leb. lia. Qed.

Lemma Sorted_insertByDate h l :
  Sorted byDate l -> Sorted byDate (insertByDate h l).
Proof.
  induction l as [|x l IH]; intros Hs; simpl.
  - constructor; constructor.
  - inversion Hs as [|? ? Hs' Hhd]; subst.
    destruct (DateStr_leb (date x) (date h)) eqn:E.
    + constructor; [apply IH; exact Hs'|].
      destruct l as [|y l]; simpl.
      * constructor. exact E.
      * destruct (DateStr_leb (date y) (date h)); constructor;
          [inversion Hhd; assumption|exact E].
    + constructor; [exact Hs|]. constructor.
      apply DateStr_leb_total. exact E.
Qed.

Lemma Sorted_sortByDate l : Sorted byDate (sortByDate l).
Proof.
  unfold sortByDate.
  assert (G : forall acc, Sorted byDate acc ->
            Sorted byDate (fold_left (fun acc h => insertByDate h acc) l acc)).
  { induction l as [|h l IH]; intros acc Hacc; simpl; [exact Hacc|].
    apply IH. apply Sorted_insertByDate. exact Hacc. }
  apply G. constructor.
Qed.

Lemma calculateColombianHolidays_length tz year :
  List.length (calculateColombianHolidays tz year) = 18%nat.
Proof.
  unfold calculateColombianHolidays. cbv zeta.
  rewrite (Permutation_length (Permutation_sortByDate _)). reflexivity.
Qed.

Lemma dyear_four_digits N :
  -719528 <= N <= 2932896 -> 0 <= dyear (civil_from_days N) <= 9999.
Proof.
  intros HN. unfold civil_from_days. cbv zeta. cbn [dyear].
  set (z' := N + 719468).
  set (era := z' / 146097).
  set (doe := z' - era * 146097).
  assert (Hdoe : 0 <= doe <= 146096) by (unfold doe, era; divmod).
  pose proof (yearOfEra_range doe Hdoe) as Hyoe.
  pose proof (dayOfYear_range doe Hdoe) as Hdoy.
  unfold yearOfEra, daysBeforeYear in *.
  set (yoe := (doe - doe / 1460 + doe / 36524 - doe / 146096) / 365) in *.
  set (doy := doe - (365 * yoe + yoe / 4 - yoe / 100)) in *.
  set (mp := (5 * doy + 2) / 153).
  assert (Hera : -1 <= era <= 24) by (unfold era, z'; divmod).
  assert (Hlow : era = -1 -> 146037 <= doe) by (unfold doe, era, z'; divmod).
  assert (Hhigh : era = 24 -> doe <= 146036) by (unfold doe, era, z'; divmod).
  assert (Hmp : (mp < 10 <-> doy < 306) /\ 0 <= mp <= 11) by (unfold mp; divmod).
  assert (Edoy : doy = doe - (365 * yoe + yoe / 4 - yoe / 100)) by reflexivity.
  destruct Hmp as [[Hmp1 Hmp2] Hmp0].
  clearbody mp doy yoe doe era z'.
  destruct (Z.ltb_spec mp 10) as [E10|E10].
  - replace (mp + 3 <=? 2) with false by lia. split; [|lia].
    destruct (Z.eq_dec era (-1)) as [E|E]; [|lia].
    exfalso. specialize (Hlow E). divmod.
  - replace (mp - 9 <=? 2) with true by lia. split.
    + destruct (Z.eq_dec era (-1)) as [E|E]; [|lia].
      specialize (Hlow E). divmod.
    + destruct (Z.eq_dec era 24) as [E|E]; [|lia].
      specialize (Hhigh E). divmod.
Qed.

Lemma days_from_civil_four_digits Y m j :
  100 <= Y <= 9999 -> 1 <= m <= 12 -> -4 <= j ->
  (m <= 4 /\ j <= 104) \/ (m <= 11 /\ j <= 34) \/ j <= 24 ->
  -719528 <= days_from_civil Y m 1 + j <= 2932896.
Proof.
  intros HY Hm Hj Hup. unfold days_from_civil. cbv zeta.
  destruct (Z.leb_spec m 2) as [Hm2|Hm2];
    destruct (Z.ltb_spec 2 m) as [Hm3|Hm3]; try lia; divmod.
Qed.

(** The UTC date of a local midnight and whole days from it, in a zone
    less than a day from UTC. *)
Lemma toISODate_local_day tz n k :
  -1440 < tz < 1440 ->
  exists e, -1 <= e <= 0
    /\ toISODate (n * msPerDay - tz * msPerMinute + k * 24 * 60 * 60 * 1000)
       = civil_from_days (n + k + e).
Proof.
  intros Htz. unfold toISODate.
  exists (Day (n * msPerDay - tz * msPerMinute + k * 24 * 60 * 60 * 1000)
          - n - k).
  split; [unfold Day, msPerDay, msPerMinute; divmod|f_equal; lia].
Qed.

Lemma Date_local_day tz year mi d :
  0 <= mi < 12 ->
  Date_local tz year mi d
  = (days_from_civil
       (if (0 <=? year) && (year <=? 99) then 1900 + year else year)
       (mi + 1) 1 + (d - 1)) * msPerDay - tz * msPerMinute.
Proof.
  intros Hmi. unfold Date_local. cbv zeta.
  replace (mi / 12) with 0 by divmod. replace (mi mod 12) with mi by divmod.
  rewrite Z.add_0_r. reflexivity.
Qed.

Lemma local_day_four_digits tz year mi d k :
  -1440 < tz < 1440 -> 0 <= year <= 9999 -> 0 <= mi < 12 ->
  -3 <= d - 1 + k ->
  (mi + 1 <= 4 /\ d - 1 + k <= 104) \/ (mi + 1 <= 11 /\ d - 1 + k <= 34)
  \/ d - 1 + k <= 24 ->
  0 <= dyear (toISODate (Date_local tz year mi d + k * 24 * 60 * 60 * 1000))
    <= 9999.
Proof.
  intros Htz Hyear Hmi Hlow Hup.
  rewrite Date_local_day by exact Hmi.
  set (Y := if (0 <=? year) && (year <=? 99) then 1900 + year else year).
  assert (HY : 100 <= Y <= 9999)
    by (unfold Y; destruct ((0 <=? year) && (year <=? 99)) eqn:E; lia).
  destruct (toISODate_local_day tz (days_from_civil Y (mi + 1) 1 + (d - 1)) k Htz)
    as [e [He ->]].
  apply dyear_four_digits.
  replace (days_from_civil Y (mi + 1) 1 + (d - 1) + k + e)
    with (days_from_civil Y (mi + 1) 1 + (d - 1 + k + e)) by lia.
  apply days_from_civil_four_digits; lia.
Qed.

Lemma moveToNextMonday_shift tz e :
  exists k, 0 <= k <= 6
    /\ moveToNextMonday tz e = e + k * 24 * 60 * 60 * 1000
    /\ getDay tz (moveToNextMonday tz e) = 1
    /\ (k = 0 <-> getDay tz e = 1).
Proof.
  unfold moveToNextMonday, Date_of_time, getTime, jsrem.
  assert (Hg : 0 <= getDay tz e < 7) by (unfold getDay; divmod).
  destruct (Z.eqb_spec (getDay tz e) 1) as [Hmon|Hnot].
  - exists 0. split; [lia|]. split; [lia|]. split; [exact Hmon|].
    split; [intros _; exact Hmon|reflexivity].
  - exists (Z.rem (8 - getDay tz e) 7).
    rewrite Z.rem_mod_nonneg by lia.
    assert (Hk : 0 <= (8 - getDay tz e) mod 7 <= 6) by divmod.
    split; [exact Hk|]. split; [reflexivity|].
    split.
    + set (k := (8 - getDay tz e) mod 7) in *.
      assert (Ek : (getDay tz e + k) mod 7 = 1) by (unfold k; divmod).
      clearbody k. unfold getDay, Day, msPerDay, msPerMinute in *. divmod.
    + split; [|intros Hc; contradiction].
      intros Hz. exfalso. revert Hz. divmod.
Qed.

Lemma rules_days r :
  In r (FIXED_HOLIDAYS ++ MOVABLE_HOLIDAYS) ->
  0 <= month r - 1 < 12 /\ 1 <= day r
  /\ ((In r FIXED_HOLIDAYS /\ day r <= 25)
      \/ (In r MOVABLE_HOLIDAYS /\ month r <= 11 /\ day r <= 29)).
Proof.
  unfold FIXED_HOLIDAYS, MOVABLE_HOLIDAYS. cbn [app In]. intros Hr.
  repeat (destruct Hr as [<-|Hr];
          [cbn [month day]; split; [lia|]; split; [lia|];
           first [left; split; [tauto|lia] | right; split; [tauto|lia]]|]).
  contradiction.
Qed.

Lemma calculateColombianHolidays_four_digits tz year :
  -1440 < tz < 1440 -> 0 <= year <= 9999 ->
  Forall (fun h => 0 <= dyear (date h) <= 9999)
         (calculateColombianHolidays tz year).
Proof.
  intros Htz Hyear. unfold calculateColombianHolidays. cbv zeta.
  match goal with
  | |- context [sortByDate ?l] => set (generated := l)
  end.
  eapply Permutation_Forall;
    [symmetry; apply (Permutation_sortByDate generated)|].
  subst generated.
  assert (Hzero : forall mi d,
            0 <= mi < 12 -> -3 <= d - 1 ->
            (mi + 1 <= 11 /\ d - 1 <= 34) \/ d - 1 <= 24 ->
            0 <= dyear (toISODate (Date_local tz year mi d)) <= 9999).
  { intros mi d Hmi Hlow Hup.
    replace (Date_local tz year mi d)
      with (Date_local tz year mi d + 0 * 24 * 60 * 60 * 1000) by lia.
    apply local_day_four_digits; try assumption; lia. }
  destruct (easterMonthDay_facts year ltac:(lia)) as (_ & Heaster & _).
  assert (Hplain : forall n,
            -3 <= n <= 68 ->
            0 <= dyear (toISODate
                          (calculateEaster tz year + n * 24 * 60 * 60 * 1000))
              <= 9999).
  { intros n Hn. unfold calculateEaster.
    destruct (easterMonthDay year) as [em ed]. cbn [fst snd] in Heaster.
    apply local_day_four_digits; try assumption; lia. }
  assert (Hmonday : forall n,
            -3 <= n <= 68 ->
            0 <= dyear (toISODate
                          (moveToNextMonday tz
                             (calculateEaster tz year
                              + n * 24 * 60 * 60 * 1000)))
              <= 9999).
  { intros n Hn. unfold calculateEaster.
    destruct (easterMonthDay year) as [em ed]. cbn [fst snd] in Heaster.
    destruct (moveToNextMonday_shift tz
                (Date_local tz year (em - 1) ed + n * 24 * 60 * 60 * 1000))
      as [k (Hk & -> & _)].
    replace (Date_local tz year (em - 1) ed + n * 24 * 60 * 60 * 1000
             + k * 24 * 60 * 60 * 1000)
      with (Date_local tz year (em - 1) ed + (n + k) * 24 * 60 * 60 * 1000)
      by lia.
    apply local_day_four_digits; try assumption; lia. }
  rewrite !Forall_app. split; [|split].
  - apply Forall_map. apply Forall_forall. intros r Hr.
    destruct (rules_days r ltac:(apply in_or_app; left; exact Hr))
      as (Hm & Hd & Hcase).
    cbn [holidayOn date]. apply Hzero; [exact Hm|lia|].
    destruct Hcase as [[_ Hc]|[_ [Hc1 Hc2]]]; lia.
  - apply Forall_map. apply Forall_forall. intros r Hr.
    destruct (rules_days r ltac:(apply in_or_app; right; exact Hr))
      as (Hm & Hd & Hcase).
    assert (Hmov : month r <= 11 /\ day r <= 29).
    { revert Hr. unfold MOVABLE_HOLIDAYS. cbn [In]. intros Hr.
      repeat (destruct Hr as [<-|Hr]; [cbn [month day]; lia|]).
      contradiction. }
    cbv zeta. cbn [holidayOn date].
    destruct (negb (getDay tz (Date_local tz year (month r - 1) (day r)) =? 1)).
    + unfold Date_of_time, getTime, jsrem.
      assert (Hg : 0 <= getDay tz (Date_local tz year (month r - 1) (day r)) < 7)
        by (unfold getDay; divmod).
      rewrite Z.rem_mod_nonneg by lia.
      set (k := (8 - getDay tz (Date_local tz year (month r - 1) (day r))) mod 7).
      assert (Hk : 0 <= k <= 6) by (unfold k; divmod).
      apply local_day_four_digits; try assumption; lia.
    + apply Hzero; [exact Hm|lia|lia].
  - unfold Date_of_time, getTime.
    replace (calculateEaster tz year - 3 * 24 * 60 * 60 * 1000)
      with (calculateEaster tz year + (-3) * 24 * 60 * 60 * 1000) by lia.
    replace (calculateEaster tz year - 2 * 24 * 60 * 60 * 1000)
      with (calculateEaster tz year + (-2) * 24 * 60 * 60 * 1000) by lia.
    apply Forall_cons; [exact (Hplain (-3) ltac:(lia))|].
    apply Forall_cons; [exact (Hplain (-2) ltac:(lia))|].
    apply Forall_cons; [exact (Hmonday 39 ltac:(lia))|].
    apply Forall_cons; [exact (Hmonday 60 ltac:(lia))|].
    apply Forall_cons; [exact (Hmonday 68 ltac:(lia))|].
    apply Forall_nil.
Qed.

(** X1.  In a process whose time zone is a fixed offset of less than
    a day from UTC, for every year from 0 to 9999, the local calendar
    has eighteen records (six fixed, seven movable and five Easter
    holidays: records on equal dates are all kept), all national, in
    non-decreasing order of date; every date has a year from 0 to
    9999, so that the order of the strings the code sorts by is the
    order of the dates. *)
Theorem calculateColombianHolidays_sorted tz year :
  -1440 < tz < 1440 -> 0 <= year <= 9999 ->
  List.length (calculateColombianHolidays tz year) = 18%nat
  /\ StronglySorted byDate (calculateColombianHolidays tz year)
  /\ Forall (fun h => type h = national) (calculateColombianHolidays tz year)
  /\ Forall (fun h => 0 <= dyear (date h) <= 9999)
            (calculateColombianHolidays tz year).
Proof.
  intros Htz Hyear.
  split; [apply calculateColombianHolidays_length|].
  split; [|split; [|apply calculateColombianHolidays_four_digits; assumption]].
  - unfold calculateColombianHolidays. cbv zeta.
    apply Sorted_StronglySorted; [|apply Sorted_sortByDate].
    intros a b c. unfold byDate. apply DateStr_leb_trans.
  - unfold calculateColombianHolidays. cbv zeta.
    match goal with
    | |- context [sortByDate ?l] => set (generated := l)
    end.
    eapply Permutation_Forall;
      [symmetry; apply (Permutation_sortByDate generated)|].
    subst generated. rewrite !Forall_app. repeat split.
    + apply Forall_map. apply Forall_forall. reflexivity.
    + apply Forall_map. apply Forall_forall. reflexivity.
    + repeat constructor.
Qed.

(** The calendar of 2025 in Bogotá. *)
Lemma calculateColombianHolidays_sorted_witness :
  List.length (calculateColombianHolidays (-300) 2025) = 18%nat
  /\ StronglySorted byDate (calculateColombianHolidays (-300) 2025)
  /\ Forall (fun h => type h = national)
            (calculateColombianHolidays (-300) 2025)
  /\ Forall (fun h => 0 <= dyear (date h) <= 9999)
            (calculateColombianHolidays (-300) 2025).
Proof.
  apply (calculateColombianHolidays_sorted (-300) 2025); lia.
Defined.

(** ** The caches of the service *)

(** X2.  Starting with nothing cached: a payload obtained from the
    provider, be it empty, is what every later fetch returns, whatever
    the provider answers then, and the state no longer changes; a
    failed request yields the empty list and caches nothing, so that a
    later request is made again; and after [clearCache] the provider is
    asked again. *)
Theorem fetchAllHolidays_cache s payload later :
  allHolidaysCache s = None ->
  (let s1 := snd (fetchAllHolidays (Some payload) s) in
   fst (fetchAllHolidays (Some payload) s) = payload
   /\ fetchAllHolidays later s1 = (payload, s1))
  /\ fetchAllHolidays None s = ([], s)
  /\ fetchAllHolidays (Some payload) (snd (fetchAllHolidays None s))
     = fetchAllHolidays (Some payload) s
  /\ fst (fetchAllHolidays later
            (clearCache (snd (fetchAllHolidays (Some payload) s))))
     = match later with Some l => l | None => [] end.
Proof.
  destruct s as [perYear whole]. cbn [allHolidaysCache]. intros ->.
  unfold fetchAllHolidays, clearCache. cbn.
  repeat split. destruct later; reflexivity.
Qed.

Lemma fetchAllHolidays_cache_witness :
  fetchAllHolidays None (snd (fetchAllHolidays (Some []) initial))
  = ([], snd (fetchAllHolidays (Some []) initial))
  /\ fetchAllHolidays (Some [mkDate 2025 1 1])
       (snd (fetchAllHolidays (Some []) initial))
     = ([], snd (fetchAllHolidays (Some []) initial)).
Proof.
  destruct (fetchAllHolidays_cache initial [] None eq_refl) as [[_ H1] _].
  destruct (fetchAllHolidays_cache initial [] (Some [mkDate 2025 1 1]) eq_refl)
    as [[_ H2] _].
  split; [exact H1|exact H2].
Defined.

Lemma cacheGet_cacheSet year v s : cacheGet year (cacheSet year v s) = Some v.
Proof. unfold cacheGet, cacheSet. cbn. rewrite Z.eqb_refl. reflexivity. Qed.


Lemma calculateColombianHolidays_nonempty tz year :
  calculateColombianHolidays tz year <> [].
Proof.
  intros E. pose proof (calculateColombianHolidays_length tz year) as Hlen.
  rewrite E in Hlen. discriminate.
Qed.

Lemma fetchHolidays_uncached tz net s year :
  cacheGet year s = None ->
  fetchHolidays tz net s year
  = let yearHolidays := filter (yearIs tz year) (externalHolidays net s) in
    match yearHolidays with
    | [] => (calculateColombianHolidays tz year,
             cacheSet year (map date (calculateColombianHolidays tz year))
                      (snd (fetchAllHolidays net s)))
    | _ :: _ => (map festivo yearHolidays,
                 cacheSet year yearHolidays (snd (fetchAllHolidays net s)))
    end.
Proof.
  intros Hnone. unfold fetchHolidays, externalHolidays. rewrite Hnone.
  destruct (fetchAllHolidays net s) as [all s1]. cbn [fst snd]. cbv zeta.
  destruct (filter (yearIs tz year) all); reflexivity.
Qed.

Lemma map_date_festivo l : map date (map festivo l) = l.
Proof. rewrite map_map. cbn. apply map_id. Qed.

(** X3.  For a year not yet in the cache, [fetchHolidays] returns the
    external entries of that year when there are any and the whole
    local calendar otherwise, never a mixture and never an empty list;
    it files the dates returned under the year, and any later call for
    that year returns these dates from the cache, as "Día Festivo"
    records, without asking the provider and without changing the
    state. *)
Theorem fetchHolidays_cached_round_trip tz net s year later :
  cacheGet year s = None ->
  let result := fst (fetchHolidays tz net s year) in
  let s1 := snd (fetchHolidays tz net s year) in
  (map date result = filter (yearIs tz year) (externalHolidays net s)
   \/ (filter (yearIs tz year) (externalHolidays net s) = []
       /\ result = calculateColombianHolidays tz year))
  /\ result <> []
  /\ cacheGet year s1 = Some (map date result)
  /\ fetchHolidays tz later s1 year = (map festivo (map date result), s1).
Proof.
  intros Hnone result s1. subst result s1.
  rewrite (fetchHolidays_uncached tz net s year Hnone). cbv zeta.
  destruct (filter (yearIs tz year) (externalHolidays net s)) as [|e l] eqn:E;
    cbn [fst snd].
  - split; [right; split; reflexivity|].
    split; [apply calculateColombianHolidays_nonempty|].
    split; [apply cacheGet_cacheSet|].
    unfold fetchHolidays. rewrite cacheGet_cacheSet. reflexivity.
  - rewrite map_date_festivo.
    split; [left; reflexivity|].
    split; [discriminate|].
    split; [apply cacheGet_cacheSet|].
    unfold fetchHolidays. rewrite cacheGet_cacheSet. reflexivity.
Qed.

(** Provider down, year 2025, in Bogotá: the local calendar is returned
    with its names; a later call, with the provider up again, returns
    the cached dates. *)
Lemma fetchHolidays_cached_round_trip_witness :
  cacheGet 2025 initial = None
  /\ fst (fetchHolidays (-300) None initial 2025)
     = calculateColombianHolidays (-300) 2025
  /\ map date
       (fst (fetchHolidays (-300) (Some [mkDate 2025 5 1])
               (snd (fetchHolidays (-300) None initial 2025)) 2025))
     = map date (calculateColombianHolidays (-300) 2025).
Proof.
  split; [reflexivity|].
  destruct (fetchHolidays_cached_round_trip (-300) None initial 2025
              (Some [mkDate 2025 5 1]) eq_refl) as (Hres & _ & _ & Hlater).
  split.
  - destruct Hres as [Hext|[_ Hloc]]; [|exact Hloc].
    exfalso. revert Hext.
    rewrite (fetchHolidays_uncached (-300) None initial 2025 eq_refl).
    cbn [externalHolidays fetchAllHolidays initial allHolidaysCache fst filter].
    cbv zeta. cbn [fst].
    pose proof (calculateColombianHolidays_nonempty (-300) 2025) as Hne.
    destruct (calculateColombianHolidays (-300) 2025); [congruence|discriminate].
  - rewrite Hlater. cbn [fst]. apply map_date_festivo.
Defined.

(** ** Holidays of a range of dates *)



Lemma holidaysOfYears_state tz net : forall n year s acc,
  n = O -> holidaysOfYears tz net n year s acc = (acc, s).
Proof. intros n year s acc ->. reflexivity. Qed.



(** ** All holidays *)

(** X6.  [getColombianHolidays] never returns an empty list.  It
    returns either every external entry, of whatever year, as a "Día
    Festivo" record, when one of them counts for the current or the
    next year, or else the local calendars of the current year and the
    two years after it, fifty-four records; the latter in particular
    when the provider is down and nothing is cached. *)
Theorem getColombianHolidays_source tz net s now :
  let result := fst (getColombianHolidays tz net s now) in
  let currentYear := getFullYear tz now in
  result <> []
  /\ ((map date result = externalHolidays net s
       /\ exists e, In e (externalHolidays net s)
                    /\ (yearIs tz currentYear e = true
                        \/ yearIs tz (currentYear + 1) e = true))
      \/ (result = calculateColombianHolidays tz currentYear
                   ++ calculateColombianHolidays tz (currentYear + 1)
                   ++ calculateColombianHolidays tz (currentYear + 2)
          /\ List.length result = 54%nat
          /\ forall e, In e (externalHolidays net s) ->
               yearIs tz currentYear e = false
               /\ yearIs tz (currentYear + 1) e = false))
  /\ (allHolidaysCache s = None -> net = None ->
      List.length result = 54%nat).
Proof.
  cbv zeta. unfold getColombianHolidays, externalHolidays.
  assert (Hlocal : List.length (getLocalColombianHolidays tz now) = 54%nat).
  { unfold getLocalColombianHolidays. cbv zeta. rewrite !length_app.
    rewrite !calculateColombianHolidays_length.
    reflexivity. }
  assert (Hfail : allHolidaysCache s = None -> net = None ->
                  fetchAllHolidays net s = ([], s)).
  { intros Hc ->. unfold fetchAllHolidays. rewrite Hc. reflexivity. }
  destruct (fetchAllHolidays net s) as [all s1] eqn:Efetch. cbn [fst].
  cbv zeta.
  destruct (existsb (yearIs tz (getFullYear tz now)) all) eqn:Ecur;
    [|destruct (existsb (yearIs tz (getFullYear tz now + 1)) all) eqn:Enext];
    cbn [negb andb fst].
  - apply existsb_exists in Ecur as [e [Hin He]].
    split; [destruct all; [contradiction|discriminate]|].
    split; [left; split; [apply map_date_festivo|exists e; auto]|].
    intros Hc Hn. specialize (Hfail Hc Hn). inversion Hfail; subst.
    contradiction.
  - apply existsb_exists in Enext as [e [Hin He]].
    split; [destruct all; [contradiction|discriminate]|].
    split; [left; split; [apply map_date_festivo|exists e; auto]|].
    intros Hc Hn. specialize (Hfail Hc Hn). inversion Hfail; subst.
    contradiction.
  - split.
    { intros E. rewrite E in Hlocal. discriminate. }
    split; [|intros _ _; exact Hlocal].
    right. split; [reflexivity|]. split; [exact Hlocal|].
    intros e Hin. split.
    + destruct (yearIs tz (getFullYear tz now) e) eqn:E; [|reflexivity].
      assert (existsb (yearIs tz (getFullYear tz now)) all = true)
        by (apply existsb_exists; exists e; auto).
      congruence.
    + destruct (yearIs tz (getFullYear tz now + 1) e) eqn:E; [|reflexivity].
      assert (existsb (yearIs tz (getFullYear tz now + 1)) all = true)
        by (apply existsb_exists; exists e; auto).
      congruence.
Qed.

(** ** The year of an external entry *)

Lemma validDate_bounds y m d :
  validDate y m d = true ->
  1 <= m <= 12 /\ 1 <= d <= daysInMonth y m.
Proof. unfold validDate. lia. Qed.

Lemma daysInMonth_cases y m :
  1 <= m <= 12 ->
  (m = 2 /\ ((daysInMonth y m = 29 /\ y mod 4 = 0
              /\ (y mod 100 <> 0 \/ y mod 400 = 0))
             \/ (daysInMonth y m = 28
                 /\ (y mod 4 <> 0 \/ (y mod 100 = 0 /\ y mod 400 <> 0)))))
  \/ ((m = 4 \/ m = 6 \/ m = 9 \/ m = 11) /\ daysInMonth y m = 30)
  \/ ((m = 1 \/ m = 3 \/ m = 5 \/ m = 7 \/ m = 8 \/ m = 10 \/ m = 12)
      /\ daysInMonth y m = 31).
Proof.
  intros Hm. unfold daysInMonth, isLeap.
  destruct (m =? 2) eqn:E2.
  - left. split; [lia|].
    destruct (((y mod 4 =? 0) && negb (y mod 100 =? 0)) || (y mod 400 =? 0))
      eqn:EL.
    + left. split; [reflexivity|]. split; [divmod|lia].
    + right. split; [reflexivity|]. lia.
  - right.
    destruct ((m =? 4) || (m =? 6) || (m =? 9) || (m =? 11)) eqn:E30.
    + left. split; [lia|reflexivity].
    + right. split; [lia|reflexivity].
Qed.

(** The day before the first of a month is the last of the month
    before. *)
Lemma days_from_civil_month_start y m :
  2 <= m <= 12 ->
  days_from_civil y m 1 - 1 = days_from_civil y (m - 1) (daysInMonth y (m - 1)).
Proof.
  intros Hm.
  destruct (daysInMonth_cases y (m - 1) ltac:(lia))
    as [[E2 [(-> & H4 & H100)|(-> & H4)]]|[[Hc ->]|[Hc ->]]];
    unfold days_from_civil;
    assert (Hcases : m = 2 \/ m = 3 \/ m = 4 \/ m = 5 \/ m = 6 \/ m = 7
                     \/ m = 8 \/ m = 9 \/ m = 10 \/ m = 11 \/ m = 12) by lia;
    repeat (destruct Hcases as [->|Hcases]); try subst m; try lia;
    cbn [Z.leb Z.ltb Z.compare Pos.compare Pos.compare_cont Z.sub Z.add
         Z.opp Z.pos_sub Pos.pred_double Pos.add Pos.succ Pos.pred];
    divmod.
Qed.

Lemma days_from_civil_year_start y :
  days_from_civil y 1 1 - 1 = days_from_civil (y - 1) 12 31.
Proof. unfold days_from_civil. cbn [Z.leb Z.ltb Z.compare Pos.compare Pos.compare_cont]. divmod. Qed.

(** The year of the day before a date. *)
Lemma dyear_day_before y m d :
  validDate y m d = true ->
  dyear (civil_from_days (days_from_civil y m d - 1))
  = if (m =? 1) && (d =? 1) then y - 1 else y.
Proof.
  intros Hv. destruct (validDate_bounds y m d Hv) as [Hm Hd].
  destruct (Z.eq_dec d 1) as [->|Hd1].
  - destruct (Z.eq_dec m 1) as [->|Hm1].
    + rewrite days_from_civil_year_start, civil_from_days_from_civil
        by reflexivity. reflexivity.
    + rewrite days_from_civil_month_start by lia.
      rewrite civil_from_days_from_civil.
      * replace ((m =? 1) && (1 =? 1)) with false by lia. reflexivity.
      * unfold validDate.
        destruct (daysInMonth_cases y (m - 1) ltac:(lia))
          as [[_ [(-> & _)|(-> & _)]]|[[_ ->]|[_ ->]]]; lia.
  - rewrite (days_from_civil_day y m d).
    replace (days_from_civil y m 1 + (d - 1) - 1)
      with (days_from_civil y m 1 + (d - 1 - 1)) by lia.
    rewrite <- (days_from_civil_day y m (d - 1)).
    rewrite civil_from_days_from_civil by (unfold validDate in *; lia).
    replace ((m =? 1) && (d =? 1)) with false by lia. reflexivity.
Qed.

(** X4.  [fetchHolidays] and [getColombianHolidays] read the year of an
    external entry in the zone of the process.  At UTC or east of it a
    valid entry counts for its own year.  West of UTC, as in Bogotá,
    January 1 counts for the year before and every other date for its
    own year, so that the entries selected for a year never hold its
    January 1 and hold the January 1 of the next year when the provider
    lists it. *)
Theorem yearIs_local_year tz year y m d :
  validDate y m d = true ->
  (0 <= tz < 1440 -> yearIs tz year (mkDate y m d) = (year =? y))
  /\ (-1440 < tz < 0 ->
      yearIs tz year (mkDate y m d)
      = (year =? (if (m =? 1) && (d =? 1) then y - 1 else y)))
  /\ (-1440 < tz < 0 ->
      forall external,
        ~ In (mkDate year 1 1) (filter (yearIs tz year) external)
        /\ (In (mkDate (year + 1) 1 1) external ->
            In (mkDate (year + 1) 1 1) (filter (yearIs tz year) external))).
Proof.
  intros Hv.
  assert (Hparse : forall y0 m0 d0, validDate y0 m0 d0 = true ->
            forall yr, yearIs tz yr (mkDate y0 m0 d0)
            = (dyear (civil_from_days
                        (Day (days_from_civil y0 m0 d0 * msPerDay
                              + tz * msPerMinute))) =? yr)).
  { intros y0 m0 d0 Hv0 yr. unfold yearIs, Date_parse, getFullYear, days_of.
    cbn [dyear dmonth dday]. rewrite Hv0. reflexivity. }
  assert (Hwest : -1440 < tz < 0 ->
            forall y0 m0 d0, validDate y0 m0 d0 = true ->
            forall yr, yearIs tz yr (mkDate y0 m0 d0)
            = (yr =? (if (m0 =? 1) && (d0 =? 1) then y0 - 1 else y0))).
  { intros Htz y0 m0 d0 Hv0 yr. rewrite (Hparse y0 m0 d0 Hv0).
    replace (Day (days_from_civil y0 m0 d0 * msPerDay + tz * msPerMinute))
      with (days_from_civil y0 m0 d0 - 1) by (unfold_time; divmod).
    rewrite dyear_day_before by exact Hv0. apply Z.eqb_sym. }
  split; [|split].
  - intros Htz. rewrite (Hparse y m d Hv).
    replace (Day (days_from_civil y m d * msPerDay + tz * msPerMinute))
      with (days_from_civil y m d) by (unfold_time; divmod).
    rewrite civil_from_days_from_civil by exact Hv. apply Z.eqb_sym.
  - intros Htz. apply Hwest; assumption.
  - intros Htz external. split.
    + intros Hin. apply filter_In in Hin as [_ Hyear].
      rewrite Hwest in Hyear by (try exact Htz; reflexivity).
      cbn in Hyear. lia.
    + intros Hin. apply filter_In. split; [exact Hin|].
      rewrite Hwest by (try exact Htz; reflexivity). cbn. lia.
Qed.

(** In Bogotá the entry 2025-01-01 counts for 2024. *)
Lemma yearIs_local_year_witness :
  validDate 2025 1 1 = true
  /\ -1440 < -300 < 0
  /\ yearIs (-300) 2025 (mkDate 2025 1 1) = false
  /\ yearIs (-300) 2024 (mkDate 2025 1 1) = true.
Proof.
  split; [reflexivity|]. split; [lia|].
  destruct (yearIs_local_year (-300) 2025 2025 1 1 eq_refl) as (_ & H25 & _).
  destruct (yearIs_local_year (-300) 2024 2025 1 1 eq_refl) as (_ & H24 & _).
  rewrite H25, H24 by lia. split; reflexivity.
Defined.

(** ** The next business day *)

Lemma forward_search_bound H x n :
  offset x = bogotaOffset -> (searchBound H <= n)%nat ->
  exists j, 1 <= j <= Z.of_nat (searchBound H)
    /\ getNextWorkingDayStart n H x
       = Some (atLocal (localDay x + j) startOfDayMs)
    /\ workingDate H (localDay x + j) = true
    /\ forall i, 1 <= i < j -> workingDate H (localDay x + i) = false.
Proof.
  intros Hx Hn. unfold workingDate.
  destruct (forward_search H x n Hx Hn) as [j (Hj & Hrun & Hok & Hmin)].
  exists j. split; [|auto].
  split; [exact Hj|].
  destruct (workingPair_exists H (localDay x + 1) (localDay x + 1))
    as [k [Hk Hw]].
  destruct (Z_le_gt_dec j (1 + k)) as [Hle|Hgt]; [lia|].
  specialize (Hmin (1 + k) ltac:(lia)).
  replace (localDay x + (1 + k)) with (localDay x + 1 + k) in Hmin by lia.
  congruence.
Qed.

Lemma workingDate_spec H D :
  workingDate H D = true
  <-> (1 <= weekdayOfDay D <= 5 /\ includes H (civil_from_days D) = false).
Proof.
  unfold workingDate, workingPair. pose proof (weekdayOfDay_range D).
  destruct (includes H (civil_from_days D)); lia.
Qed.

(** X7.  For every instant read in Bogotá, [getNextBusinessDayStart]
    returns, with any fuel from [searchBound H] on, the reading
    08:00:00.000 of the first civil day after that of the reading which
    is Monday to Friday and not in the holiday list.  That day is at
    most [7 * (length H + 1)] days ahead, the result is later than the
    reading, and [getNextWorkingDayStart] of the service returns the
    same. *)
Theorem getNextBusinessDayStart_first_working_day H a :
  exists j, 1 <= j <= Z.of_nat (searchBound H)
    /\ (forall fuel, (searchBound H <= fuel)%nat ->
          getNextBusinessDayStart fuel H (utcToColombiaTime a)
          = Some (atLocal (localDay (utcToColombiaTime a) + j) startOfDayMs)
          /\ getNextWorkingDayStart fuel H (utcToColombiaTime a)
             = getNextBusinessDayStart fuel H (utcToColombiaTime a))
    /\ a < ts (atLocal (localDay (utcToColombiaTime a) + j) startOfDayMs)
    /\ (1 <= weekdayOfDay (localDay (utcToColombiaTime a) + j) <= 5
        /\ includes H (civil_from_days (localDay (utcToColombiaTime a) + j))
           = false)
    /\ forall i, 1 <= i < j ->
         ~ (1 <= weekdayOfDay (localDay (utcToColombiaTime a) + i) <= 5
            /\ includes H (civil_from_days (localDay (utcToColombiaTime a) + i))
               = false).
Proof.
  set (x := utcToColombiaTime a).
  destruct (forward_search_bound H x (searchBound H) eq_refl (le_n _))
    as [j (Hj & Hrun & Hok & Hmin)].
  exists j. split; [exact Hj|]. split; [|split; [|split]].
  - intros fuel Hfuel.
    assert (E : getNextWorkingDayStart fuel H x
                = Some (atLocal (localDay x + j) startOfDayMs)).
    { unfold getNextWorkingDayStart in *.
      eapply untilWorkingDay_mono; eassumption. }
    change (getNextBusinessDayStart fuel H x)
      with (getNextWorkingDayStart fuel H x).
    split; [exact E|reflexivity].
  - rewrite ts_atLocal. pose proof (anchor_reading a) as Ha. fold x in Ha.
    pose proof (millisOfDay_range x).
    unfold startOfDayMs. unfold_time. lia.
  - apply workingDate_spec. exact Hok.
  - intros i Hi Hw. apply workingDate_spec in Hw.
    rewrite (Hmin i Hi) in Hw. discriminate.
Qed.

(** ** Fixed points of the backward adjustment *)

Lemma Adjusted_fixed H a r :
  Adjusted H a r ->
  (r = a <-> (isWorkingDay H a = true
              /\ (isWithinBusinessHours (utcToColombiaTime a) = true
                  \/ millisOfDay (utcToColombiaTime a) = lunchStartMs
                  \/ minuteOfDay (utcToColombiaTime a) = 780))).
Proof.
  intros Hadj. pose proof (anchor_reading a) as Ha.
  pose proof (millisOfDay_range (utcToColombiaTime a)) as Ht.
  pose proof (minuteOfDay_ms (utcToColombiaTime a)) as Hm.
  pose proof (isWithinBusinessHours_minuteOfDay (utcToColombiaTime a)) as Hin.
  destruct Hadj as [Hw Hwithin|j Hw Hj Hp|j Hw Hbefore Hj Hp|Hw Hafter
                   |Hw Hlunch|Hw Hend].
  - split; [intros _; auto|reflexivity].
  - split; [|intros [Hw' _]; congruence].
    rewrite ts_atLocal. unfold endOfDayMs. unfold_time. lia.
  - split.
    + rewrite ts_atLocal. unfold endOfDayMs. unfold_time. lia.
    + intros [_ [Hc|[Hc|Hc]]]; exfalso;
        unfold lunchStartMs in *; unfold_time;
        first [divmod | apply Hin in Hc; lia].
  - split.
    + rewrite ts_atLocal. unfold endOfDayMs. unfold_time. divmod.
    + intros [_ [Hc|[Hc|Hc]]]; exfalso;
        unfold lunchStartMs in *; unfold_time;
        first [divmod | apply Hin in Hc; lia].
  - rewrite ts_atLocal. split.
    + intros E. split; [exact Hw|]. right; left.
      unfold lunchStartMs in *. unfold_time. lia.
    + intros [_ [Hc|[Hc|Hc]]].
      * apply Hin in Hc. lia.
      * unfold lunchStartMs in *. unfold_time. lia.
      * lia.
  - split; [intros _; auto|reflexivity].
Qed.

(** X8.  [adjustToPreviousWorkingTime] returns the anchor itself
    exactly when [isWorkingDay] accepts it and its local time of day is
    within business hours, or 12:00:00.000, or in the minute 13:00; and
    for an anchor read before 19:00 in Bogotá, adjusting the result
    again changes nothing. *)
Theorem adjustToPreviousWorkingTime_fixed_points H a fuel :
  (S (S (searchBound H)) <= fuel)%nat ->
  (adjustToPreviousWorkingTime fuel H a = Some a
   <-> (isWorkingDay H a = true
        /\ (isWithinBusinessHours (utcToColombiaTime a) = true
            \/ millisOfDay (utcToColombiaTime a) = lunchStartMs
            \/ minuteOfDay (utcToColombiaTime a) = 780)))
  /\ (hour (utcToColombiaTime a) < 19 ->
      exists r, adjustToPreviousWorkingTime fuel H a = Some r
                /\ adjustToPreviousWorkingTime fuel H r = Some r).
Proof.
  intros Hfuel.
  assert (Hrun : forall b, exists r,
            adjustToPreviousWorkingTime fuel H b = Some r /\ Adjusted H b r).
  { intros b.
    destruct (adjust_outcome H b (searchBound H) (le_n _)) as [r [Hr Hadj]].
    exists r. split; [|exact Hadj].
    eapply adjustToPreviousWorkingTime_mono; eassumption. }
  assert (Hfix : forall b,
            adjustToPreviousWorkingTime fuel H b = Some b
            <-> (isWorkingDay H b = true
                 /\ (isWithinBusinessHours (utcToColombiaTime b) = true
                     \/ millisOfDay (utcToColombiaTime b) = lunchStartMs
                     \/ minuteOfDay (utcToColombiaTime b) = 780))).
  { intros b. destruct (Hrun b) as [r [Hr Hadj]].
    rewrite Hr. rewrite <- (Adjusted_fixed H b r Hadj).
    split; [intros E; injection E; auto|intros ->; reflexivity]. }
  split; [apply Hfix|].
  intros Hh. destruct (Hrun a) as [r [Hr Hadj]].
  exists r. split; [exact Hr|]. apply Hfix.
  split; [eapply Adjusted_isWorkingDay; eassumption|].
  destruct (Adjusted_time H a r Hadj) as [Hc|[Hc|[_ Hc]]]; auto.
Qed.

(** Saturday 2025-01-04 14:00 local goes to Friday 17:00 local, which
    stays. *)
Lemma adjustToPreviousWorkingTime_fixed_points_witness :
  adjustToPreviousWorkingTime 9 [] (utcInstant 2025 1 4 19 0)
  = Some (utcInstant 2025 1 3 22 0)
  /\ adjustToPreviousWorkingTime 9 [] (utcInstant 2025 1 3 22 0)
     = Some (utcInstant 2025 1 3 22 0).
Proof.
  destruct (adjustToPreviousWorkingTime_fixed_points []
              (utcInstant 2025 1 3 22 0) 9%nat) as [Hfix _];
    [vm_compute; lia|].
  split; [vm_compute; reflexivity|].
  apply Hfix. vm_compute. split; [reflexivity|left; reflexivity].
Defined.

(** ** Business time left in a day *)

(** X9.  For a Bogotá reading [t] milliseconds into its day,
    [calculateRemainingBusinessHours] is [16 h - t] from 08:00 up to
    (not including) 12:00, [17 h - t] from 13:01 up to 17:00, and zero
    at every other time: also in the minute 13:00, and from
    17:00:00.000 on.  It never exceeds eight hours, which it equals at
    08:00:00.000 only. *)
Theorem calculateRemainingBusinessHours_closed_form a :
  let x := utcToColombiaTime a in
  calculateRemainingBusinessHours x
  = (if (480 <=? minuteOfDay x) && (minuteOfDay x <? 720)
     then 16 * msPerHour - millisOfDay x
     else if (781 <=? minuteOfDay x) && (minuteOfDay x <? 1020)
     then 17 * msPerHour - millisOfDay x
     else 0)
  /\ 0 <= calculateRemainingBusinessHours x <= 8 * msPerHour
  /\ (calculateRemainingBusinessHours x = 8 * msPerHour
      <-> millisOfDay x = startOfDayMs).
Proof.
  intros x.
  pose proof (calculateRemainingBusinessHours_value x eq_refl) as Hv.
  pose proof (isWithinBusinessHours_minuteOfDay x) as Hin.
  pose proof (minuteOfDay_ms x) as Hm.
  pose proof (millisOfDay_range x) as Ht.
  assert (E : calculateRemainingBusinessHours x
              = (if (480 <=? minuteOfDay x) && (minuteOfDay x <? 720)
                 then 16 * msPerHour - millisOfDay x
                 else if (781 <=? minuteOfDay x) && (minuteOfDay x <? 1020)
                 then 17 * msPerHour - millisOfDay x
                 else 0)).
  { rewrite Hv. clear Hv.
    destruct (isWithinBusinessHours x) eqn:Hw; cbn [negb].
    - destruct Hin as [Hin _]. specialize (Hin eq_refl).
      unfold lunchStartMs, endOfDayMs in *.
      unfold msPerHour, msPerMinute, msPerDay in *.
      destruct (millisOfDay x <? 12 * 3600000 + 0 * 60000) eqn:E1;
        destruct ((480 <=? minuteOfDay x) && (minuteOfDay x <? 720)) eqn:E2;
        destruct ((781 <=? minuteOfDay x) && (minuteOfDay x <? 1020)) eqn:E3;
        try divmod.
    - assert (Hn : ~ (480 <= minuteOfDay x <= 1020
                      /\ ~ (720 <= minuteOfDay x <= 780))).
      { intros Hc. apply Hin in Hc. congruence. }
      destruct ((480 <=? minuteOfDay x) && (minuteOfDay x <? 720)) eqn:E2;
        destruct ((781 <=? minuteOfDay x) && (minuteOfDay x <? 1020)) eqn:E3;
        try lia. }
  split; [exact E|].
  rewrite E. clear E Hv Hin.
  unfold startOfDayMs. unfold msPerHour, msPerMinute, msPerDay in *.
  destruct ((480 <=? minuteOfDay x) && (minuteOfDay x <? 720)) eqn:E2;
    destruct ((781 <=? minuteOfDay x) && (minuteOfDay x <? 1020)) eqn:E3;
    split; try divmod.
Qed.

(** ** Adding hours within a day *)

(** Decides a test of the goal that has no variables. *)
Ltac closed_if :=
  match goal with
  | |- context [if ?b then _ else _] =>
      let v := eval vm_compute in b in
      match v with
      | true => change b with true
      | false => change b with false
      end; cbv iota
  end.

Lemma addHoursSkippingLunch_value a h fuel :
  0 < h -> (2 <= fuel)%nat ->
  addHoursSkippingLunch fuel (utcToColombiaTime a) h
  = Some (utcToColombiaTime
            (a + h + lunchSkipped (millisOfDay (utcToColombiaTime a)) h)).
Proof.
  intros Hh Hfuel. set (x := utcToColombiaTime a).
  pose proof (millisOfDay_range x) as Ht.
  pose proof (anchor_reading a) as Ha. fold x in Ha.
  assert (Hx : offset x = bogotaOffset) by reflexivity.
  destruct fuel as [|[|f]]; try lia.
  unfold addHoursSkippingLunch. rewrite addHoursSkippingLunchFrom_S.
  replace (0 <? h) with true by lia.
  cbv zeta. config.
  destruct ((hour x <? 12) || ((hour x =? 12) && (minute x <? 0))) eqn:Eb.
  - (* before lunch *)
    assert (Hlt : millisOfDay x < 12 * msPerHour).
    { revert Eb. unfold_time. intros Eb.
      divmod. }
    rewrite diff_setTime by exact Hx.
    replace (0 <? Z.min (h - 0) (12 * msPerHour + 0 * msPerMinute - millisOfDay x))
      with true by (unfold msPerHour, msPerMinute in *; lia).
    unfold lunchSkipped.
    replace (millisOfDay x <? 12 * msPerHour) with true by lia.
    destruct (Z.ltb_spec (12 * msPerHour - millisOfDay x) h) as [Hcross|Hfit].
    + replace (Z.min (h - 0) (12 * msPerHour + 0 * msPerMinute - millisOfDay x))
        with (12 * msPerHour - millisOfDay x)
        by (unfold msPerHour, msPerMinute in *; lia).
      replace (0 + (12 * msPerHour - millisOfDay x) <? h) with true by lia.
      assert (E1 : plusMillis x (12 * msPerHour - millisOfDay x)
                   = atLocal (localDay x) (12 * msPerHour)).
      { unfold plusMillis, atLocal. cbn [ts offset x utcToColombiaTime setZone].
        f_equal. fold x.
        unfold msPerHour, msPerMinute, msPerDay, bogotaOffset in *. lia. }
      rewrite E1.
      rewrite setTime_atLocal by reflexivity.
      rewrite localDay_atLocal by (unfold msPerHour, msPerDay; lia).
      rewrite addHoursSkippingLunchFrom_S.
      replace (0 + (12 * msPerHour - millisOfDay x) <? h) with true by lia.
      cbv zeta. config.
      rewrite hour_atLocal by lia. rewrite minute_atLocal by lia.
      closed_if. try closed_if.
      rewrite addHoursSkippingLunchFrom_done by lia.
      f_equal. unfold plusMillis, atLocal, utcToColombiaTime, setZone.
      cbn [ts offset]. f_equal.
      unfold msPerHour, msPerMinute, msPerDay, bogotaOffset in *. lia.
    + replace (Z.min (h - 0) (12 * msPerHour + 0 * msPerMinute - millisOfDay x))
        with h by (unfold msPerHour, msPerMinute in *; lia).
      replace (0 + h <? h) with false by lia.
      rewrite addHoursSkippingLunchFrom_done by lia.
      f_equal. unfold plusMillis, utcToColombiaTime, setZone.
      cbn [ts offset x utcToColombiaTime setZone]. f_equal. lia.
  - destruct ((13 <=? hour x) || ((hour x =? 13) && (0 <=? minute x))) eqn:Ea;
      cbn [negb].
    + (* after lunch *)
      assert (Hge : 13 * msPerHour <= millisOfDay x).
      { revert Ea. unfold_time. intros Ea.
          divmod. }
      rewrite addHoursSkippingLunchFrom_done by lia.
      unfold lunchSkipped.
      replace (millisOfDay x <? 12 * msPerHour) with false
        by (unfold msPerHour in *; lia).
      replace (millisOfDay x <? 13 * msPerHour) with false by lia.
      f_equal. unfold plusMillis, utcToColombiaTime, setZone.
      cbn [ts offset x utcToColombiaTime setZone]. f_equal. lia.
    + (* during lunch *)
      assert (Hin : 12 * msPerHour <= millisOfDay x < 13 * msPerHour).
      { revert Ea Eb. unfold_time. intros Ea Eb.
          divmod. }
      rewrite setTime_atLocal by reflexivity.
      rewrite addHoursSkippingLunchFrom_S.
      replace (0 <? h) with true by lia.
      cbv zeta. config.
      rewrite hour_atLocal by lia. rewrite minute_atLocal by lia.
      closed_if. try closed_if.
      rewrite addHoursSkippingLunchFrom_done by lia.
      unfold lunchSkipped.
      replace (millisOfDay x <? 12 * msPerHour) with false by lia.
      replace (millisOfDay x <? 13 * msPerHour) with true by lia.
      f_equal. unfold plusMillis, atLocal, utcToColombiaTime, setZone.
      cbn [ts offset]. f_equal.
      unfold msPerHour, msPerMinute, msPerDay, bogotaOffset in *. lia.
Qed.

(** X10.  [addHoursSkippingLunch] with a positive amount [h] (in
    milliseconds) and any fuel from 2 on returns the Bogotá reading of
    the instant [h] later, pushed on by the part of the lunch break
    12:00-13:00 it had to jump: a whole hour when the reading is before
    12:00 and more than the time until 12:00 is added, the rest of the
    break when the reading is inside it, and nothing otherwise.  The
    function itself never stops at 17:00.  With an amount that is not
    positive it returns the reading unchanged. *)
Theorem addHoursSkippingLunch_closed_form a h fuel :
  (2 <= fuel)%nat ->
  addHoursSkippingLunch fuel (utcToColombiaTime a) h
  = Some (if 0 <? h
          then utcToColombiaTime
                 (a + h + lunchSkipped (millisOfDay (utcToColombiaTime a)) h)
          else utcToColombiaTime a).
Proof.
  intros Hfuel. destruct (Z.ltb_spec 0 h) as [Hpos|Hneg].
  - apply addHoursSkippingLunch_value; assumption.
  - apply addHoursSkippingLunchFrom_done. lia.
Qed.

(** Monday 2025-01-06 11:00 local plus three hours is 15:00 local. *)
Lemma addHoursSkippingLunch_closed_form_witness :
  addHoursSkippingLunch 2 (utcToColombiaTime (utcInstant 2025 1 6 16 0))
    (3 * msPerHour)
  = Some (utcToColombiaTime (utcInstant 2025 1 6 20 0)).
Proof.
  rewrite (addHoursSkippingLunch_closed_form (utcInstant 2025 1 6 16 0)
             (3 * msPerHour) 2%nat); [|lia].
  vm_compute. reflexivity.
Defined.

(** ** Counting accepted days *)

Lemma countAccepted_ext f g k :
  (forall i, 1 <= i <= Z.of_nat k -> f i = g i) ->
  countAccepted f k = countAccepted g k.
Proof.
  induction k as [|k IH]; intros Hfg; [reflexivity|].
  cbn [countAccepted]. rewrite IH by (intros i Hi; apply Hfg; lia).
  rewrite Hfg by lia. reflexivity.
Qed.

Lemma countAccepted_range f k : 0 <= countAccepted f k <= Z.of_nat k.
Proof.
  induction k as [|k IH]; cbn [countAccepted]; [lia|].
  destruct (f (Z.of_nat (S k))); lia.
Qed.

Lemma countAccepted_add f j k :
  countAccepted f (j + k)
  = countAccepted f j + countAccepted (fun i => f (Z.of_nat j + i)) k.
Proof.
  induction k as [|k IH].
  - rewrite Nat.add_0_r. cbn [countAccepted]. lia.
  - rewrite Nat.add_succ_r. cbn [countAccepted]. rewrite IH.
    replace (Z.of_nat (S (j + k))) with (Z.of_nat j + Z.of_nat (S k)) by lia.
    lia.
Qed.

Lemma countAccepted_none f k :
  (forall i, 1 <= i <= Z.of_nat k -> f i = false) -> countAccepted f k = 0.
Proof.
  induction k as [|k IH]; intros Hf; [reflexivity|].
  cbn [countAccepted]. rewrite IH by (intros i Hi; apply Hf; lia).
  rewrite Hf by lia. reflexivity.
Qed.

Lemma countAccepted_mono f j k :
  (j <= k)%nat -> countAccepted f j <= countAccepted f k.
Proof.
  intros Hjk. replace k with (j + (k - j))%nat by lia.
  rewrite countAccepted_add.
  pose proof (countAccepted_range (fun i => f (Z.of_nat j + i)) (k - j)). lia.
Qed.

(** The position of the [n]-th accepted index is unique. *)
Lemma countAccepted_unique f j k :
  (0 < j)%nat -> (0 < k)%nat ->
  f (Z.of_nat j) = true -> f (Z.of_nat k) = true ->
  countAccepted f j = countAccepted f k -> j = k.
Proof.
  assert (Hlt : forall j k, (j < k)%nat -> f (Z.of_nat k) = true ->
                  countAccepted f j < countAccepted f k).
  { intros j' k' Hjk Hk. destruct k' as [|k']; [lia|].
    cbn [countAccepted]. rewrite Hk.
    pose proof (countAccepted_mono f j' k' ltac:(lia)). lia. }
  intros Hj Hk Fj Fk E.
  destruct (Nat.lt_trichotomy j k) as [Hc|[Hc|Hc]]; [|exact Hc|].
  - specialize (Hlt j k Hc Fk). lia.
  - specialize (Hlt k j Hc Fj). lia.
Qed.

(** ** The day loop *)

Lemma plusDays_plusDays x j k : plusDays (plusDays x j) k = plusDays x (j + k).
Proof. unfold plusDays. cbn [ts offset]. f_equal. lia. Qed.

Lemma plusDays_0 x : plusDays x 0 = x.
Proof. destruct x. unfold plusDays. cbn [ts offset]. f_equal. lia. Qed.

(** The search of one round of [addWorkingDays]: the first later day at
    the same time of day that [isWorkingDay] accepts. *)
Lemma next_day_first H cur :
  exists j : nat, (j < searchBound H)%nat
    /\ (forall n, (searchBound H <= S n)%nat ->
          untilWorkingDay n H nextDay (nextDay cur)
          = Some (plusDays cur (Z.of_nat (S j))))
    /\ isWorkingDay H (toJSDate (plusDays cur (Z.of_nat (S j)))) = true
    /\ forall i, 1 <= i < Z.of_nat (S j) ->
         isWorkingDay H (toJSDate (plusDays cur i)) = false.
Proof.
  destruct (workingPair_exists H (Day (ts cur - 18000000) + 1) (Day (ts cur) + 1))
    as [k [Hk Hw]].
  assert (Hstep : forall i : nat,
            steps i nextDay (nextDay cur) = plusDays cur (Z.of_nat (S i))).
  { intros i. rewrite steps_nextDay. unfold nextDay.
    rewrite plusDays_plusDays. f_equal. lia. }
  destruct (untilWorkingDay_finds H nextDay (Z.to_nat k) (Z.to_nat k)
              (nextDay cur) (le_n _))
    as [j (Hj & Hrun & Hacc & Hmin)].
  - rewrite Hstep, isWorkingDay_days.
    unfold toJSDate, plusDays. cbn [ts].
    replace (ts cur + Z.of_nat (S (Z.to_nat k)) * msPerDay - 18000000)
      with (ts cur - 18000000 + (1 + k) * msPerDay) by (unfold msPerDay; lia).
    replace (ts cur + Z.of_nat (S (Z.to_nat k)) * msPerDay)
      with (ts cur + (1 + k) * msPerDay) by (unfold msPerDay; lia).
    rewrite !Day_plus.
    replace (Day (ts cur - 18000000) + (1 + k))
      with (Day (ts cur - 18000000) + 1 + k) by lia.
    replace (Day (ts cur) + (1 + k)) with (Day (ts cur) + 1 + k) by lia.
    exact Hw.
  - exists j. split; [lia|]. split; [|split].
    + intros n Hn. rewrite <- Hstep.
      eapply untilWorkingDay_mono; [exact Hrun|lia].
    + rewrite <- Hstep. exact Hacc.
    + intros i Hi.
      replace i with (Z.of_nat (S (Z.to_nat (i - 1)))) by lia.
      rewrite <- Hstep. apply Hmin. lia.
Qed.

Lemma addWorkingDaysFrom_count H : forall (n : nat) cur added toAdd,
  toAdd - added = Z.of_nat n ->
  exists k : nat,
    (forall fuel, (searchBound H + n <= fuel)%nat ->
       addWorkingDaysFrom fuel H cur added toAdd
       = Some (plusDays cur (Z.of_nat k)))
    /\ countAccepted (fun i => isWorkingDay H (toJSDate (plusDays cur i))) k
       = Z.of_nat n
    /\ ((0 < n)%nat ->
        isWorkingDay H (toJSDate (plusDays cur (Z.of_nat k))) = true)
    /\ (k <= n * searchBound H)%nat.
Proof.
  induction n as [|n IH]; intros cur added toAdd Hn.
  - exists 0%nat. split; [|split; [reflexivity|split; [lia|lia]]].
    intros fuel _. rewrite plusDays_0. apply addWorkingDaysFrom_done. lia.
  - destruct (next_day_first H cur) as [j (Hj & Hrun & Hacc & Hmin)].
    destruct (IH (plusDays cur (Z.of_nat (S j))) (added + 1) toAdd ltac:(lia))
      as [k (Hk & Hcount & Hlast & Hbound)].
    exists (S j + k)%nat. split; [|split; [|split]].
    + intros fuel Hfuel.
      destruct fuel as [|f]; [unfold searchBound in Hfuel; lia|].
      rewrite addWorkingDaysFrom_S.
      replace (added <? toAdd) with true by lia.
      rewrite (Hrun f) by lia. cbv beta iota.
      rewrite (Hk f) by lia.
      rewrite plusDays_plusDays. do 2 f_equal. lia.
    + rewrite countAccepted_add.
      rewrite (countAccepted_ext _
                 (fun i => isWorkingDay H
                             (toJSDate (plusDays (plusDays cur (Z.of_nat (S j))) i)))
                 k)
        by (intros i _; rewrite plusDays_plusDays; reflexivity).
      rewrite Hcount.
      change (countAccepted _ (S j))
        with (countAccepted
                (fun i => isWorkingDay H (toJSDate (plusDays cur i))) j
              + (if isWorkingDay H (toJSDate (plusDays cur (Z.of_nat (S j))))
                 then 1 else 0)).
      rewrite Hacc.
      rewrite countAccepted_none by (intros i Hi; apply Hmin; lia).
      lia.
    + intros _. destruct n as [|n].
      * assert (k = 0%nat).
        { pose proof (countAccepted_range
                        (fun i => isWorkingDay H
                           (toJSDate (plusDays (plusDays cur (Z.of_nat (S j))) i)))
                        k) as Hr.
          lia. }
        subst k. rewrite Nat.add_0_r. exact Hacc.
      * specialize (Hlast ltac:(lia)).
        rewrite plusDays_plusDays in Hlast.
        replace (Z.of_nat (S j + k)) with (Z.of_nat (S j) + Z.of_nat k) by lia.
        exact Hlast.
    + lia.
Qed.

(** X11.  [addWorkingDays] with a count that is not positive returns
    the reading unchanged.  With [d > 0] it returns, with any fuel from
    [searchBound H + d] on, the reading [k] whole days later, at the
    same time of day, where the [k]-th day is the [d]-th of the
    following days that [isWorkingDay] accepts: it is accepted, exactly
    [d] of the days [1..k] are, and so [d <= k]; the starting day itself
    is never tested.  [k] is at most [d * 7 * (length H + 1)]. *)
Theorem addWorkingDays_nth_accepted H x d :
  (d <= 0 -> forall fuel, addWorkingDays fuel H x d = Some x)
  /\ (0 < d ->
      exists k : nat,
        (forall fuel, (searchBound H + Z.to_nat d <= fuel)%nat ->
           addWorkingDays fuel H x d = Some (plusDays x (Z.of_nat k)))
        /\ isWorkingDay H (toJSDate (plusDays x (Z.of_nat k))) = true
        /\ countAccepted (fun i => isWorkingDay H (toJSDate (plusDays x i))) k
           = d
        /\ d <= Z.of_nat k <= d * Z.of_nat (searchBound H)).
Proof.
  split.
  - intros Hd fuel. apply addWorkingDaysFrom_done. exact Hd.
  - intros Hd.
    destruct (addWorkingDaysFrom_count H (Z.to_nat d) x 0 d ltac:(lia))
      as [k (Hk & Hcount & Hlast & Hbound)].
    exists k. split; [exact Hk|]. split; [apply Hlast; lia|].
    split; [lia|].
    pose proof (countAccepted_range
                  (fun i => isWorkingDay H (toJSDate (plusDays x i))) k).
    nia.
Qed.

(** From Friday 2025-01-03 10:00 local, with no holidays listed. *)
Lemma addWorkingDays_nth_accepted_witness :
  exists k : nat,
    (forall fuel, (searchBound [] + Z.to_nat 1 <= fuel)%nat ->
       addWorkingDays fuel [] (utcToColombiaTime (utcInstant 2025 1 3 15 0)) 1
       = Some (plusDays (utcToColombiaTime (utcInstant 2025 1 3 15 0))
                        (Z.of_nat k)))
    /\ isWorkingDay []
         (toJSDate (plusDays (utcToColombiaTime (utcInstant 2025 1 3 15 0))
                             (Z.of_nat k))) = true
    /\ countAccepted
         (fun i => isWorkingDay []
            (toJSDate (plusDays (utcToColombiaTime (utcInstant 2025 1 3 15 0)) i)))
         k = 1
    /\ 1 <= Z.of_nat k <= 1 * Z.of_nat (searchBound []).
Proof.
  apply (proj2 (addWorkingDays_nth_accepted []
                  (utcToColombiaTime (utcInstant 2025 1 3 15 0)) 1)).
  lia.
Defined.

(** ** Adding days in two goes *)

Lemma addWorkingDaysFrom_shift H c : forall fuel cur added toAdd,
  addWorkingDaysFrom fuel H cur (added + c) (toAdd + c)
  = addWorkingDaysFrom fuel H cur added toAdd.
Proof.
  induction fuel as [|f IH]; intros cur added toAdd.
  - cbn [addWorkingDaysFrom].
    replace (added + c <? toAdd + c) with (added <? toAdd) by lia.
    reflexivity.
  - rewrite !addWorkingDaysFrom_S.
    replace (added + c <? toAdd + c) with (added <? toAdd) by lia.
    destruct (added <? toAdd); [|reflexivity].
    destruct (untilWorkingDay f H nextDay (nextDay cur)) as [c'|];
      cbv beta iota; [|reflexivity].
    replace (added + c + 1) with (added + 1 + c) by lia. apply IH.
Qed.

Lemma addWorkingDaysFrom_split H : forall f1 cur added mid r1,
  addWorkingDaysFrom f1 H cur added mid = Some r1 -> added <= mid ->
  forall f2 toAdd r, mid <= toAdd ->
    addWorkingDaysFrom f2 H r1 mid toAdd = Some r ->
    addWorkingDaysFrom (f1 + f2) H cur added toAdd = Some r.
Proof.
  induction f1 as [|f IH]; intros cur added mid r1 Hrun Hle f2 toAdd r Hmid Hrest.
  - cbn [addWorkingDaysFrom] in Hrun.
    destruct (Z.ltb_spec added mid) as [Hlt|Hge]; [discriminate|].
    injection Hrun as <-. replace added with mid by lia. exact Hrest.
  - rewrite addWorkingDaysFrom_S in Hrun.
    destruct (Z.ltb_spec added mid) as [Hlt|Hge].
    + destruct (untilWorkingDay f H nextDay (nextDay cur)) as [c|] eqn:Hc;
        cbv beta iota in Hrun; [|discriminate].
      change (S f + f2)%nat with (S (f + f2)).
      rewrite addWorkingDaysFrom_S.
      replace (added <? toAdd) with true by lia.
      rewrite (untilWorkingDay_mono H nextDay f (f + f2) _ _ Hc) by lia.
      cbv beta iota. eapply IH; [exact Hrun|lia|exact Hmid|exact Hrest].
    + injection Hrun as <-. replace added with mid by lia.
      eapply addWorkingDaysFrom_mono; [exact Hrest|lia].
Qed.

(** X12.  Adding [d1 + d2] working days is adding [d1] and then [d2],
    for counts that are not negative. *)
Theorem addWorkingDays_additive H x d1 d2 :
  0 <= d1 -> 0 <= d2 ->
  exists r1 r,
    forall fuel, (searchBound H + Z.to_nat (d1 + d2) <= fuel)%nat ->
      addWorkingDays fuel H x d1 = Some r1
      /\ addWorkingDays fuel H r1 d2 = Some r
      /\ addWorkingDays fuel H x (d1 + d2) = Some r.
Proof.
  intros H1 H2.
  destruct (addWorkingDays_total H x d1) as [r1 [Hr1 _]].
  destruct (addWorkingDays_total H r1 d2) as [r [Hr _]].
  destruct (addWorkingDays_total H x (d1 + d2)) as [r' [Hr' _]].
  exists r1, r. intros fuel Hfuel.
  split; [apply Hr1; lia|]. split; [apply Hr; lia|].
  rewrite (Hr' fuel Hfuel). f_equal.
  set (f1 := (searchBound H + Z.to_nat d1)%nat).
  set (f2 := (searchBound H + Z.to_nat d2)%nat).
  assert (E : addWorkingDays (f1 + f2) H x (d1 + d2) = Some r).
  { unfold addWorkingDays.
    eapply (addWorkingDaysFrom_split H f1 x 0 d1 r1).
    - apply (Hr1 f1). unfold f1. lia.
    - exact H1.
    - lia.
    - replace (addWorkingDaysFrom f2 H r1 d1 (d1 + d2))
        with (addWorkingDaysFrom f2 H r1 (0 + d1) (d2 + d1))
        by (f_equal; lia).
      rewrite addWorkingDaysFrom_shift. apply (Hr f2). unfold f2. lia. }
  rewrite (Hr' (f1 + f2)%nat) in E by (unfold f1, f2; lia).
  congruence.
Qed.

(** Friday 2025-01-03 10:00 local plus one and then two working days, or
    plus three, is Wednesday 2025-01-08 10:00 local. *)
Lemma addWorkingDays_additive_witness :
  exists r1 r,
    forall fuel, (searchBound [] + Z.to_nat (1 + 2) <= fuel)%nat ->
      addWorkingDays fuel [] (utcToColombiaTime (utcInstant 2025 1 3 15 0)) 1
      = Some r1
      /\ addWorkingDays fuel [] r1 2 = Some r
      /\ addWorkingDays fuel [] (utcToColombiaTime (utcInstant 2025 1 3 15 0))
           (1 + 2)
         = Some r.
Proof.
  apply (addWorkingDays_additive []
           (utcToColombiaTime (utcInstant 2025 1 3 15 0)) 1 2); lia.
Defined.

(** ** Where an addition of hours stops *)

Lemma reading_eq x : offset x = bogotaOffset -> x = utcToColombiaTime (ts x).
Proof. destruct x as [t o]. cbn [offset ts]. intros ->. reflexivity. Qed.

Lemma getNextWorkingDayStart_sound H x f c :
  offset x = bogotaOffset ->
  getNextWorkingDayStart f H x = Some c ->
  exists j, 1 <= j
    /\ c = atLocal (localDay x + j) startOfDayMs
    /\ workingDate H (localDay x + j) = true.
Proof.
  intros Hx Hrun.
  destruct (forward_search_bound H x (searchBound H) Hx (le_n _))
    as [j (Hj & Hrun' & Hok & _)].
  exists j. split; [lia|]. split; [|exact Hok].
  unfold getNextWorkingDayStart in *.
  pose proof (untilWorkingDay_mono H nextDayStart f (Nat.max f (searchBound H))
                _ _ Hrun ltac:(lia)) as E1.
  pose proof (untilWorkingDay_mono H nextDayStart (searchBound H)
                (Nat.max f (searchBound H)) _ _ Hrun' ltac:(lia)) as E2.
  congruence.
Qed.

Lemma addHoursSkippingLunch_sound x n f r :
  offset x = bogotaOffset -> 0 < n ->
  addHoursSkippingLunch f x n = Some r ->
  r = utcToColombiaTime (ts x + n + lunchSkipped (millisOfDay x) n).
Proof.
  intros Hx Hn Hrun.
  pose proof (addHoursSkippingLunchFrom_mono f (Nat.max f 2) _ _ _ _ Hrun
                ltac:(lia)) as E.
  rewrite (reading_eq x Hx) in E at 1.
  change (addHoursSkippingLunchFrom (Nat.max f 2) (utcToColombiaTime (ts x)) 0 n)
    with (addHoursSkippingLunch (Nat.max f 2) (utcToColombiaTime (ts x)) n) in E.
  rewrite addHoursSkippingLunch_value in E by lia.
  rewrite <- (reading_eq x Hx) in E. congruence.
Qed.

(** One round of the hour loop inside a day. *)
Lemma addHours_same_day x n f r :
  offset x = bogotaOffset -> 0 < n ->
  n <= calculateRemainingBusinessHours x ->
  addHoursSkippingLunch f x n = Some r ->
  offset r = bogotaOffset
  /\ localDay r = localDay x
  /\ stoppingTime (millisOfDay r) = true
  /\ ts x < ts r
  /\ (n = calculateRemainingBusinessHours x -> millisOfDay r = endOfDayMs).
Proof.
  intros Hx Hn Hle Hrun.
  apply addHoursSkippingLunch_sound in Hrun; [|assumption|assumption].
  pose proof (calculateRemainingBusinessHours_value x Hx) as Hv.
  pose proof (isWithinBusinessHours_minuteOfDay x) as Hin.
  pose proof (minuteOfDay_ms x) as Hm.
  pose proof (millisOfDay_range x) as Ht.
  pose proof (anchor_reading (ts x)) as Ha.
  rewrite <- (reading_eq x Hx) in Ha.
  destruct (isWithinBusinessHours x) eqn:Hw; cbn [negb] in Hv; [|lia].
  destruct Hin as [Hin _]. specialize (Hin eq_refl).
  set (t := millisOfDay x) in *. set (D := localDay x) in *.
  set (R := calculateRemainingBusinessHours x) in *.
  assert (Hr : r = atLocal D (t + n + lunchSkipped t n)).
  { rewrite Hrun. unfold utcToColombiaTime, setZone, atLocal.
    cbn [ts offset]. f_equal. unfold bogotaOffset, msPerMinute. lia. }
  assert (Hfacts :
            0 <= t + n + lunchSkipped t n < msPerDay
            /\ stoppingTime (t + n + lunchSkipped t n) = true
            /\ 0 < n + lunchSkipped t n
            /\ (n = R -> t + n + lunchSkipped t n = endOfDayMs)).
  { clearbody t D R. clear Hrun Hr Ha Hw.
    unfold stoppingTime, lunchSkipped, startOfDayMs, lunchStartMs, endOfDayMs in *.
    unfold msPerHour, msPerMinute, msPerDay in *.
    rewrite Hm in Hin. clear Hm.
    assert (Hcases : (28800000 <= t < 43200000)
                     \/ (46860000 <= t < 61260000)) by divmod.
    clear Hin.
    destruct Hcases as [Hc|Hc].
    - replace (t <? 12 * 3600000 + 0 * 60000) with true in Hv by lia.
      replace (t <? 12 * 3600000) with true by lia.
      destruct (12 * 3600000 - t <? n) eqn:Ecross; lia.
    - replace (t <? 12 * 3600000 + 0 * 60000) with false in Hv by lia.
      replace (t <? 12 * 3600000) with false by lia.
      replace (t <? 13 * 3600000) with false by lia.
      lia. }
  destruct Hfacts as (Hrange & Hstop & Hpos & Hend).
  rewrite Hr. split; [reflexivity|].
  rewrite localDay_atLocal, millisOfDay_atLocal, ts_atLocal by exact Hrange.
  split; [reflexivity|]. split; [exact Hstop|]. split; [lia|exact Hend].
Qed.

Lemma addWorkingHoursFrom_stops H : forall fuel x added toAdd r,
  offset x = bogotaOffset -> added < toAdd ->
  (0 < calculateRemainingBusinessHours x ->
   workingDate H (localDay x) = true) ->
  addWorkingHoursFrom fuel H x added toAdd = Some r ->
  offset r = bogotaOffset
  /\ workingDate H (localDay r) = true
  /\ stoppingTime (millisOfDay r) = true
  /\ ts x < ts r.
Proof.
  assert (Hstart : 0 <= startOfDayMs < msPerDay)
    by (vm_compute; split; [discriminate|reflexivity]).
  assert (Hnext : forall f y c,
            offset y = bogotaOffset ->
            getNextWorkingDayStart f H y = Some c ->
            offset c = bogotaOffset
            /\ workingDate H (localDay c) = true
            /\ ts y < ts c).
  { intros f y c Hy Hc.
    destruct (getNextWorkingDayStart_sound H y f c Hy Hc) as [j (Hj & -> & Hok)].
    rewrite localDay_atLocal, ts_atLocal by exact Hstart.
    split; [reflexivity|]. split; [exact Hok|].
    pose proof (anchor_reading (ts y)) as Ha.
    rewrite <- (reading_eq y Hy) in Ha.
    pose proof (millisOfDay_range y).
    unfold startOfDayMs, msPerDay, msPerHour, msPerMinute in *. lia. }
  induction fuel as [|f IH]; intros x added toAdd r Hx Hlt Hday Hrun.
  - cbn [addWorkingHoursFrom] in Hrun.
    replace (added <? toAdd) with true in Hrun by lia. discriminate.
  - rewrite addWorkingHoursFrom_S in Hrun.
    replace (added <? toAdd) with true in Hrun by lia.
    cbv zeta in Hrun.
    pose proof (calculateRemainingBusinessHours_nonneg x) as HR.
    destruct (Z.ltb_spec 0 (calculateRemainingBusinessHours x)) as [Hpos|Hzero].
    + set (n := Z.min (toAdd - added) (calculateRemainingBusinessHours x)) in *.
      destruct (addHoursSkippingLunch f x n) as [r1|] eqn:Hr1;
        cbv beta iota in Hrun; [|discriminate].
      destruct (addHours_same_day x n f r1 Hx ltac:(lia) ltac:(lia) Hr1)
        as (Ho1 & Hd1 & Hs1 & Ht1 & He1).
      destruct (Z.ltb_spec (added + n) toAdd) as [Hmore|Hdone].
      * destruct (getNextWorkingDayStart f H r1) as [c|] eqn:Hc;
          cbv beta iota in Hrun; [|discriminate].
        destruct (Hnext f r1 c Ho1 Hc) as (Hoc & Hwc & Htc).
        destruct (IH c (added + n) toAdd r Hoc Hmore (fun _ => Hwc) Hrun)
          as (Hor & Hwr & Hsr & Htr).
        split; [exact Hor|]. split; [exact Hwr|]. split; [exact Hsr|lia].
      * cbv beta iota in Hrun.
        rewrite addWorkingHoursFrom_done in Hrun by lia.
        injection Hrun as <-.
        split; [exact Ho1|]. split; [rewrite Hd1; apply Hday; lia|].
        split; [exact Hs1|exact Ht1].
    + cbv beta iota in Hrun.
      replace (added <? toAdd) with true in Hrun by lia.
      destruct (getNextWorkingDayStart f H x) as [c|] eqn:Hc;
        cbv beta iota in Hrun; [|discriminate].
      destruct (Hnext f x c Hx Hc) as (Hoc & Hwc & Htc).
      destruct (IH c added toAdd r Hoc Hlt (fun _ => Hwc) Hrun)
        as (Hor & Hwr & Hsr & Htr).
      split; [exact Hor|]. split; [exact Hwr|]. split; [exact Hsr|lia].
Qed.

Lemma addWorkingHours_stops H x h :
  offset x = bogotaOffset -> 0 < h ->
  (0 < calculateRemainingBusinessHours x ->
   workingDate H (localDay x) = true) ->
  exists r,
    (forall fuel, (searchBound H + 3 + Z.to_nat h <= fuel)%nat ->
       addWorkingHours fuel H x h = Some r)
    /\ offset r = bogotaOffset
    /\ workingDate H (localDay r) = true
    /\ stoppingTime (millisOfDay r) = true
    /\ ts x < ts r.
Proof.
  intros Hx Hh Hday.
  destruct (addWorkingHours_total H x h Hx) as [r [Hr Hoff]].
  exists r. split; [exact Hr|].
  specialize (Hr _ (le_n _)). unfold addWorkingHours in Hr.
  destruct ((calculateRemainingBusinessHours x =? 0) && (h =? 1)) eqn:E.
  - destruct (getNextWorkingDayStart_sound H x _ r Hx Hr)
      as [j (Hj & -> & Hok)].
    assert (Hrange : 0 <= startOfDayMs < msPerDay)
      by (vm_compute; split; [discriminate|reflexivity]).
    rewrite localDay_atLocal, millisOfDay_atLocal, ts_atLocal by exact Hrange.
    split; [reflexivity|]. split; [exact Hok|]. split; [reflexivity|].
    pose proof (anchor_reading (ts x)) as Ha.
    rewrite <- (reading_eq x Hx) in Ha.
    pose proof (millisOfDay_range x).
    unfold startOfDayMs, msPerDay, msPerHour, msPerMinute in *. lia.
  - eapply addWorkingHoursFrom_stops; [exact Hx| |exact Hday|exact Hr].
    unfold msPerHour. lia.
Qed.

(** X13.  From a Bogotá reading whose day is a working date, a positive
    number of hours takes [addWorkingHours], with any fuel from
    [searchBound H + 3 + h] on, to a strictly later Bogotá reading on a
    working date (Monday to Friday, not in the holiday list) at a time
    from 08:00 to 12:00 or after 13:00 up to 17:00. *)
Theorem addWorkingHours_business_time H a h :
  0 < h ->
  workingDate H (localDay (utcToColombiaTime a)) = true ->
  exists r,
    (forall fuel, (searchBound H + 3 + Z.to_nat h <= fuel)%nat ->
       addWorkingHours fuel H (utcToColombiaTime a) h
       = Some (utcToColombiaTime r))
    /\ a < r
    /\ 1 <= weekday (utcToColombiaTime r) <= 5
    /\ includes H (localDate (utcToColombiaTime r)) = false
    /\ stoppingTime (millisOfDay (utcToColombiaTime r)) = true.
Proof.
  intros Hh Hday.
  destruct (addWorkingHours_stops H (utcToColombiaTime a) h eq_refl Hh
              (fun _ => Hday)) as [r (Hr & Ho & Hw & Hs & Ht)].
  exists (ts r). rewrite <- (reading_eq r Ho).
  split; [exact Hr|]. split; [exact Ht|].
  apply workingDate_spec in Hw. destruct Hw as [Hwd Hfree].
  split; [exact Hwd|]. split; [exact Hfree|exact Hs].
Qed.

(** Friday 2025-01-03 16:00 local plus two hours is Monday 2025-01-06
    09:00 local. *)
Lemma addWorkingHours_business_time_witness :
  exists r,
    (forall fuel, (searchBound [] + 3 + Z.to_nat 2 <= fuel)%nat ->
       addWorkingHours fuel [] (utcToColombiaTime (utcInstant 2025 1 3 21 0)) 2
       = Some (utcToColombiaTime r))
    /\ utcInstant 2025 1 3 21 0 < r
    /\ 1 <= weekday (utcToColombiaTime r) <= 5
    /\ includes [] (localDate (utcToColombiaTime r)) = false
    /\ stoppingTime (millisOfDay (utcToColombiaTime r)) = true.
Proof.
  apply (addWorkingHours_business_time [] (utcInstant 2025 1 3 21 0) 2);
    [lia|vm_compute; reflexivity].
Defined.

(** ** Where a calculation stops *)

(** The starting point of a calculation: what
    [adjustToPreviousWorkingTime] returns for the anchor. *)
Lemma calculation_start H a :
  exists base,
    Adjusted H a base
    /\ (forall fuel, (S (S (searchBound H)) <= fuel)%nat ->
          adjustToPreviousWorkingTime fuel H a = Some base
          /\ (if negb (isWorkingDay H a)
                 || negb (isWithinBusinessHours (utcToColombiaTime a))
              then currentDate' <- adjustToPreviousWorkingTime fuel H a ;;
                   Some (utcToColombiaTime currentDate')
              else Some (utcToColombiaTime a))
             = Some (utcToColombiaTime base)).
Proof.
  destruct (adjust_outcome H a (searchBound H) (le_n _)) as [base [Hrun Hadj]].
  exists base. split; [exact Hadj|].
  intros fuel Hfuel.
  assert (E : adjustToPreviousWorkingTime fuel H a = Some base)
    by (eapply adjustToPreviousWorkingTime_mono; eassumption).
  split; [exact E|].
  destruct (isWorkingDay H a) eqn:Hw;
    destruct (isWithinBusinessHours (utcToColombiaTime a)) eqn:Hin;
    cbn [negb orb]; rewrite ?E; try reflexivity.
  assert (Hfix : base = a).
  { apply (Adjusted_fixed H a base Hadj). split; [exact Hw|left; exact Hin]. }
  rewrite Hfix. reflexivity.
Qed.

Lemma within_before19 x :
  isWithinBusinessHours x = true -> hour x < 19.
Proof.
  intros Hin. apply isWithinBusinessHours_minuteOfDay in Hin.
  pose proof (millisOfDay_range x). revert Hin. unfold_time. intros Hin. divmod.
Qed.

Lemma remaining_within x :
  offset x = bogotaOffset -> 0 < calculateRemainingBusinessHours x ->
  isWithinBusinessHours x = true /\ millisOfDay x < endOfDayMs.
Proof.
  intros Hx Hpos.
  pose proof (calculateRemainingBusinessHours_zero x Hx) as Hz.
  destruct (isWithinBusinessHours x) eqn:Hin.
  - split; [reflexivity|].
    destruct (Z_lt_ge_dec (millisOfDay x) endOfDayMs) as [Hlt|Hge]; [exact Hlt|].
    assert (calculateRemainingBusinessHours x = 0) by (apply Hz; right; lia).
    lia.
  - assert (calculateRemainingBusinessHours x = 0)
      by (apply Hz; left; reflexivity).
    lia.
Qed.

Lemma accepted_workingDate H x :
  offset x = bogotaOffset ->
  isWorkingDay H (toJSDate x) = true ->
  0 < calculateRemainingBusinessHours x ->
  workingDate H (localDay x) = true.
Proof.
  intros Hx Hw Hpos.
  destruct (remaining_within x Hx Hpos) as [Hin _].
  apply within_before19 in Hin.
  unfold toJSDate in Hw.
  rewrite isWorkingDay_before19 in Hw
    by (rewrite <- (reading_eq x Hx); exact Hin).
  rewrite <- (reading_eq x Hx) in Hw. exact Hw.
Qed.

Lemma Adjusted_workingDate H a base :
  Adjusted H a base ->
  0 < calculateRemainingBusinessHours (utcToColombiaTime base) ->
  workingDate H (localDay (utcToColombiaTime base)) = true.
Proof.
  intros Hadj Hpos.
  assert (Hend : 0 <= endOfDayMs < msPerDay)
    by (vm_compute; split; [discriminate|reflexivity]).
  assert (Hlunch : 0 <= lunchStartMs < msPerDay)
    by (vm_compute; split; [discriminate|reflexivity]).
  assert (Hat : forall D t, utcToColombiaTime (ts (atLocal D t)) = atLocal D t)
    by (intros D t; symmetry; apply reading_eq; reflexivity).
  destruct (remaining_within (utcToColombiaTime base) eq_refl Hpos) as [Hin Hlt].
  destruct Hadj as [Hw Hwithin|j Hw Hj Hp|j Hw Hbefore Hj Hp|Hw Hafter
                   |Hw Hlunchtime|Hw Hend'].
  - apply accepted_workingDate; [reflexivity|exact Hw|exact Hpos].
  - rewrite Hat. rewrite localDay_atLocal by exact Hend. exact Hp.
  - rewrite Hat. rewrite localDay_atLocal by exact Hend. exact Hp.
  - rewrite Hat in Hlt. rewrite millisOfDay_atLocal in Hlt by exact Hend. lia.
  - rewrite Hat in Hin. apply isWithinBusinessHours_minuteOfDay in Hin.
    rewrite minuteOfDay_atLocal in Hin by exact Hlunch.
    replace (lunchStartMs / msPerMinute) with 720 in Hin by reflexivity. lia.
  - apply isWithinBusinessHours_minuteOfDay in Hin. lia.
Qed.

(** X14.  Whatever the anchor and the number of days, a calculation
    with a positive number of hours returns, with any fuel from
    [workFuel] on, an instant after the one that
    [adjustToPreviousWorkingTime] gives for the anchor, whose Bogotá
    reading is on a Monday to Friday that is not in the holiday list,
    at a time from 08:00 to 12:00 or after 13:00 up to 17:00. *)
Theorem calculateWorkingDateTime_business_time H now startDate days h :
  let a := match startDate with Some d => d | None => now end in
  0 < h ->
  exists base r,
    (forall fuel, (workFuel H (orZero days) h <= fuel)%nat ->
       adjustToPreviousWorkingTime fuel H a = Some base
       /\ calculateWorkingDateTime fuel H now days (Some h) startDate = Some r)
    /\ base < r
    /\ 1 <= weekday (utcToColombiaTime r) <= 5
    /\ includes H (localDate (utcToColombiaTime r)) = false
    /\ stoppingTime (millisOfDay (utcToColombiaTime r)) = true.
Proof.
  intros a Hh.
  destruct (calculation_start H a) as [base [Hadj Hbase]].
  set (d := orZero days).
  assert (Hdays : exists x1,
            (forall fuel, (searchBound H + Z.to_nat d <= fuel)%nat ->
               (if 0 <? d
                then addWorkingDays fuel H (utcToColombiaTime base) d
                else Some (utcToColombiaTime base)) = Some x1)
            /\ offset x1 = bogotaOffset
            /\ base <= ts x1
            /\ (0 < calculateRemainingBusinessHours x1 ->
                workingDate H (localDay x1) = true)).
  { destruct (Z.ltb_spec 0 d) as [Hd|Hd].
    - destruct (addWorkingDaysFrom_count H (Z.to_nat d)
                  (utcToColombiaTime base) 0 d ltac:(lia))
        as [k (Hk & _ & Hlast & _)].
      exists (plusDays (utcToColombiaTime base) (Z.of_nat k)).
      split; [exact Hk|]. split; [reflexivity|].
      split; [cbn [plusDays ts utcToColombiaTime setZone];
              unfold msPerDay; lia|].
      apply accepted_workingDate; [reflexivity|apply Hlast; lia].
    - exists (utcToColombiaTime base). split; [reflexivity|].
      split; [reflexivity|]. split; [cbn; lia|].
      apply Adjusted_workingDate with (a := a). exact Hadj. }
  destruct Hdays as [x1 (Hx1 & Ho1 & Hle1 & Hday1)].
  destruct (addWorkingHours_stops H x1 h Ho1 Hh Hday1)
    as [r (Hr & Ho & Hw & Hs & Ht)].
  exists base, (ts r). rewrite <- (reading_eq r Ho).
  split; [|split; [lia|]].
  - intros fuel Hfuel. unfold workFuel in Hfuel. fold d in Hfuel.
    split; [apply Hbase; lia|].
    unfold calculateWorkingDateTime. cbn [orZero]. fold a. fold d.
    rewrite (proj2 (Hbase fuel ltac:(lia))). cbv beta iota.
    rewrite Hx1 by lia. cbv beta iota.
    replace (0 <? h) with true by lia.
    rewrite Hr by lia. reflexivity.
  - apply workingDate_spec in Hw. destruct Hw as [Hwd Hfree].
    split; [exact Hwd|]. split; [exact Hfree|exact Hs].
Qed.

(** Saturday 2025-01-04 14:00 local, one day and two hours: from
    Friday 17:00 to Monday 17:00, then Tuesday 10:00. *)
Lemma calculateWorkingDateTime_business_time_witness :
  exists base r,
    (forall fuel, (workFuel [] (orZero (Some 1%Z)) 2 <= fuel)%nat ->
       adjustToPreviousWorkingTime fuel [] (utcInstant 2025 1 4 19 0)
       = Some base
       /\ calculateWorkingDateTime fuel [] 0 (Some 1) (Some 2)
            (Some (utcInstant 2025 1 4 19 0)) = Some r)
    /\ base < r
    /\ 1 <= weekday (utcToColombiaTime r) <= 5
    /\ includes [] (localDate (utcToColombiaTime r)) = false
    /\ stoppingTime (millisOfDay (utcToColombiaTime r)) = true.
Proof.
  apply (calculateWorkingDateTime_business_time [] 0
           (Some (utcInstant 2025 1 4 19 0)) (Some 1) 2).
  lia.
Defined.

(** X15.  With a positive number of days and no hours, a calculation
    returns the instant a whole number [k >= d] of days after the one
    that [adjustToPreviousWorkingTime] gives for the anchor: the [d]-th
    of the following days, at that time of day, that [isWorkingDay]
    accepts. *)
Theorem calculateWorkingDateTime_days_only H now startDate d hours :
  let a := match startDate with Some d => d | None => now end in
  0 < d -> orZero hours <= 0 ->
  exists base (k : nat),
    (forall fuel, (workFuel H d 0 <= fuel)%nat ->
       adjustToPreviousWorkingTime fuel H a = Some base
       /\ calculateWorkingDateTime fuel H now (Some d) hours startDate
          = Some (base + Z.of_nat k * msPerDay))
    /\ d <= Z.of_nat k
    /\ isWorkingDay H (base + Z.of_nat k * msPerDay) = true
    /\ countAccepted (fun i => isWorkingDay H (base + i * msPerDay)) k = d
    /\ millisOfDay (utcToColombiaTime (base + Z.of_nat k * msPerDay))
       = millisOfDay (utcToColombiaTime base).
Proof.
  intros a Hd Hh.
  destruct (calculation_start H a) as [base [Hadj Hbase]].
  destruct (addWorkingDaysFrom_count H (Z.to_nat d)
              (utcToColombiaTime base) 0 d ltac:(lia))
    as [k (Hk & Hcount & Hlast & _)].
  exists base, k. split; [|split; [|split; [|split]]].
  - intros fuel Hfuel. unfold workFuel in Hfuel.
    split; [apply Hbase; lia|].
    unfold calculateWorkingDateTime. cbn [orZero]. fold a.
    rewrite (proj2 (Hbase fuel ltac:(lia))). cbv beta iota.
    replace (0 <? d) with true by lia.
    unfold addWorkingDays. rewrite Hk by lia. cbv beta iota.
    replace (0 <? orZero hours) with false by lia.
    reflexivity.
  - pose proof (countAccepted_range
                  (fun i => isWorkingDay H
                     (toJSDate (plusDays (utcToColombiaTime base) i))) k).
    lia.
  - apply Hlast. lia.
  - rewrite Z2Nat.id in Hcount by lia. exact Hcount.
  - unfold_time. cbn [ts offset utcToColombiaTime setZone]. divmod.
Qed.

(** Saturday 2025-01-04 14:00 local and one day. *)
Lemma calculateWorkingDateTime_days_only_witness :
  exists base (k : nat),
    (forall fuel, (workFuel [] 1 0 <= fuel)%nat ->
       adjustToPreviousWorkingTime fuel [] (utcInstant 2025 1 4 19 0)
       = Some base
       /\ calculateWorkingDateTime fuel [] 0 (Some 1) None
            (Some (utcInstant 2025 1 4 19 0))
          = Some (base + Z.of_nat k * msPerDay))
    /\ 1 <= Z.of_nat k
    /\ isWorkingDay [] (base + Z.of_nat k * msPerDay) = true
    /\ countAccepted (fun i => isWorkingDay [] (base + i * msPerDay)) k = 1
    /\ millisOfDay (utcToColombiaTime (base + Z.of_nat k * msPerDay))
       = millisOfDay (utcToColombiaTime base).
Proof.
  apply (calculateWorkingDateTime_days_only [] 0
           (Some (utcInstant 2025 1 4 19 0)) 1 None); cbn; lia.
Defined.

(** ** Hours that fit in the day *)

Lemma addWorkingHours_fits H a h fuel :
  0 < h ->
  h * msPerHour <= calculateRemainingBusinessHours (utcToColombiaTime a) ->
  (3 <= fuel)%nat ->
  addWorkingHours fuel H (utcToColombiaTime a) h
  = Some (utcToColombiaTime
            (a + h * msPerHour
             + lunchSkipped (millisOfDay (utcToColombiaTime a))
                            (h * msPerHour))).
Proof.
  intros Hh Hfit Hfuel. set (x := utcToColombiaTime a) in *.
  unfold addWorkingHours.
  replace ((calculateRemainingBusinessHours x =? 0) && (h =? 1)) with false
    by (unfold msPerHour in *; lia).
  destruct fuel as [|f]; [lia|].
  rewrite addWorkingHoursFrom_S.
  replace (0 <? h * msPerHour) with true by (unfold msPerHour; lia).
  cbv zeta.
  replace (0 <? calculateRemainingBusinessHours x) with true
    by (unfold msPerHour in *; lia).
  replace (Z.min (h * msPerHour - 0) (calculateRemainingBusinessHours x))
    with (h * msPerHour) by lia.
  unfold x at 1.
  rewrite addHoursSkippingLunch_value by (unfold msPerHour; lia).
  cbv beta iota.
  replace (0 + h * msPerHour <? h * msPerHour) with false by lia.
  apply addWorkingHoursFrom_done. lia.
Qed.

(** X16.  When the hours asked for are positive and no more than the
    business time left in the day of the reading, [addWorkingHours]
    returns, with any fuel from 3 on and whatever the holiday list, the
    reading that much later, one hour more when 12:00 is crossed; the
    day of the reading is not tested. *)
Theorem addWorkingHours_same_day H a h fuel :
  0 < h ->
  h * msPerHour <= calculateRemainingBusinessHours (utcToColombiaTime a) ->
  (3 <= fuel)%nat ->
  addWorkingHours fuel H (utcToColombiaTime a) h
  = Some (utcToColombiaTime
            (a + h * msPerHour
             + lunchSkipped (millisOfDay (utcToColombiaTime a))
                            (h * msPerHour))).
Proof. apply addWorkingHours_fits. Qed.

(** Monday 2025-01-06 11:00 local plus three hours is 15:00 local. *)
Lemma addWorkingHours_same_day_witness :
  addWorkingHours 3 [] (utcToColombiaTime (utcInstant 2025 1 6 16 0)) 3
  = Some (utcToColombiaTime (utcInstant 2025 1 6 20 0)).
Proof.
  rewrite (addWorkingHours_same_day [] (utcInstant 2025 1 6 16 0) 3 3%nat);
    [reflexivity|lia|vm_compute; discriminate|lia].
Defined.

(** ** Hours that run over the day *)

Lemma getNextWorkingDayStart_first H x f c :
  offset x = bogotaOffset ->
  getNextWorkingDayStart f H x = Some c ->
  exists j : nat,
    c = atLocal (localDay x + Z.of_nat (S j)) startOfDayMs
    /\ workingDate H (localDay x + Z.of_nat (S j)) = true
    /\ countAccepted (fun i => workingDate H (localDay x + i)) (S j) = 1.
Proof.
  intros Hx Hrun.
  destruct (forward_search_bound H x (searchBound H) Hx (le_n _))
    as [j (Hj & Hrun' & Hok & Hmin)].
  exists (Z.to_nat (j - 1)).
  replace (Z.of_nat (S (Z.to_nat (j - 1)))) with j by lia.
  split; [|split; [exact Hok|]].
  - unfold getNextWorkingDayStart in *.
    pose proof (untilWorkingDay_mono H nextDayStart f
                  (Nat.max f (searchBound H)) _ _ Hrun ltac:(lia)) as E1.
    pose proof (untilWorkingDay_mono H nextDayStart (searchBound H)
                  (Nat.max f (searchBound H)) _ _ Hrun' ltac:(lia)) as E2.
    congruence.
  - cbn [countAccepted].
    replace (Z.of_nat (S (Z.to_nat (j - 1)))) with j by lia.
    rewrite Hok.
    rewrite countAccepted_none by (intros i Hi; apply Hmin; lia).
    reflexivity.
Qed.

Lemma addWorkingHoursFrom_day_start H : forall fuel D added toAdd r,
  added < toAdd ->
  addWorkingHoursFrom fuel H (atLocal D startOfDayMs) added toAdd = Some r ->
  let m := toAdd - added in
  let q := (m - 1) / (8 * msPerHour) in
  exists k : nat,
    r = atLocal (D + Z.of_nat k) (timeAfterStart (m - q * (8 * msPerHour)))
    /\ countAccepted (fun i => workingDate H (D + i)) k = q
    /\ (q = 0 -> k = 0%nat)
    /\ (0 < q -> workingDate H (D + Z.of_nat k) = true).
Proof.
  assert (Hstart : 0 <= startOfDayMs < msPerDay)
    by (vm_compute; split; [discriminate|reflexivity]).
  assert (Hend : 0 <= endOfDayMs < msPerDay)
    by (vm_compute; split; [discriminate|reflexivity]).
  induction fuel as [|f IH]; intros D added toAdd r Hlt Hrun.
  - cbn [addWorkingHoursFrom] in Hrun.
    replace (added <? toAdd) with true in Hrun by lia. discriminate.
  - rewrite addWorkingHoursFrom_S in Hrun.
    replace (added <? toAdd) with true in Hrun by lia.
    cbv zeta in Hrun.
    rewrite calculateRemainingBusinessHours_startOfDay in Hrun.
    replace (0 <? 8 * msPerHour) with true in Hrun by reflexivity.
    set (n := Z.min (toAdd - added) (8 * msPerHour)) in *.
    destruct (addHoursSkippingLunch f (atLocal D startOfDayMs) n) as [r1|] eqn:Hr1;
      cbv beta iota in Hrun; [|discriminate].
    apply addHoursSkippingLunch_sound in Hr1;
      [|reflexivity|unfold n, msPerHour; lia].
    rewrite millisOfDay_atLocal in Hr1 by exact Hstart.
    assert (E1 : r1 = atLocal D (timeAfterStart n)).
    { rewrite Hr1. unfold utcToColombiaTime, setZone, atLocal, timeAfterStart.
      cbn [ts offset]. f_equal. unfold bogotaOffset, msPerMinute. lia. }
    clear Hr1. intros m q.
    destruct (Z.ltb_spec (added + n) toAdd) as [Hmore|Hdone].
    + (* a whole day is used up *)
      assert (Hn : n = 8 * msPerHour) by (unfold n in *; lia).
      assert (E2 : r1 = atLocal D endOfDayMs).
      { rewrite E1, Hn. reflexivity. }
      destruct (getNextWorkingDayStart f H r1) as [c|] eqn:Hc;
        cbv beta iota in Hrun; [|discriminate].
      apply getNextWorkingDayStart_first in Hc; [|rewrite E2; reflexivity].
      rewrite E2 in Hc. rewrite localDay_atLocal in Hc by exact Hend.
      destruct Hc as [j (-> & Hok & Hone)].
      destruct (IH _ _ _ _ Hmore Hrun) as [k (Hr & Hcount & Hzero & Hlast)].
      assert (Hq : (toAdd - (added + n) - 1) / (8 * msPerHour) = q - 1
                   /\ 1 <= q).
      { unfold q, m, n, msPerHour in *. divmod. }
      destruct Hq as [Hq Hq1]. rewrite Hq in *.
      exists (S j + k)%nat. split; [|split; [|split]].
      * rewrite Hr. f_equal; [lia|]. f_equal. unfold m. rewrite Hn. lia.
      * rewrite countAccepted_add.
        rewrite (countAccepted_ext _
                   (fun i => workingDate H (D + Z.of_nat (S j) + i)) k)
          by (intros i _; f_equal; lia).
        rewrite Hcount, Hone. lia.
      * lia.
      * intros _. destruct (Z.eq_dec (q - 1) 0) as [Hz|Hnz].
        -- rewrite (Hzero Hz). rewrite Nat.add_0_r. exact Hok.
        -- replace (D + Z.of_nat (S j + k))
             with (D + Z.of_nat (S j) + Z.of_nat k) by lia.
           apply Hlast. lia.
    + (* the rest fits in this day *)
      cbv beta iota in Hrun.
      rewrite addWorkingHoursFrom_done in Hrun by lia.
      injection Hrun as <-.
      assert (Hn : n = m) by (unfold n, m in *; lia).
      assert (Hq : q = 0).
      { unfold q, n, m, msPerHour in *. divmod. }
      exists 0%nat. rewrite Hq.
      split; [|split; [reflexivity|split; [reflexivity|lia]]].
      rewrite E1, Hn. f_equal; [lia|f_equal; lia].
Qed.

Lemma addWorkingHoursFrom_overflow H fuel x toAdd r :
  offset x = bogotaOffset ->
  calculateRemainingBusinessHours x < toAdd ->
  addWorkingHoursFrom fuel H x 0 toAdd = Some r ->
  let m := toAdd - calculateRemainingBusinessHours x in
  let q := (m - 1) / (8 * msPerHour) in
  exists k : nat,
    r = atLocal (localDay x + Z.of_nat k)
                (timeAfterStart (m - q * (8 * msPerHour)))
    /\ countAccepted (fun i => workingDate H (localDay x + i)) k = q + 1
    /\ workingDate H (localDay x + Z.of_nat k) = true.
Proof.
  intros Hx Hover Hrun m q.
  pose proof (calculateRemainingBusinessHours_nonneg x) as HR.
  assert (Hq0 : 0 <= q) by (unfold q, m, msPerHour; divmod).
  assert (Hfinish : forall f j added,
            added = calculateRemainingBusinessHours x ->
            workingDate H (localDay x + Z.of_nat (S j)) = true ->
            countAccepted (fun i => workingDate H (localDay x + i)) (S j) = 1 ->
            addWorkingHoursFrom f H
              (atLocal (localDay x + Z.of_nat (S j)) startOfDayMs) added toAdd
            = Some r ->
            exists k : nat,
              r = atLocal (localDay x + Z.of_nat k)
                          (timeAfterStart (m - q * (8 * msPerHour)))
              /\ countAccepted (fun i => workingDate H (localDay x + i)) k
                 = q + 1
              /\ workingDate H (localDay x + Z.of_nat k) = true).
  { intros f j added Hadded Hok Hone Hrest.
    destruct (addWorkingHoursFrom_day_start H f _ added toAdd r
                ltac:(lia) Hrest) as [k (Hr & Hcount & Hzero & Hlast)].
    rewrite Hadded in Hr, Hcount, Hzero, Hlast.
    fold m in Hr, Hcount, Hzero, Hlast. fold q in Hr, Hcount, Hzero, Hlast.
    exists (S j + k)%nat. split; [|split].
    - rewrite Hr. f_equal; lia.
    - rewrite countAccepted_add.
      rewrite (countAccepted_ext _
                 (fun i => workingDate H (localDay x + Z.of_nat (S j) + i)) k)
        by (intros i _; f_equal; lia).
      rewrite Hcount, Hone. lia.
    - destruct (Z.eq_dec q 0) as [Hz|Hnz].
      + rewrite (Hzero Hz). rewrite Nat.add_0_r. exact Hok.
      + replace (localDay x + Z.of_nat (S j + k))
          with (localDay x + Z.of_nat (S j) + Z.of_nat k) by lia.
        apply Hlast. lia. }
  destruct fuel as [|f].
  - cbn [addWorkingHoursFrom] in Hrun.
    replace (0 <? toAdd) with true in Hrun by lia. discriminate.
  - rewrite addWorkingHoursFrom_S in Hrun.
    replace (0 <? toAdd) with true in Hrun by lia.
    cbv zeta in Hrun.
    destruct (Z.ltb_spec 0 (calculateRemainingBusinessHours x)) as [Hpos|Hzero].
    + replace (Z.min (toAdd - 0) (calculateRemainingBusinessHours x))
        with (calculateRemainingBusinessHours x) in Hrun by lia.
      destruct (addHoursSkippingLunch f x (calculateRemainingBusinessHours x))
        as [r1|] eqn:Hr1; cbv beta iota in Hrun; [|discriminate].
      destruct (addHours_same_day x _ f r1 Hx Hpos (Z.le_refl _) Hr1)
        as (Ho1 & Hd1 & _ & _ & He1).
      specialize (He1 eq_refl).
      replace (0 + calculateRemainingBusinessHours x <? toAdd) with true
        in Hrun by lia.
      destruct (getNextWorkingDayStart f H r1) as [c|] eqn:Hc;
        cbv beta iota in Hrun; [|discriminate].
      apply getNextWorkingDayStart_first in Hc; [|exact Ho1].
      rewrite Hd1 in Hc. destruct Hc as [j (-> & Hok & Hone)].
      apply (Hfinish f j _ (Z.add_0_l _) Hok Hone Hrun).
    + cbv beta iota in Hrun.
      replace (0 <? toAdd) with true in Hrun by lia.
      destruct (getNextWorkingDayStart f H x) as [c|] eqn:Hc;
        cbv beta iota in Hrun; [|discriminate].
      apply getNextWorkingDayStart_first in Hc; [|exact Hx].
      destruct Hc as [j (-> & Hok & Hone)].
      apply (Hfinish f j 0 ltac:(lia) Hok Hone Hrun).
Qed.

Lemma addWorkingHours_overflows H a h :
  let x := utcToColombiaTime a in
  let m := h * msPerHour - calculateRemainingBusinessHours x in
  let q := (m - 1) / (8 * msPerHour) in
  calculateRemainingBusinessHours x < h * msPerHour ->
  ~ (calculateRemainingBusinessHours x = 0 /\ h = 1) ->
  exists k : nat,
    (forall fuel, (searchBound H + 3 + Z.to_nat h <= fuel)%nat ->
       addWorkingHours fuel H x h
       = Some (atLocal (localDay x + Z.of_nat k)
                       (timeAfterStart (m - q * (8 * msPerHour)))))
    /\ workingDate H (localDay x + Z.of_nat k) = true
    /\ countAccepted (fun i => workingDate H (localDay x + i)) k = q + 1
    /\ 0 < m - q * (8 * msPerHour) <= 8 * msPerHour.
Proof.
  intros x m q Hover Hnot.
  destruct (addWorkingHours_total H x h eq_refl) as [r [Hr _]].
  pose proof (Hr _ (le_n _)) as Hrun. unfold addWorkingHours in Hrun.
  replace ((calculateRemainingBusinessHours x =? 0) && (h =? 1)) with false
    in Hrun by lia.
  destruct (addWorkingHoursFrom_overflow H _ x _ r eq_refl Hover Hrun)
    as [k (Hk & Hcount & Hok)].
  fold m in Hk, Hcount. fold q in Hk, Hcount.
  exists k. split; [|split; [exact Hok|split; [exact Hcount|]]].
  - intros fuel Hfuel. rewrite <- Hk. apply Hr. exact Hfuel.
  - unfold q. unfold m, msPerHour in *. divmod.
Qed.

(** X17.  When the hours asked for are more than the business time [R]
    left in the day of the reading (and it is not the case of one hour
    with nothing left), [addWorkingHours] spends [R] on that day and
    eight hours on each following working date: with [m] the time still
    to add after the first day and [q = (m - 1) / 8 h], the result is on
    the [(q + 1)]-th working date after the day of the reading, at the
    time that is [m - q * 8 h] of business time after 08:00. *)
Theorem addWorkingHours_later_day H a h :
  let x := utcToColombiaTime a in
  let m := h * msPerHour - calculateRemainingBusinessHours x in
  let q := (m - 1) / (8 * msPerHour) in
  calculateRemainingBusinessHours x < h * msPerHour ->
  ~ (calculateRemainingBusinessHours x = 0 /\ h = 1) ->
  exists k : nat,
    (forall fuel, (searchBound H + 3 + Z.to_nat h <= fuel)%nat ->
       addWorkingHours fuel H x h
       = Some (atLocal (localDay x + Z.of_nat k)
                       (timeAfterStart (m - q * (8 * msPerHour)))))
    /\ workingDate H (localDay x + Z.of_nat k) = true
    /\ countAccepted (fun i => workingDate H (localDay x + i)) k = q + 1
    /\ 0 < m - q * (8 * msPerHour) <= 8 * msPerHour.
Proof. apply addWorkingHours_overflows. Qed.

(** Friday 2025-01-03 16:00 local plus ten hours: one on Friday, eight
    on the first working date after it, and the last on the second,
    until 09:00. *)
Lemma addWorkingHours_later_day_witness :
  exists k : nat,
    (forall fuel, (searchBound [] + 3 + Z.to_nat 10 <= fuel)%nat ->
       addWorkingHours fuel [] (utcToColombiaTime (utcInstant 2025 1 3 21 0)) 10
       = Some (atLocal
                 (localDay (utcToColombiaTime (utcInstant 2025 1 3 21 0))
                  + Z.of_nat k)
                 (9 * msPerHour)))
    /\ workingDate []
         (localDay (utcToColombiaTime (utcInstant 2025 1 3 21 0)) + Z.of_nat k)
       = true
    /\ countAccepted
         (fun i => workingDate []
            (localDay (utcToColombiaTime (utcInstant 2025 1 3 21 0)) + i)) k
       = 2.
Proof.
  destruct (addWorkingHours_later_day [] (utcInstant 2025 1 3 21 0) 10)
    as [k (Hk & Hok & Hcount & _)];
    [vm_compute; reflexivity|vm_compute; intros [E _]; discriminate|].
  exists k. split; [exact Hk|]. split; [exact Hok|exact Hcount].
Defined.

(** ** Moving a date to Monday *)

(** X18.  In a process whose time zone is a fixed offset from UTC,
    for every date with six days to spare in the range of [Date],
    [moveToNextMonday] returns a date whose local day of the week is
    Monday, a whole number of days from 0 to 6 after the one given, and
    none exactly when that one is a Monday already; applied again it
    changes nothing. *)
Theorem moveToNextMonday_monday tz d :
  - maxTime <= d -> d + 6 * msPerDay <= maxTime ->
  exists k, 0 <= k <= 6
    /\ moveToNextMonday tz d = d + k * msPerDay
    /\ - maxTime <= moveToNextMonday tz d <= maxTime
    /\ getDay tz (moveToNextMonday tz d) = 1
    /\ (k = 0 <-> getDay tz d = 1)
    /\ moveToNextMonday tz (moveToNextMonday tz d) = moveToNextMonday tz d.
Proof.
  intros Hlow Hhigh.
  destruct (moveToNextMonday_shift tz d) as [k (Hk & Hval & Hmon & Hzero)].
  exists k. split; [exact Hk|].
  split; [rewrite Hval; unfold msPerDay; lia|].
  split; [rewrite Hval; unfold msPerDay in *; lia|].
  split; [exact Hmon|]. split; [exact Hzero|].
  unfold moveToNextMonday at 1. rewrite Hmon. reflexivity.
Qed.

(** Wednesday 2025-03-19, local midnight in Bogotá, moves five days to
    Monday 2025-03-24. *)
Lemma moveToNextMonday_monday_witness :
  moveToNextMonday (-300) (Date_local (-300) 2025 2 19)
  = Date_local (-300) 2025 2 24
  /\ getDay (-300) (moveToNextMonday (-300) (Date_local (-300) 2025 2 19)) = 1.
Proof.
  destruct (moveToNextMonday_monday (-300) (Date_local (-300) 2025 2 19))
    as [k (_ & _ & _ & Hmon & _)];
    [vm_compute; discriminate|vm_compute; discriminate|].
  split; [vm_compute; reflexivity|exact Hmon].
Defined.

(** ** The start of the business day *)

(** X19.  For a Bogotá reading, [getBusinessDayStart] is the reading
    08:00:00.000 of the same civil day: it is within business hours,
    has eight hours of business time left, is not later than the
    reading exactly when the reading is at or after 08:00, and applied
    again it changes nothing. *)
Theorem getBusinessDayStart_start a :
  let x := utcToColombiaTime a in
  getBusinessDayStart x = atLocal (localDay x) startOfDayMs
  /\ localDay (getBusinessDayStart x) = localDay x
  /\ isWithinBusinessHours (getBusinessDayStart x) = true
  /\ calculateRemainingBusinessHours (getBusinessDayStart x) = 8 * msPerHour
  /\ (ts (getBusinessDayStart x) <= a <-> startOfDayMs <= millisOfDay x)
  /\ getBusinessDayStart (getBusinessDayStart x) = getBusinessDayStart x.
Proof.
  intros x.
  assert (Hstart : 0 <= startOfDayMs < msPerDay)
    by (vm_compute; split; [discriminate|reflexivity]).
  assert (E : getBusinessDayStart x = atLocal (localDay x) startOfDayMs).
  { unfold getBusinessDayStart. config. apply setTime_atLocal. reflexivity. }
  rewrite E. split; [reflexivity|].
  split; [apply localDay_atLocal; exact Hstart|].
  split.
  { apply isWithinBusinessHours_minuteOfDay.
    rewrite minuteOfDay_atLocal by exact Hstart.
    replace (startOfDayMs / msPerMinute) with 480 by reflexivity. lia. }
  split; [apply calculateRemainingBusinessHours_startOfDay|].
  split.
  { rewrite ts_atLocal. pose proof (anchor_reading a) as Ha. fold x in Ha.
    lia. }
  unfold getBusinessDayStart. config.
  rewrite setTime_atLocal by reflexivity.
  rewrite localDay_atLocal by exact Hstart. reflexivity.
Qed.

(** ** More days, later results *)

Lemma plusDays_ts x k : ts (plusDays x k) = ts x + k * msPerDay.
Proof. reflexivity. Qed.

(** X20.  [addWorkingDays] is strictly increasing in the number of
    days: of two positive counts the larger one gives the later
    reading. *)
Theorem addWorkingDays_increasing H x d1 d2 :
  0 < d1 -> d1 < d2 ->
  exists r1 r2,
    (forall fuel, (searchBound H + Z.to_nat d2 <= fuel)%nat ->
       addWorkingDays fuel H x d1 = Some r1
       /\ addWorkingDays fuel H x d2 = Some r2)
    /\ ts x < ts r1 < ts r2.
Proof.
  intros H1 H12.
  destruct (addWorkingDaysFrom_count H (Z.to_nat d1) x 0 d1 ltac:(lia))
    as [k1 (Hk1 & Hc1 & _ & _)].
  destruct (addWorkingDaysFrom_count H (Z.to_nat d2) x 0 d2 ltac:(lia))
    as [k2 (Hk2 & Hc2 & _ & _)].
  exists (plusDays x (Z.of_nat k1)), (plusDays x (Z.of_nat k2)).
  split.
  - intros fuel Hfuel. split; [apply Hk1; lia|apply Hk2; lia].
  - rewrite !plusDays_ts.
    set (f := fun i => isWorkingDay H (toJSDate (plusDays x i))) in *.
    pose proof (countAccepted_range f k1) as Hr1.
    assert (Hlt : (k1 < k2)%nat).
    { destruct (Nat.lt_ge_cases k1 k2) as [Hlt|Hge]; [exact Hlt|].
      pose proof (countAccepted_mono f k2 k1 Hge). lia. }
    unfold msPerDay. lia.
Qed.

(** From Friday 2025-01-03 10:00 local, one day and three. *)
Lemma addWorkingDays_increasing_witness :
  exists r1 r2,
    (forall fuel, (searchBound [] + Z.to_nat 3 <= fuel)%nat ->
       addWorkingDays fuel [] (utcToColombiaTime (utcInstant 2025 1 3 15 0)) 1
       = Some r1
       /\ addWorkingDays fuel [] (utcToColombiaTime (utcInstant 2025 1 3 15 0)) 3
          = Some r2)
    /\ ts (utcToColombiaTime (utcInstant 2025 1 3 15 0)) < ts r1 < ts r2.
Proof.
  apply (addWorkingDays_increasing []
           (utcToColombiaTime (utcInstant 2025 1 3 15 0)) 1 3); lia.
Defined.

(** ** More hours, later results *)

Lemma timeAfterStart_range rem :
  0 < rem <= 8 * msPerHour ->
  startOfDayMs < timeAfterStart rem <= endOfDayMs.
Proof.
  unfold timeAfterStart, lunchSkipped, startOfDayMs, endOfDayMs,
    msPerHour, msPerMinute.
  intros Hr.
  replace (8 * 3600000 + 0 * 60000 <? 12 * 3600000) with true by reflexivity.
  destruct (12 * 3600000 - (8 * 3600000 + 0 * 60000) <? rem); lia.
Qed.

Lemma timeAfterStart_increasing rem rem' :
  rem < rem' -> timeAfterStart rem < timeAfterStart rem'.
Proof.
  unfold timeAfterStart, lunchSkipped, startOfDayMs, msPerHour, msPerMinute.
  intros Hr.
  replace (8 * 3600000 + 0 * 60000 <? 12 * 3600000) with true by reflexivity.
  destruct (12 * 3600000 - (8 * 3600000 + 0 * 60000) <? rem) eqn:E1;
    destruct (12 * 3600000 - (8 * 3600000 + 0 * 60000) <? rem') eqn:E2; lia.
Qed.

Lemma lunchSkipped_mono t n n' :
  n <= n' -> lunchSkipped t n <= lunchSkipped t n'.
Proof.
  unfold lunchSkipped, msPerHour. intros Hn.
  destruct (t <? 12 * 3600000); [|lia].
  destruct (12 * 3600000 - t <? n) eqn:E1;
    destruct (12 * 3600000 - t <? n') eqn:E2; lia.
Qed.

(** The three ways [addWorkingHours] ends, by the instant returned:
    within the day of the reading; at 08:00 of the next working date;
    on a later working date after the business time of the day is
    used up. *)
Lemma addWorkingHours_outcome H a h :
  0 < h ->
  let x := utcToColombiaTime a in
  let R := calculateRemainingBusinessHours x in
  let D := localDay x in
  exists r,
    (forall fuel, (searchBound H + 3 + Z.to_nat h <= fuel)%nat ->
       addWorkingHours fuel H x h = Some r)
    /\ ((h * msPerHour <= R
         /\ ts r = a + h * msPerHour + lunchSkipped (millisOfDay x) (h * msPerHour)
         /\ a < ts r <= D * msPerDay + endOfDayMs + 18000000)
        \/ (R = 0 /\ h = 1
            /\ exists k : nat,
                 ts r = (D + Z.of_nat k) * msPerDay + startOfDayMs + 18000000
                 /\ workingDate H (D + Z.of_nat k) = true
                 /\ countAccepted (fun i => workingDate H (D + i)) k = 1)
        \/ (R < h * msPerHour /\ ~ (R = 0 /\ h = 1)
            /\ exists k : nat,
                 ts r = (D + Z.of_nat k) * msPerDay
                        + timeAfterStart
                            (h * msPerHour - R
                             - (h * msPerHour - R - 1) / (8 * msPerHour)
                               * (8 * msPerHour))
                        + 18000000
                 /\ workingDate H (D + Z.of_nat k) = true
                 /\ countAccepted (fun i => workingDate H (D + i)) k
                    = (h * msPerHour - R - 1) / (8 * msPerHour) + 1)).
Proof.
  intros Hh x R D.
  destruct (addWorkingHours_total H x h eq_refl) as [r [Hr Hoff]].
  exists r. split; [exact Hr|].
  pose proof (Hr _ (le_n _)) as Hrun.
  pose proof (calculateRemainingBusinessHours_nonneg x) as HR. fold R in HR.
  destruct (Z_le_gt_dec (h * msPerHour) R) as [Hfit|Hover].
  - left. split; [exact Hfit|].
    rewrite (addWorkingHours_fits H a h _ Hh Hfit) in Hrun by lia.
    injection Hrun as Er.
    assert (Hval : addHoursSkippingLunch 2 x (h * msPerHour) = Some r).
    { rewrite <- Er. apply addHoursSkippingLunch_value; unfold msPerHour; lia. }
    destruct (addHours_same_day x (h * msPerHour) 2 r eq_refl
                ltac:(unfold msPerHour; lia) Hfit Hval)
      as (_ & Hd & Hs & Ht & _).
    split; [rewrite <- Er; reflexivity|]. split; [exact Ht|].
    pose proof (anchor_reading (ts r)) as Ha.
    rewrite <- (reading_eq r Hoff) in Ha. rewrite Hd in Ha. fold D in Ha.
    revert Hs.
    unfold stoppingTime, lunchStartMs, endOfDayMs, startOfDayMs, msPerHour,
      msPerMinute, msPerDay in *.
    lia.
  - destruct (Z.eq_dec R 0) as [HR0|HRn];
      [destruct (Z.eq_dec h 1) as [Hh1|Hhn]|].
    + right; left. split; [exact HR0|]. split; [exact Hh1|].
      unfold addWorkingHours in Hrun. fold R in Hrun.
      replace ((R =? 0) && (h =? 1)) with true in Hrun by lia.
      apply getNextWorkingDayStart_first in Hrun; [|reflexivity].
      destruct Hrun as [j (-> & Hok & Hone)].
      exists (S j). split; [apply ts_atLocal|]. split; [exact Hok|exact Hone].
    + right; right. split; [lia|]. split; [lia|].
      destruct (addWorkingHours_overflows H a h ltac:(fold x; fold R; lia)
                  ltac:(fold x; fold R; lia)) as [k (Hk & Hok & Hcount & _)].
      unfold x in Hrun. rewrite (Hk _ (le_n _)) in Hrun. injection Hrun as <-.
      exists k. split; [apply ts_atLocal|]. split; [exact Hok|exact Hcount].
    + right; right. split; [lia|]. split; [lia|].
      destruct (addWorkingHours_overflows H a h ltac:(fold x; fold R; lia)
                  ltac:(fold x; fold R; lia)) as [k (Hk & Hok & Hcount & _)].
      unfold x in Hrun. rewrite (Hk _ (le_n _)) in Hrun. injection Hrun as <-.
      exists k. split; [apply ts_atLocal|]. split; [exact Hok|exact Hcount].
Qed.

(** Later working dates at business times are later instants. *)
Lemma later_date_later D (k k' : nat) t t' :
  (k < k')%nat -> t <= endOfDayMs -> startOfDayMs <= t' ->
  (D + Z.of_nat k) * msPerDay + t + 18000000
  < (D + Z.of_nat k') * msPerDay + t' + 18000000.
Proof.
  unfold endOfDayMs, startOfDayMs, msPerDay, msPerHour, msPerMinute. lia.
Qed.

Lemma addWorkingHours_later H a h1 h2 :
  0 < h1 -> h1 < h2 ->
  exists r1 r2,
    (forall fuel, (searchBound H + 3 + Z.to_nat h2 <= fuel)%nat ->
       addWorkingHours fuel H (utcToColombiaTime a) h1 = Some r1
       /\ addWorkingHours fuel H (utcToColombiaTime a) h2 = Some r2)
    /\ a < ts r1 < ts r2.
Proof.
  intros H1 H12.
  destruct (addWorkingHours_outcome H a h1 H1) as [r1 [Hr1 Hc1]].
  destruct (addWorkingHours_outcome H a h2 ltac:(lia)) as [r2 [Hr2 Hc2]].
  exists r1, r2. split.
  { intros fuel Hfuel. split; [apply Hr1; lia|apply Hr2; lia]. }
  set (x := utcToColombiaTime a) in *.
  set (R := calculateRemainingBusinessHours x) in *.
  set (D := localDay x) in *.
  set (f := fun i => workingDate H (D + i)) in *.
  pose proof (calculateRemainingBusinessHours_nonneg x) as HR. fold R in HR.
  pose proof (anchor_reading a) as Ha. fold x in Ha. fold D in Ha.
  pose proof (millisOfDay_range x) as Ht.
  assert (Hstart : startOfDayMs = 28800000) by reflexivity.
  assert (Hend : endOfDayMs = 61200000) by reflexivity.
  assert (Hpos : forall k : nat, 1 <= countAccepted f k -> (1 <= k)%nat).
  { intros k Hk. pose proof (countAccepted_range f k). lia. }
  assert (Horder : forall k k' : nat,
            countAccepted f k < countAccepted f k' -> (k < k')%nat).
  { intros k k' Hlt. destruct (Nat.lt_ge_cases k k') as [Hc|Hc]; [exact Hc|].
    pose proof (countAccepted_mono f k' k Hc). lia. }
  assert (Hsame : forall k k' : nat,
            1 <= countAccepted f k -> countAccepted f k = countAccepted f k' ->
            f (Z.of_nat k) = true -> f (Z.of_nat k') = true -> k = k').
  { intros k k' Hk E Fk Fk'.
    apply (countAccepted_unique f); try assumption.
    - apply Hpos in Hk. lia.
    - rewrite E in Hk. apply Hpos in Hk. lia. }
  assert (Hafter : forall (k : nat) t, (1 <= k)%nat -> startOfDayMs <= t ->
            a < (D + Z.of_nat k) * msPerDay + t + 18000000).
  { intros k t Hk Hge. unfold msPerDay in *. lia. }
  destruct Hc1 as [(Hfit1 & Ets1 & Hb1)
                  |[(HR1 & Hh1 & k1 & Ets1 & Hok1 & Hcnt1)
                   |(Hov1 & Hn1 & k1 & Ets1 & Hok1 & Hcnt1)]];
    destruct Hc2 as [(Hfit2 & Ets2 & Hb2)
                    |[(HR2 & Hh2 & k2 & Ets2 & Hok2 & Hcnt2)
                     |(Hov2 & Hn2 & k2 & Ets2 & Hok2 & Hcnt2)]];
    try (exfalso; unfold msPerHour in *; lia).
  - (* both within the day *)
    split; [lia|]. rewrite Ets1, Ets2.
    pose proof (lunchSkipped_mono (millisOfDay x) (h1 * msPerHour)
                  (h2 * msPerHour) ltac:(unfold msPerHour; lia)).
    unfold msPerHour in *. lia.
  - (* within the day, and on a later date *)
    split; [lia|].
    set (q2 := (h2 * msPerHour - R - 1) / (8 * msPerHour)) in *.
    assert (Hq2 : 0 <= q2) by (unfold q2, msPerHour in *; divmod).
    assert (Hrem2 : 0 < h2 * msPerHour - R - q2 * (8 * msPerHour)
                    <= 8 * msPerHour) by (unfold q2, msPerHour in *; divmod).
    pose proof (timeAfterStart_range _ Hrem2) as Hr2'.
    assert (Hk2 : (1 <= k2)%nat) by (apply Hpos; lia).
    rewrite Ets2. unfold msPerDay in *. lia.
  - (* 08:00 of the next working date, and later *)
    set (q2 := (h2 * msPerHour - R - 1) / (8 * msPerHour)) in *.
    assert (Hq2 : 0 <= q2) by (unfold q2, msPerHour in *; divmod).
    assert (Hrem2 : 0 < h2 * msPerHour - R - q2 * (8 * msPerHour)
                    <= 8 * msPerHour) by (unfold q2, msPerHour in *; divmod).
    pose proof (timeAfterStart_range _ Hrem2) as Hr2'.
    assert (Hk1 : (1 <= k1)%nat) by (apply Hpos; lia).
    split; [rewrite Ets1; apply Hafter; [exact Hk1|lia]|].
    rewrite Ets1, Ets2.
    destruct (Z.eq_dec q2 0) as [Hz|Hnz].
    + assert (k1 = k2) by (apply Hsame; [lia|lia|exact Hok1|exact Hok2]).
      subst k2. lia.
    + apply later_date_later; [apply Horder; lia|lia|lia].
  - (* both on later dates *)
    set (q1 := (h1 * msPerHour - R - 1) / (8 * msPerHour)) in *.
    set (q2 := (h2 * msPerHour - R - 1) / (8 * msPerHour)) in *.
    assert (Hq1 : 0 <= q1) by (unfold q1, msPerHour in *; divmod).
    assert (Hq12 : q1 <= q2) by (unfold q1, q2, msPerHour in *; divmod).
    assert (Hrem1 : 0 < h1 * msPerHour - R - q1 * (8 * msPerHour)
                    <= 8 * msPerHour) by (unfold q1, msPerHour in *; divmod).
    assert (Hrem2 : 0 < h2 * msPerHour - R - q2 * (8 * msPerHour)
                    <= 8 * msPerHour) by (unfold q2, msPerHour in *; divmod).
    pose proof (timeAfterStart_range _ Hrem1) as Hr1'.
    pose proof (timeAfterStart_range _ Hrem2) as Hr2'.
    assert (Hk1 : (1 <= k1)%nat) by (apply Hpos; lia).
    split; [rewrite Ets1; apply Hafter; [exact Hk1|lia]|].
    rewrite Ets1, Ets2.
    destruct (Z.eq_dec q1 q2) as [Hz|Hnz].
    + assert (k1 = k2) by (apply Hsame; [lia|lia|exact Hok1|exact Hok2]).
      subst k2.
      assert (timeAfterStart (h1 * msPerHour - R - q1 * (8 * msPerHour))
              < timeAfterStart (h2 * msPerHour - R - q2 * (8 * msPerHour))).
      { apply timeAfterStart_increasing. rewrite Hz. unfold msPerHour. lia. }
      lia.
    + apply later_date_later; [apply Horder; lia|lia|lia].
Qed.

(** X21.  [addWorkingHours] is strictly increasing in the number of
    hours: from the same Bogotá reading, of two positive numbers of
    hours the larger one gives the later instant, and both are later
    than the reading. *)
Theorem addWorkingHours_increasing H a h1 h2 :
  0 < h1 -> h1 < h2 ->
  exists r1 r2,
    (forall fuel, (searchBound H + 3 + Z.to_nat h2 <= fuel)%nat ->
       addWorkingHours fuel H (utcToColombiaTime a) h1 = Some r1
       /\ addWorkingHours fuel H (utcToColombiaTime a) h2 = Some r2)
    /\ a < ts r1 < ts r2.
Proof. apply addWorkingHours_later. Qed.

(** From Friday 2025-01-03 16:00 local, two hours and ten. *)
Lemma addWorkingHours_increasing_witness :
  exists r1 r2,
    (forall fuel, (searchBound [] + 3 + Z.to_nat 10 <= fuel)%nat ->
       addWorkingHours fuel [] (utcToColombiaTime (utcInstant 2025 1 3 21 0)) 2
       = Some r1
       /\ addWorkingHours fuel [] (utcToColombiaTime (utcInstant 2025 1 3 21 0)) 10
          = Some r2)
    /\ utcInstant 2025 1 3 21 0 < ts r1 < ts r2.
Proof.
  apply (addWorkingHours_increasing [] (utcInstant 2025 1 3 21 0) 2 10); lia.
Defined.

(** ** The calculation and the number of hours *)

(** What a calculation adds hours to: the reading reached after the
    adjustment of the anchor and the addition of the days. *)
Lemma calculation_after_days H a d :
  exists x1,
    offset x1 = bogotaOffset
    /\ forall fuel, (searchBound H + 2 + Z.to_nat d <= fuel)%nat ->
         (currentColombiaTime <-
            (if negb (isWorkingDay H a)
                || negb (isWithinBusinessHours (utcToColombiaTime a))
             then currentDate' <- adjustToPreviousWorkingTime fuel H a ;;
                  Some (utcToColombiaTime currentDate')
             else Some (utcToColombiaTime a)) ;;
          if 0 <? d
          then addWorkingDays fuel H currentColombiaTime d
          else Some currentColombiaTime)
         = Some x1.
Proof.
  destruct (calculation_start H a) as [base [_ Hbase]].
  destruct (addWorkingDays_total H (utcToColombiaTime base) d)
    as [x1 [Hx1 Hoff]].
  destruct (Z.ltb_spec 0 d) as [Hd|Hd].
  - exists x1. split; [exact Hoff|]. intros fuel Hfuel.
    rewrite (proj2 (Hbase fuel ltac:(lia))). cbv beta iota.
    apply Hx1. lia.
  - exists (utcToColombiaTime base). split; [reflexivity|].
    intros fuel Hfuel.
    rewrite (proj2 (Hbase fuel ltac:(lia))). reflexivity.
Qed.

(** X22.  For the same anchor and number of days, a calculation with
    more hours returns a later instant: it is strictly increasing in a
    positive number of hours. *)
Theorem calculateWorkingDateTime_more_hours_later H now startDate days h1 h2 :
  0 < h1 -> h1 < h2 ->
  exists r1 r2,
    (forall fuel, (workFuel H (orZero days) h2 <= fuel)%nat ->
       calculateWorkingDateTime fuel H now days (Some h1) startDate = Some r1
       /\ calculateWorkingDateTime fuel H now days (Some h2) startDate
          = Some r2)
    /\ r1 < r2.
Proof.
  intros H1 H12.
  set (a := match startDate with Some d => d | None => now end).
  destruct (calculation_after_days H a (orZero days)) as [x1 [Hoff Hx1]].
  destruct (addWorkingHours_later H (ts x1) h1 h2 H1 H12)
    as [r1 [r2 [Hr Hlt]]].
  rewrite <- (reading_eq x1 Hoff) in Hr.
  exists (ts r1), (ts r2). split; [|lia].
  intros fuel Hfuel. unfold workFuel in Hfuel.
  destruct (Hr fuel ltac:(lia)) as [E1 E2].
  unfold calculateWorkingDateTime. cbn [orZero]. fold a.
  pose proof (Hx1 fuel ltac:(lia)) as Ex.
  destruct (if negb (isWorkingDay H a)
               || negb (isWithinBusinessHours (utcToColombiaTime a))
            then currentDate' <- adjustToPreviousWorkingTime fuel H a ;;
                 Some (utcToColombiaTime currentDate')
            else Some (utcToColombiaTime a)) as [x0|];
    cbv beta iota in Ex |- *; [|discriminate].
  rewrite Ex. cbv beta iota.
  replace (0 <? h1) with true by lia. replace (0 <? h2) with true by lia.
  rewrite E1, E2. split; reflexivity.
Qed.

(** From Saturday 2025-01-04 14:00 local, one day, and two hours or
    ten. *)
Lemma calculateWorkingDateTime_more_hours_later_witness :
  exists r1 r2,
    (forall fuel, (workFuel [] (orZero (Some 1%Z)) 10 <= fuel)%nat ->
       calculateWorkingDateTime fuel [] 0 (Some 1) (Some 2)
         (Some (utcInstant 2025 1 4 19 0)) = Some r1
       /\ calculateWorkingDateTime fuel [] 0 (Some 1) (Some 10)
            (Some (utcInstant 2025 1 4 19 0)) = Some r2)
    /\ r1 < r2.
Proof.
  apply (calculateWorkingDateTime_more_hours_later [] 0
           (Some (utcInstant 2025 1 4 19 0)) (Some 1) 2 10); lia.
Defined.

(** ** The error middleware *)

Lemma getErrorType_internal c :
  ErrorHandler.getErrorType c = "InternalServerError"%string
  <-> ~ In c [400; 401; 403; 404; 422; 429; 503].
Proof.
  unfold ErrorHandler.getErrorType. cbn [In].
  destruct (Z.eqb_spec c 400); [split; [discriminate|intros Hc; exfalso; lia]|].
  destruct (Z.eqb_spec c 401); [split; [discriminate|intros Hc; exfalso; lia]|].
  destruct (Z.eqb_spec c 403); [split; [discriminate|intros Hc; exfalso; lia]|].
  destruct (Z.eqb_spec c 404); [split; [discriminate|intros Hc; exfalso; lia]|].
  destruct (Z.eqb_spec c 422); [split; [discriminate|intros Hc; exfalso; lia]|].
  destruct (Z.eqb_spec c 429); [split; [discriminate|intros Hc; exfalso; lia]|].
  destruct (Z.eqb_spec c 500); [split; [intros _ Hc; lia|reflexivity]|].
  destruct (Z.eqb_spec c 503); [split; [discriminate|intros Hc; exfalso; lia]|].
  split; [intros _ Hc; lia|reflexivity].
Qed.

(** X23.  The reply of [errorHandler]: its error name is always the
    one [getErrorType] gives for its status; the name is
    InternalServerError exactly for the status codes other than 400,
    401, 403, 404, 422, 429 and 503; an error that is no [ApiError] is
    answered with status 500 and a fixed message, never its own; a
    trace is sent in development only; each creator of [createError]
    is answered with its own message, and two creators that are
    answered with the same status or name are the same; and
    [notFoundHandler] replies what [errorHandler] replies to
    [createError.notFound] outside development. *)
Theorem errorHandler_reply development :
  (forall err,
     ErrorHandler.error (ErrorHandler.errorHandler development err)
     = ErrorHandler.getErrorType
         (ErrorHandler.status (ErrorHandler.errorHandler development err)))
  /\ (forall c,
        ErrorHandler.getErrorType c = "InternalServerError"%string
        <-> ~ In c [400; 401; 403; 404; 422; 429; 503])
  /\ (forall m st,
        ErrorHandler.status
          (ErrorHandler.errorHandler development (ErrorHandler.PlainError m st))
        = 500
        /\ ErrorHandler.message
             (ErrorHandler.errorHandler development (ErrorHandler.PlainError m st))
           = "An unexpected error occurred"%string)
  /\ (forall err,
        ErrorHandler.stack (ErrorHandler.errorHandler false err) = None)
  /\ (forall key make st m,
        In (key, make) ErrorHandler.createError ->
        ErrorHandler.message (ErrorHandler.errorHandler development (make st m))
        = m)
  /\ (forall key1 make1 key2 make2 st1 m1 st2 m2,
        In (key1, make1) ErrorHandler.createError ->
        In (key2, make2) ErrorHandler.createError ->
        ErrorHandler.status (ErrorHandler.errorHandler development (make1 st1 m1))
        = ErrorHandler.status
            (ErrorHandler.errorHandler development (make2 st2 m2))
        \/ ErrorHandler.error
             (ErrorHandler.errorHandler development (make1 st1 m1))
           = ErrorHandler.error
               (ErrorHandler.errorHandler development (make2 st2 m2)) ->
        key1 = key2)
  /\ (forall key make st,
        In (key, make) ErrorHandler.createError -> key = "notFound"%string ->
        ErrorHandler.errorHandler false (make st "Endpoint not found"%string)
        = ErrorHandler.notFoundHandler).
Proof.
  split; [|split; [|split; [|split; [|split; [|split]]]]].
  - intros [m st|c m op st]; reflexivity.
  - apply getErrorType_internal.
  - intros m st. split; reflexivity.
  - intros [m st|c m op st]; reflexivity.
  - intros key make st m Hin. cbn [ErrorHandler.createError In] in Hin.
    repeat (destruct Hin as [Hin|Hin];
            [injection Hin as <- <-; reflexivity|]).
    contradiction.
  - intros key1 make1 key2 make2 st1 m1 st2 m2 Hin1 Hin2.
    cbn [ErrorHandler.createError In] in Hin1, Hin2.
    repeat (destruct Hin1 as [Hin1|Hin1];
            [injection Hin1 as <- <-;
             repeat (destruct Hin2 as [Hin2|Hin2];
                     [injection Hin2 as <- <-;
                      first [reflexivity
                            |intros [Hc|Hc]; discriminate Hc]|]);
             contradiction|]).
    contradiction.
  - intros key make st Hin Hkey. subst key.
    cbn [ErrorHandler.createError In] in Hin.
    repeat (destruct Hin as [Hin|Hin];
            [first [discriminate Hin|injection Hin as <-; reflexivity]|]).
    contradiction.
Qed.
